(** * ShillEarn Hub backend: wallet ledger, withdrawals, missions, referrals

    A shallow embedding of the Flask/SQLAlchemy backend (src/backend).
    Tables are lists of rows in primary-key order, a request handler is a
    function from the committed database to the committed database and the
    HTTP reply, and a Python exception that escapes a handler leaves the
    database as it was (the session is discarded without a commit and the
    500 handler of app.py answers).

    Integers are Python integers (unbounded, [Z]); floats are binary64
    ([PrimFloat.float]); timestamps are seconds ([Z]) and one request reads
    the clock once.  Columns that no modelled handler reads (e-mail,
    password hash, updated_at, ...) are left out of the records. *)

From Stdlib Require Import ZArith List String Ascii Bool Lia.
From Stdlib Require Import Floats.
Import ListNotations.
Local Open Scope string_scope.
Local Open Scope Z_scope.
Local Open Scope list_scope.

(** ** Python exceptions and results *)

Inductive exn : Type :=
| ValueError (msg : string)
| NameError (name : string)
| AttributeError (attr : string)
| OverflowError.

Inductive result (A : Type) : Type :=
| Ok (a : A)
| Raise (e : exn).
Arguments Ok {A} a.
Arguments Raise {A} e.

(** ** Python numbers and JSON values *)

Module PyNum.

(** [float(z)] for a Python int: the nearest binary64, ties to even;
    [None] stands for the OverflowError of an int beyond the float range. *)
Definition float_of_int (z : Z) : option float :=
  let f := SF2Prim (binary_normalize prec emax z 0 false) in
  if PrimFloat.is_infinity f then None else Some f.

(** [v >= t] for an int [v] and a float [t]: Python compares the exact
    values, it does not round the int.  A finite float is [num * 2 ^ e]. *)
Definition int_ge_sf (v : Z) (t : spec_float) : bool :=
  match t with
  | S754_zero _ => 0 <=? v
  | S754_infinity s => s
  | S754_nan => false
  | S754_finite s m e =>
      let num := if s then Z.neg m else Z.pos m in
      if 0 <=? e then Z.shiftl num e <=? v else num <=? Z.shiftl v (- e)
  end.

Definition int_ge_float (v : Z) (t : float) : bool := int_ge_sf v (Prim2SF t).

(** [int(f)]: truncation toward zero. *)
Definition int_of_float (f : float) : result Z :=
  match Prim2SF f with
  | S754_zero _ => Ok 0
  | S754_infinity _ => Raise OverflowError
  | S754_nan => Raise (ValueError "cannot convert float NaN to integer")
  | S754_finite s m e =>
      let mag := if 0 <=? e then Z.pos m * 2 ^ e else Z.pos m / 2 ^ (- e) in
      Ok (if s then - mag else mag)
  end.

#[local] Set Warnings "-register-all".

(** What [json.loads] / [request.get_json] return.  [JObj] lists the
    items of the resulting dict (keys distinct). *)
Inductive json : Type :=
| JNull
| JBool (b : bool)
| JInt (z : Z)
| JFloat (f : float)
| JStr (s : string)
| JArr (items : list json)
| JObj (items : list (string * json)).

(** [isinstance(v, int)]; [bool] is a subclass of [int]. *)
Definition as_int (v : json) : option Z :=
  match v with
  | JInt z => Some z
  | JBool b => Some (if b then 1 else 0)
  | _ => None
  end.

(** [bool(v)] *)
Definition truthy (v : json) : bool :=
  match v with
  | JNull => false
  | JBool b => b
  | JInt z => negb (z =? 0)
  | JFloat f => negb (PrimFloat.eqb f 0%float)
  | JStr s => negb (s =? "")%string
  | JArr items => negb (Nat.eqb (List.length items) 0)
  | JObj items => negb (Nat.eqb (List.length items) 0)
  end.

(** [v == 0] *)
Definition eq_zero (v : json) : bool :=
  match v with
  | JBool b => negb b
  | JInt z => z =? 0
  | JFloat f => PrimFloat.eqb f 0%float
  | _ => false
  end.

(** [len(v)]; [None] stands for the TypeError of an unsized value. *)
Definition len (v : json) : option Z :=
  match v with
  | JStr s => Some (Z.of_nat (String.length s))
  | JArr items => Some (Z.of_nat (List.length items))
  | JObj items => Some (Z.of_nat (List.length items))
  | _ => None
  end.

(** [d.get(key, default)]; [None] stands for the AttributeError of a
    value that is not a dict. *)
Definition dict_get (d : json) (key : string) (default : json) : option json :=
  match d with
  | JObj items =>
      match find (fun kv => (fst kv =? key)%string) items with
      | Some kv => Some (snd kv)
      | None => Some default
      end
  | _ => None
  end.

(** [sep in s] and [s.split(sep)] for a non-empty separator. *)
Fixpoint contains (sep s : string) : bool :=
  String.prefix sep s ||
  match s with
  | EmptyString => false
  | String _ r => contains sep r
  end.

Fixpoint split_aux (sep : string) (skip : nat) (cur : string) (s : string)
  : list string :=
  match s with
  | EmptyString => [cur]
  | String c r =>
      match skip with
      | S k => split_aux sep k cur r
      | O =>
          if String.prefix sep s
          then cur :: split_aux sep (String.length sep - 1) "" r
          else split_aux sep 0 (cur ++ String c "") r
      end
  end.

Definition split (sep s : string) : list string := split_aux sep 0 "" s.

End PyNum.
Import PyNum.

(** ** Rows (models.py) *)

Record User := mkUser {
  user_id : Z;
  username : string
}.

Record MembershipTier := mkTier {
  tier_id : Z;
  tier_name : string;
  price : Z;
  daily_missions : Z;
  referral_levels : Z;
  tier_is_active : bool
}.

Record Membership := mkMembership {
  ms_user_id : Z;
  ms_tier_id : Z;
  start_date : Z;
  end_date : Z;
  ms_is_active : bool;
  payment_id : string
}.

Record Mission := mkMission {
  mission_id : Z;
  title : string;
  reward : Z;
  mission_type : string;
  duration : Z;
  mission_is_active : bool
}.

Record MissionCompletion := mkCompletion {
  mc_user_id : Z;
  mc_mission_id : Z;
  mc_reward : Z;
  mc_completed_at : Z;
  mc_proof : string
}.

(** [referred_id] is a nullable column: [register] fills it from
    [new_user.id] before the new user has been flushed. *)
Record Referral := mkReferral {
  referral_id : Z;
  referrer_id : Z;
  referred_id : option Z;
  level : Z
}.

Record ReferralCommission := mkCommission {
  rc_referral_id : Z;
  rc_amount : Z;
  rc_description : string
}.

Record Wallet := mkWallet {
  wallet_id : Z;
  wallet_user_id : Z;
  balance : Z;
  total_earned : Z;
  total_withdrawn : Z
}.

Record WalletTransaction := mkTransaction {
  tx_wallet_id : Z;
  tx_amount : Z;
  tx_type : string;
  tx_description : string
}.

Record Withdrawal := mkWithdrawal {
  withdrawal_id : Z;
  wd_user_id : Z;
  wd_amount : Z;
  wd_method : string;
  wd_status : string;
  wd_account_info : string;
  wd_created_at : Z;
  processed_at : option Z
}.

Record Payment := mkPayment {
  pay_user_id : Z;
  pay_amount : Z;
  pay_method : string;
  pay_status : string;
  pay_reference : string;
  pay_description : string;
  pay_completed_at : option Z
}.

(** ** Wallet methods (models.py, class Wallet) *)

Module WalletModel.

(** [Wallet.add_funds]: returns the mutated wallet and the transaction
    handed to [db.session.add]. *)
Definition add_funds (self : Wallet) (amount : Z) (description : string)
  : Wallet * WalletTransaction :=
  (mkWallet (wallet_id self) (wallet_user_id self)
            (balance self + amount) (total_earned self + amount)
            (total_withdrawn self),
   mkTransaction (wallet_id self) amount "credit" description).

(** [Wallet.deduct_funds]: raises before any mutation when the balance is
    too small. *)
Definition deduct_funds (self : Wallet) (amount : Z) (description : string)
  : result (Wallet * WalletTransaction) :=
  if balance self <? amount then Raise (ValueError "Insufficient funds")
  else Ok (mkWallet (wallet_id self) (wallet_user_id self)
                    (balance self - amount) (total_earned self)
                    (total_withdrawn self),
           mkTransaction (wallet_id self) amount "debit" description).

(** A caller's view of one wallet and the transactions added for it. *)
Inductive ledger_op : Type :=
| Credit (amount : Z) (description : string)
| Debit (amount : Z) (description : string).

Definition op_amount (op : ledger_op) : Z :=
  match op with
  | Credit a _ => a
  | Debit a _ => a
  end.

(** One operation; a [ValueError] from [deduct_funds] is caught by the
    caller (as wallet/routes.py does) and nothing was changed. *)
Definition apply_op (st : Wallet * list WalletTransaction) (op : ledger_op)
  : Wallet * list WalletTransaction :=
  match op with
  | Credit a d =>
      let (w, t) := add_funds (fst st) a d in (w, snd st ++ [t])
  | Debit a d =>
      match deduct_funds (fst st) a d with
      | Ok (w, t) => (w, snd st ++ [t])
      | Raise _ => st
      end
  end.

Definition run_ops (ops : list ledger_op) (st : Wallet * list WalletTransaction)
  : Wallet * list WalletTransaction :=
  fold_left apply_op ops st.

End WalletModel.
Import WalletModel.

(** ** The database and the ORM queries the handlers use *)

Record DB := mkDB {
  users : list User;
  membership_tiers : list MembershipTier;
  memberships : list Membership;
  missions : list Mission;
  mission_completions : list MissionCompletion;
  referrals : list Referral;
  referral_commissions : list ReferralCommission;
  wallets : list Wallet;
  wallet_transactions : list WalletTransaction;
  withdrawals : list Withdrawal;
  payments : list Payment
}.

Definition set_memberships (db : DB) (x : list Membership) : DB :=
  mkDB (users db) (membership_tiers db) x (missions db)
       (mission_completions db) (referrals db) (referral_commissions db)
       (wallets db) (wallet_transactions db) (withdrawals db) (payments db).

Definition set_mission_completions (db : DB) (x : list MissionCompletion) : DB :=
  mkDB (users db) (membership_tiers db) (memberships db) (missions db)
       x (referrals db) (referral_commissions db)
       (wallets db) (wallet_transactions db) (withdrawals db) (payments db).

Definition set_referrals (db : DB) (x : list Referral) : DB :=
  mkDB (users db) (membership_tiers db) (memberships db) (missions db)
       (mission_completions db) x (referral_commissions db)
       (wallets db) (wallet_transactions db) (withdrawals db) (payments db).

Definition set_wallets (db : DB) (x : list Wallet) : DB :=
  mkDB (users db) (membership_tiers db) (memberships db) (missions db)
       (mission_completions db) (referrals db) (referral_commissions db)
       x (wallet_transactions db) (withdrawals db) (payments db).

Definition set_wallet_transactions (db : DB) (x : list WalletTransaction) : DB :=
  mkDB (users db) (membership_tiers db) (memberships db) (missions db)
       (mission_completions db) (referrals db) (referral_commissions db)
       (wallets db) x (withdrawals db) (payments db).

Definition set_withdrawals (db : DB) (x : list Withdrawal) : DB :=
  mkDB (users db) (membership_tiers db) (memberships db) (missions db)
       (mission_completions db) (referrals db) (referral_commissions db)
       (wallets db) (wallet_transactions db) x (payments db).

Definition set_payments (db : DB) (x : list Payment) : DB :=
  mkDB (users db) (membership_tiers db) (memberships db) (missions db)
       (mission_completions db) (referrals db) (referral_commissions db)
       (wallets db) (wallet_transactions db) (withdrawals db) x.

(** An attribute assignment on the object a query returned: the first row
    that satisfies the query's filter is the one rewritten. *)
Fixpoint update_first {A : Type} (p : A -> bool) (f : A -> A) (l : list A)
  : list A :=
  match l with
  | [] => []
  | x :: r => if p x then f x :: r else x :: update_first p f r
  end.

(** The primary key an autoincrement column gives the next row. *)
Definition fresh_id (ids : list Z) : Z := fold_right Z.max 0 ids + 1.

(** [User.query.get(id)] *)
Definition get_user (db : DB) (id : Z) : option User :=
  find (fun u => user_id u =? id) (users db).

(** [user.wallet] and [user.membership] ([uselist=False]) *)
Definition owns_wallet (user : User) (w : Wallet) : bool :=
  wallet_user_id w =? user_id user.

Definition user_wallet (db : DB) (user : User) : option Wallet :=
  find (owns_wallet user) (wallets db).

Definition user_membership (db : DB) (user : User) : option Membership :=
  find (fun m => ms_user_id m =? user_id user) (memberships db).

(** [membership.tier] *)
Definition membership_tier (db : DB) (m : Membership) : option MembershipTier :=
  find (fun t => tier_id t =? ms_tier_id m) (membership_tiers db).

(** [Withdrawal.query.get(id)] *)
Definition has_withdrawal_id (id : Z) (w : Withdrawal) : bool :=
  withdrawal_id w =? id.

Definition get_withdrawal (db : DB) (id : Z) : option Withdrawal :=
  find (has_withdrawal_id id) (withdrawals db).

(** ** Integer columns

    [db.Integer] on SQLite, the database of config.py's development and
    testing settings, holds a signed 64-bit value.  The flush that binds a
    Python int outside that range raises OverflowError, the request ends
    in the 500 handler and the session is rolled back. *)
Definition in_column (v : Z) : bool := (- 2 ^ 63 <=? v) && (v <? 2 ^ 63).

(** [user.wallet.add_funds(amount, description)] inside a request and the
    flush of the commit that follows: the user's wallet row is rewritten
    and the transaction joins the session, unless one of the two sums
    that [add_funds] computed does not fit its column.  The other values
    of that flush are copies of stored columns. *)
Definition credit_wallet (db : DB) (user : User) (wallet : Wallet)
  (amount : Z) (description : string) : result DB :=
  let (wallet', t) := add_funds wallet amount description in
  if in_column (balance wallet') && in_column (total_earned wallet')
  then
    Ok (set_wallet_transactions
          (set_wallets db
             (update_first (owns_wallet user) (fun _ => wallet') (wallets db)))
          (wallet_transactions db ++ [t]))
  else Raise OverflowError.

(** ** HTTP replies *)

Inductive response : Type :=
| Reply (code : Z) (body : list (string * json))
| Unhandled (e : exn).

Definition error_reply (code : Z) (msg : string) : response :=
  Reply code [("error", JStr msg)].

(** ** wallet/routes.py: request_withdrawal

    The integers this handler writes are the requested amount, which is
    positive and at most the stored balance, and the balance less that
    amount: both lie between 0 and a stored column value, so the flush
    cannot leave the column range. *)

Record withdrawal_form := mkForm {
  form_amount : option json;
  form_method : option string;
  form_account_info : option string
}.

Definition valid_methods : list string := ["mpesa"; "bank"; "paypal"].

Definition request_withdrawal (db : DB) (current_user_id : Z)
  (data : withdrawal_form) (now : Z) : DB * response :=
  match get_user db current_user_id with
  | None => (db, error_reply 404 "Wallet not found")
  | Some user =>
  match user_wallet db user with
  | None => (db, error_reply 404 "Wallet not found")
  | Some wallet =>
  match form_amount data with
  | None => (db, error_reply 400 "amount is required")
  | Some amount_value =>
  match form_method data with
  | None => (db, error_reply 400 "method is required")
  | Some method =>
  match form_account_info data with
  | None => (db, error_reply 400 "account_info is required")
  | Some account_info =>
  match as_int amount_value with
  | None => (db, error_reply 400 "Invalid amount")
  | Some amount =>
      if amount <=? 0 then (db, error_reply 400 "Invalid amount")
      else if balance wallet <? amount
      then (db, error_reply 400 "Insufficient balance")
      else if negb (existsb (String.eqb method) valid_methods)
      then (db, error_reply 400
                  "Invalid method. Must be one of: ['mpesa', 'bank', 'paypal']")
      else
        let withdrawal :=
          mkWithdrawal (fresh_id (map withdrawal_id (withdrawals db)))
                       (user_id user) amount method "pending" account_info
                       now None in
        match deduct_funds wallet amount ("Withdrawal request via " ++ method) with
        | Raise (ValueError msg) => (db, error_reply 400 msg)
        | Raise e => (db, Unhandled e)
        | Ok (wallet', t) =>
            (set_withdrawals
               (set_wallet_transactions
                  (set_wallets db
                     (update_first (owns_wallet user) (fun _ => wallet') (wallets db)))
                  (wallet_transactions db ++ [t]))
               (withdrawals db ++ [withdrawal]),
             Reply 201
               [("message", JStr "Withdrawal request submitted successfully");
                ("withdrawal_id", JInt (withdrawal_id withdrawal));
                ("status", JStr (wd_status withdrawal))])
        end
  end end end end end end.

(** ** admin/routes.py: process_withdrawal *)

Definition valid_statuses : list string := ["pending"; "completed"; "failed"].

Definition withdrawal_updated (w : Withdrawal) : response :=
  Reply 200 [("message", JStr "Withdrawal updated successfully");
             ("withdrawal_id", JInt (withdrawal_id w));
             ("status", JStr (wd_status w))].

Definition process_withdrawal (db : DB) (id : Z) (data_status : option string)
  (now : Z) : DB * response :=
  match get_withdrawal db id with
  | None => (db, error_reply 404 "Withdrawal not found")
  | Some withdrawal =>
  match data_status with
  | None => (db, withdrawal_updated withdrawal)
  | Some new_status =>
      if negb (existsb (String.eqb new_status) valid_statuses)
      then (db, error_reply 400 "Invalid status")
      else
        let resolving :=
          negb (new_status =? "pending")%string
          && (wd_status withdrawal =? "pending")%string in
        let refund :=
          if resolving && (new_status =? "failed")%string then
            match get_user db (wd_user_id withdrawal) with
            | Some user =>
                match user_wallet db user with
                | Some wallet =>
                    credit_wallet db user wallet (wd_amount withdrawal)
                                  "Refund for failed withdrawal"
                | None => Ok db
                end
            | None => Ok db
            end
          else Ok db in
        let withdrawal' :=
          mkWithdrawal (withdrawal_id withdrawal) (wd_user_id withdrawal)
                       (wd_amount withdrawal) (wd_method withdrawal)
                       new_status (wd_account_info withdrawal)
                       (wd_created_at withdrawal)
                       (if resolving then Some now else processed_at withdrawal) in
        match refund with
        | Raise e => (db, Unhandled e)
        | Ok db1 =>
            (set_withdrawals db1
               (update_first (has_withdrawal_id id) (fun _ => withdrawal')
                             (withdrawals db1)),
             withdrawal_updated withdrawal')
        end
  end end.

(** ** mission/utils.py and mission/routes.py *)

#[local] Set Warnings "-inexact-float".

Section Missions.

(** [json.loads]; [None] stands for any exception it raises. *)
Variable json_loads : string -> option json.

(** [view_duration >= mission.duration * 0.9]; [None] stands for the
    TypeError or OverflowError of an operand that is not a usable number. *)
Definition duration_reached (view_duration : json) (required : Z) : option bool :=
  match float_of_int required with
  | None => None
  | Some d =>
      let threshold := PrimFloat.mul d 0.9%float in
      match view_duration with
      | JInt v => Some (int_ge_float v threshold)
      | JBool b => Some (int_ge_float (if b then 1 else 0) threshold)
      | JFloat f => Some (PrimFloat.leb threshold f)
      | _ => None
      end
  end.

(** [validate_mission_completion]: every [try] body ends in a bare
    [except: return False]. *)
Definition validate_mission_completion (mission : Mission) (proof : string)
  : bool :=
  if (proof =? "")%string then false
  else if (mission_type mission =? "ad")%string then
    match json_loads proof with
    | None => false
    | Some proof_data =>
        match dict_get proof_data "duration" (JInt 0) with
        | None => false
        | Some view_duration =>
            match duration_reached view_duration (duration mission) with
            | Some b => b
            | None => false
            end
        end
    end
  else if (mission_type mission =? "social")%string then
    match json_loads proof with
    | None => false
    | Some proof_data =>
        match dict_get proof_data "engagement_id" JNull,
              dict_get proof_data "platform" JNull with
        | Some engagement_id, Some platform =>
            truthy engagement_id && truthy platform
        | _, _ => false
        end
    end
  else if (mission_type mission =? "survey")%string then
    match json_loads proof with
    | None => false
    | Some proof_data =>
        match dict_get proof_data "responses" (JArr []) with
        | None => false
        | Some responses =>
            match len responses with
            | Some n => 0 <? n
            | None => false
            end
        end
    end
  else true.

(** [db.func.date(completed_at)]: the calendar day of a timestamp. *)
Definition date (t : Z) : Z := t / 86400.

(** [Mission.query.get(id)] *)
Definition get_mission (db : DB) (id : Z) : option Mission :=
  find (fun m => mission_id m =? id) (missions db).

(** The rows of the two [MissionCompletion] queries of [complete_mission]. *)
Definition completed_today (db : DB) (user : User) (today : Z)
  : list MissionCompletion :=
  filter (fun c => (mc_user_id c =? user_id user) && (date (mc_completed_at c) =? today))
         (mission_completions db).

Definition already_completed (db : DB) (user : User) (mission : Mission)
  (today : Z) : bool :=
  existsb (fun c => (mc_user_id c =? user_id user)
                    && (mc_mission_id c =? mission_id mission)
                    && (date (mc_completed_at c) =? today))
          (mission_completions db).

Definition complete_mission (db : DB) (current_user_id : Z) (id : Z)
  (proof : string) (now : Z) : DB * response :=
  match get_user db current_user_id with
  | None => (db, error_reply 404 "User not found")
  | Some user =>
  match user_membership db user with
  | None => (db, error_reply 403 "Active membership required")
  | Some membership =>
      if negb (ms_is_active membership) || (end_date membership <? now)
      then (db, error_reply 403 "Active membership required")
      else
  match get_mission db id with
  | None => (db, error_reply 404 "Mission not found")
  | Some mission =>
      if negb (mission_is_active mission)
      then (db, error_reply 404 "Mission not found")
      else
        let today := date now in
        if already_completed db user mission today
        then (db, error_reply 400 "Mission already completed today")
        else
  match membership_tier db membership with
  | None => (db, Unhandled (AttributeError "daily_missions"))
  | Some tier =>
      if daily_missions tier <=? Z.of_nat (List.length (completed_today db user today))
      then (db, error_reply 400 "Daily mission limit reached")
      else if negb (validate_mission_completion mission proof)
      then (db, error_reply 400 "Invalid mission completion proof")
      else
        let completion :=
          mkCompletion (user_id user) (mission_id mission) (reward mission)
                       now proof in
        match user_wallet db user with
        | None => (db, Unhandled (AttributeError "add_funds"))
        | Some wallet =>
            match credit_wallet db user wallet (reward mission)
                    ("Reward for completing mission: " ++ title mission) with
            | Raise e => (db, Unhandled e)
            | Ok db1 =>
                (set_mission_completions db1
                   (mission_completions db1 ++ [completion]),
                 Reply 200 [("message", JStr "Mission completed successfully");
                            ("reward", JInt (reward mission));
                            ("wallet_balance",
                             JInt (balance wallet + reward mission))])
            end
        end
  end end end end.

(** A day's requests of one user, in order: mission id, proof, clock. *)
Fixpoint complete_missions (db : DB) (current_user_id : Z)
  (calls : list (Z * string * Z)) : DB * list response :=
  match calls with
  | [] => (db, [])
  | (id, proof, now) :: rest =>
      let (db1, r) := complete_mission db current_user_id id proof now in
      let (db2, rs) := complete_missions db1 current_user_id rest in
      (db2, r :: rs)
  end.

End Missions.

(** The binary64 test of [duration_reached] against the exact one: for an
    integer view duration the float threshold of [required] separates
    [ceil (9 * required / 10)] from its predecessor. *)
Definition ad_threshold_agrees (required : Z) : bool :=
  match float_of_int required with
  | None => false
  | Some d =>
      let threshold := Prim2SF (PrimFloat.mul d 0.9%float) in
      let c := (9 * required + 9) / 10 in
      int_ge_sf c threshold && negb (int_ge_sf (c - 1) threshold)
  end.

Fixpoint ad_threshold_agrees_from (n : nat) (required : Z) : bool :=
  match n with
  | O => true
  | S k =>
      if ad_threshold_agrees required
      then ad_threshold_agrees_from k (required + 1)
      else false
  end.

(** ** wallet/utils.py: calculate_referral_commission *)

Definition commission_rates (level : Z) : option float :=
  if level =? 1 then Some 0.10%float
  else if level =? 2 then Some 0.05%float
  else if level =? 3 then Some 0.03%float
  else if level =? 4 then Some 0.02%float
  else if level =? 5 then Some 0.01%float
  else None.

(** [int(amount * rate)], with the int [0] as the rate of an unknown level. *)
Definition calculate_referral_commission (amount : Z) (level : Z) : result Z :=
  match commission_rates level with
  | None => Ok (amount * 0)
  | Some rate =>
      match float_of_int amount with
      | None => Raise OverflowError
      | Some a => int_of_float (PrimFloat.mul a rate)
      end
  end.

(** ** payment/routes.py: mpesa_callback *)

Definition has_reference (reference : string) (p : Payment) : bool :=
  (pay_reference p =? reference)%string.

Definition set_payment_status (p : Payment) (status : string)
  (completed : option Z) : Payment :=
  mkPayment (pay_user_id p) (pay_amount p) (pay_method p) status
            (pay_reference p) (pay_description p) completed.

(** [payment.description.split(': ')[1] if ': ' in payment.description
    else None] *)
Definition tier_name_of (description : string) : option string :=
  if contains ": " description
  then Some (nth 1 (split ": " description) "")
  else None.

(** The handler never touches a wallet, a transaction or a commission row:
    it has no call to [calculate_referral_commission] or [add_funds].

    Renewal (lines 142-146): payment/routes.py imports only [datetime] from
    the datetime module, so [timedelta(days=365)] on line 144 raises
    NameError after two attribute assignments on the in-memory membership
    and before [db.session.commit()]; nothing of the request is committed.
    [Membership.__init__] (models.py, which does import [timedelta]) sets
    the end date of a first membership. *)
Definition mpesa_callback (db : DB) (reference : option string)
  (result_code : json) (now : Z) : DB * response :=
  match reference with
  | None => (db, error_reply 400 "Missing reference")
  | Some reference =>
  if (reference =? "")%string then (db, error_reply 400 "Missing reference")
  else
  match find (has_reference reference) (payments db) with
  | None => (db, error_reply 404 "Payment not found")
  | Some payment =>
      if eq_zero result_code then
        let db1 :=
          set_payments db
            (update_first (has_reference reference)
               (fun p => set_payment_status p "completed" (Some now))
               (payments db)) in
        let success := Reply 200 [("success", JBool true)] in
        match tier_name_of (pay_description payment) with
        | None => (db1, success)
        | Some name =>
            if (name =? "")%string then (db1, success)
            else
              match find (fun t => (tier_name t =? name)%string)
                         (membership_tiers db) with
              | None => (db1, success)
              | Some tier =>
                  match get_user db (pay_user_id payment) with
                  | None => (db, Unhandled (AttributeError "membership"))
                  | Some user =>
                      match user_membership db user with
                      | Some _ => (db, Unhandled (NameError "timedelta"))
                      | None =>
                          let membership :=
                            mkMembership (user_id user) (tier_id tier) now
                                         (now + 365 * 86400) true
                                         (pay_reference payment) in
                          (set_memberships db1 (memberships db1 ++ [membership]),
                           success)
                      end
                  end
              end
        end
      else
        (set_payments db
           (update_first (has_reference reference)
              (fun p => set_payment_status p "failed" (pay_completed_at p))
              (payments db)),
         Reply 200 [("success", JBool false)])
  end end.

(** ** auth/routes.py: register, the referral block (lines 56-81) *)

Module Registration.

(** [Referral.query.filter_by(referred_id=current_referrer.id).first()] *)
Definition refers_to (current : User) (r : Referral) : bool :=
  match referred_id r with
  | Some x => x =? user_id current
  | None => false
  end.

(** [indirect_referrer.membership and
     indirect_referrer.membership.tier.referral_levels >= level] *)
Definition membership_allows (db : DB) (indirect_referrer : User) (level : Z)
  : result bool :=
  match user_membership db indirect_referrer with
  | None => Ok false
  | Some membership =>
      match membership_tier db membership with
      | None => Raise (AttributeError "referral_levels")
      | Some tier => Ok (level <=? referral_levels tier)
      end
  end.

(** The [for level in range(2, 6)] loop.  [session] holds the referral rows
    this request has added; every query flushes them first, so the queries
    see them after the committed rows.  [new_user_id] is the value of
    [new_user.id] where the rows are built (the new user joins the session
    only after the loop). *)
Fixpoint indirect_referrals (db : DB) (new_user_id : option Z)
  (levels : list Z) (current_referrer : User) (session : list Referral)
  : result (list Referral) :=
  match levels with
  | [] => Ok session
  | level :: rest =>
      match find (refers_to current_referrer) (referrals db ++ session) with
      | None => Ok session
      | Some referrer_relation =>
          match get_user db (referrer_id referrer_relation) with
          | None => Ok session
          | Some indirect_referrer =>
              match membership_allows db indirect_referrer level with
              | Raise e => Raise e
              | Ok true =>
                  let indirect_referral :=
                    mkReferral
                      (fresh_id (map referral_id (referrals db ++ session)))
                      (user_id indirect_referrer) new_user_id level in
                  indirect_referrals db new_user_id rest indirect_referrer
                                     (session ++ [indirect_referral])
              | Ok false =>
                  indirect_referrals db new_user_id rest indirect_referrer
                                     session
              end
          end
      end
  end.

Definition register_referrals (db : DB) (referral_code : option string)
  (new_user_id : option Z) : result DB :=
  match referral_code with
  | None => Ok db
  | Some code =>
      if (code =? "")%string then Ok db
      else
        match find (fun u => (username u =? code)%string) (users db) with
        | None => Ok db
        | Some referrer =>
            let referral :=
              mkReferral (fresh_id (map referral_id (referrals db)))
                         (user_id referrer) new_user_id 1 in
            match indirect_referrals db new_user_id [2; 3; 4; 5] referrer
                                     [referral] with
            | Raise e => Raise e
            | Ok session => Ok (set_referrals db (referrals db ++ session))
            end
        end
  end.

(** The chain above a user, as section 4.3 of the specification walks it:
    the referrer of [current], then that user's referrer, ..., one per
    level, whether or not an edge is made for it. *)
Definition referrer_of (db : DB) (current : User) : option User :=
  match find (refers_to current) (referrals db) with
  | None => None
  | Some relation => get_user db (referrer_id relation)
  end.

Fixpoint upward_walk (db : DB) (levels : list Z) (current : User)
  : list (User * Z) :=
  match levels with
  | [] => []
  | level :: rest =>
      match referrer_of db current with
      | None => []
      | Some ancestor => (ancestor, level) :: upward_walk db rest ancestor
      end
  end.

(** The ancestor has a membership row whose tier reaches the level; the
    row's active flag and end date are not looked at. *)
Definition tier_covers (db : DB) (al : User * Z) : bool :=
  match user_membership db (fst al) with
  | None => false
  | Some membership =>
      match membership_tier db membership with
      | None => false
      | Some tier => snd al <=? referral_levels tier
      end
  end.

(** Section 4.2: [is_usable(membership, now)]. *)
Definition is_usable (m : Membership) (now : Z) : bool :=
  ms_is_active m && (now <=? end_date m).

Definition edge_of (r : Referral) : Z * option Z * Z :=
  (referrer_id r, referred_id r, level r).

End Registration.
Import Registration.

(** ** Expected rows, used to state the withdrawal results *)



(** A wallet row after a credit, and the database after a credit that fits
    the columns. *)
Definition rewarded (w : Wallet) (amount : Z) : Wallet :=
  mkWallet (wallet_id w) (wallet_user_id w) (balance w + amount)
           (total_earned w + amount) (total_withdrawn w).

Definition credited (db : DB) (user : User) (w : Wallet) (amount : Z)
  (description : string) : DB :=
  set_wallet_transactions
    (set_wallets db
       (update_first (owns_wallet user) (fun _ => rewarded w amount) (wallets db)))
    (wallet_transactions db
     ++ [mkTransaction (wallet_id w) amount "credit" description]).

(** Both sums of a credit fit their columns. *)
Definition credit_fits (w : Wallet) (amount : Z) : Prop :=
  in_column (balance w + amount) = true
  /\ in_column (total_earned w + amount) = true.



(** ** Concrete databases *)

Module Scenario.

Definition alice : User := mkUser 1 "alice".

(** One user with 1000 in the wallet and nothing else. *)
Definition alice_db : DB :=
  mkDB [alice] [] [] [] [] [] [] [mkWallet 1 1 1000 1000 0] [] [] [].

(** The same user with total_earned a hundred below the top of its
    column. *)
Definition capped_db : DB :=
  mkDB [alice] [] [] [] [] [] []
       [mkWallet 1 1 1000 9223372036854775707 0] [] [] [].

(** The same user after a withdrawal of 500 was paid out. *)
Definition settled_db : DB :=
  mkDB [alice] [] [] [] [] [] [] [mkWallet 1 1 500 1000 0]
       [mkTransaction 1 500 "debit" "Withdrawal request via mpesa"]
       [mkWithdrawal 1 1 500 "mpesa" "completed" "0712345678" 100 (Some 200)]
       [].

(** Section 8 of the specification: tier basic costs 3500; B refers C
    refers D; D has a pending payment for basic. *)
Definition basic : MembershipTier := mkTier 1 "basic" 3500 1 3 true.
Definition user_b : User := mkUser 2 "B".
Definition user_c : User := mkUser 3 "C".
Definition user_d : User := mkUser 4 "D".

Definition purchase_db : DB :=
  mkDB [user_b; user_c; user_d]
       [basic]
       [mkMembership 2 1 0 31536000 true "SLH-000B";
        mkMembership 3 1 0 31536000 true "SLH-000C"]
       [] []
       [mkReferral 1 2 (Some 3) 1;
        mkReferral 2 3 (Some 4) 1;
        mkReferral 3 2 (Some 4) 2]
       []
       [mkWallet 2 2 0 0 0; mkWallet 3 3 0 0 0; mkWallet 4 4 0 0 0]
       []
       []
       [mkPayment 4 3500 "mpesa" "pending" "SLH-000D" "Membership: basic" None].

End Scenario.

(** ** Vocabulary of the daily-quota statement *)

Definition succeeded (r : response) : bool :=
  match r with
  | Reply code _ => code =? 200
  | Unhandled _ => false
  end.





Module QuotaScenario.

(** A member whose tier allows two missions a day, three active missions of
    a type the validator accepts by default, and no completion yet. *)
Definition member : User := mkUser 7 "grace".
Definition two_a_day : MembershipTier := mkTier 1 "plus" 10500 2 3 true.
Definition membership : Membership := mkMembership 7 1 0 31536000 true "SLH-0007".

Definition quota_db : DB :=
  mkDB [member] [two_a_day] [membership]
       [mkMission 1 "Follow" 20 "task" 0 true;
        mkMission 2 "Share" 30 "task" 0 true;
        mkMission 3 "Rate" 40 "task" 0 true]
       [] [] []
       [mkWallet 7 7 0 0 0] [] [] [].

Definition no_json (proof : string) : option json := None.

Definition two_calls : list (Z * string * Z) :=
  [(1, "done", 86400 * 10 + 60); (2, "done", 86400 * 10 + 120)].


End QuotaScenario.

Module AdScenario.

(** An ad of 30 seconds, and a proof that reports [v] seconds watched. *)
Definition clip : Mission := mkMission 1 "Watch the clip" 10 "ad" 30 true.

Definition watched (v : Z) (proof : string) : option json :=
  Some (JObj [("duration", JInt v)]).

(** An ad whose duration is far beyond 2 ^ 53. *)
Definition long_clip : Mission :=
  mkMission 2 "Watch it all" 10 "ad" 69057710105581731 true.

End AdScenario.

Module ReferralScenario.

(** A referred B.  A's membership is switched off and ended long ago, but
    its tier reaches five levels.  B has no membership. *)
Definition deep : MembershipTier := mkTier 1 "max" 150000 40 5 true.
Definition ancestor_a : User := mkUser 1 "A".
Definition referrer_b : User := mkUser 2 "B".
Definition lapsed : Membership := mkMembership 1 1 0 100 false "SLH-000A".

Definition lapsed_db : DB :=
  mkDB [ancestor_a; referrer_b] [deep] [lapsed] [] []
       [mkReferral 1 1 (Some 2) 1] [] [] [] [] [].

End ReferralScenario.


(** ** Reading the transaction log *)

(** What a transaction row says happened to the balance. *)
Definition signed_amount (t : WalletTransaction) : Z :=
  if (tx_type t =? "credit")%string then tx_amount t
  else if (tx_type t =? "debit")%string then - tx_amount t
  else 0.

Definition credit_amount (t : WalletTransaction) : Z :=
  if (tx_type t =? "credit")%string then tx_amount t else 0.

Definition sum (l : list Z) : Z := fold_right Z.add 0 l.

(** The net of the rows logged for one wallet. *)
Definition ledger_total (txs : list WalletTransaction) (id : Z) : Z :=
  sum (map signed_amount (filter (fun t => tx_wallet_id t =? id) txs)).

(** A wallet's balance minus what the log accounts for. *)
Definition unlogged_balance (txs : list WalletTransaction) (w : Wallet) : Z :=
  balance w - ledger_total txs (wallet_id w).

(** ** The state-changing endpoints, as the blueprints of app.py route them *)

Inductive request : Type :=
| RequestWithdrawal (current_user_id : Z) (data : withdrawal_form)
| ProcessWithdrawal (id : Z) (data_status : option string)
| CompleteMission (current_user_id : Z) (id : Z) (proof : string)
| MpesaCallback (reference : option string) (result_code : json).

Section Serving.

Variable json_loads : string -> option json.

Definition handle (db : DB) (now : Z) (req : request) : DB * response :=
  match req with
  | RequestWithdrawal uid data => request_withdrawal db uid data now
  | ProcessWithdrawal id data_status => process_withdrawal db id data_status now
  | CompleteMission uid id proof => complete_mission json_loads db uid id proof now
  | MpesaCallback reference result_code =>
      mpesa_callback db reference result_code now
  end.

(** Requests served one after the other, each with its clock reading. *)
Fixpoint serve (db : DB) (reqs : list (Z * request)) : DB :=
  match reqs with
  | [] => db
  | (now, req) :: rest => serve (fst (handle db now req)) rest
  end.

End Serving.

(** How one request can touch the wallets and the log: not at all, or the
    wallet row of one user is rewritten and one row is logged for it. *)
Definition wallet_step (db db' : DB) : Prop :=
  (wallets db' = wallets db /\ wallet_transactions db' = wallet_transactions db)
  \/ exists user w w' t,
       user_wallet db user = Some w
       /\ wallets db' = update_first (owns_wallet user) (fun _ => w') (wallets db)
       /\ wallet_transactions db' = wallet_transactions db ++ [t]
       /\ wallet_id w' = wallet_id w
       /\ wallet_user_id w' = wallet_user_id w
       /\ total_withdrawn w' = total_withdrawn w
       /\ tx_wallet_id t = wallet_id w
       /\ balance w' = balance w + signed_amount t
       /\ total_earned w' = total_earned w + credit_amount t
       /\ (0 <= balance w'
           \/ (exists wd, In wd (withdrawals db) /\ signed_amount t = wd_amount wd)
           \/ (exists m, In m (missions db) /\ signed_amount t = reward m)).

(** Amounts the handlers may later credit are not negative. *)
Definition payable (db : DB) : Prop :=
  Forall (fun wd => 0 <= wd_amount wd) (withdrawals db)
  /\ Forall (fun m => 0 <= reward m) (missions db).

Module ServingScenario.

(** A request for 500, its failure, and a request for more than is left. *)
Definition day : list (Z * request) :=
  [(100, RequestWithdrawal 1
           (mkForm (Some (JInt 500)) (Some "mpesa") (Some "0712345678")));
   (200, ProcessWithdrawal 1 (Some "failed"));
   (300, RequestWithdrawal 1
           (mkForm (Some (JInt 1500)) (Some "bank") (Some "KCB 0001")))].

End ServingScenario.

(** A reply with an error status, or no reply at all. *)
Definition refused (r : response) : bool :=
  match r with
  | Reply code _ => 400 <=? code
  | Unhandled _ => true
  end.

Module BusyScenario.

(** The member of [QuotaScenario] keeps calling: a repeat, a mission that
    does not exist, an empty proof, and more missions than the tier allows,
    over two days. *)
Definition calls : list (Z * string * Z) :=
  [(1, "done", 864060); (1, "done", 864120); (9, "done", 864180);
   (2, "", 864240); (2, "done", 864300); (3, "done", 864360);
   (3, "done", 950400); (1, "done", 950460); (2, "done", 950520)].

End BusyScenario.

(** ** models.py: User.get_available_missions *)

(** [~Mission.id.in_(...)]: the mission is not among those the user
    completed today. *)
Definition not_done_today (db : DB) (self : User) (today : Z) (mission : Mission)
  : bool :=
  negb (existsb (fun c => mc_mission_id c =? mission_id mission)
                (completed_today db self today)).

(** The method looks at the membership's active flag, not at its end date;
    [.limit(n).all()] keeps the first [n] rows. *)
Definition get_available_missions (db : DB) (self : User) (now : Z)
  : result (list Mission) :=
  match user_membership db self with
  | None => Ok []
  | Some membership =>
      if negb (ms_is_active membership) then Ok []
      else
        let today := date now in
        let completed := Z.of_nat (List.length (completed_today db self today)) in
        match membership_tier db membership with
        | None => Raise (AttributeError "daily_missions")
        | Some tier =>
            let daily_limit := daily_missions tier in
            if daily_limit <=? completed then Ok []
            else
              Ok (firstn (Z.to_nat (daily_limit - completed))
                    (filter (fun mission =>
                               mission_is_active mission
                               && not_done_today db self today mission)
                            (missions db)))
        end
  end.

(** ** admin/routes.py: update_mission *)

Definition set_missions (db : DB) (x : list Mission) : DB :=
  mkDB (users db) (membership_tiers db) (memberships db) x
       (mission_completions db) (referrals db) (referral_commissions db)
       (wallets db) (wallet_transactions db) (withdrawals db) (payments db).

(** The keys of the request body that name a modelled column; [None] is a
    key that is absent. *)
Record mission_form := mkMissionForm {
  mf_title : option string;
  mf_reward : option Z;
  mf_type : option string;
  mf_duration : option Z;
  mf_is_active : option bool
}.

Definition or_keep {A : Type} (new : option A) (old : A) : A :=
  match new with
  | Some x => x
  | None => old
  end.

Definition has_mission_id (id : Z) (mission : Mission) : bool :=
  mission_id mission =? id.

Definition update_mission (db : DB) (id : Z) (data : mission_form)
  : DB * response :=
  match get_mission db id with
  | None => (db, error_reply 404 "Mission not found")
  | Some mission =>
      let mission' :=
        mkMission (mission_id mission)
                  (or_keep (mf_title data) (title mission))
                  (or_keep (mf_reward data) (reward mission))
                  (or_keep (mf_type data) (mission_type mission))
                  (or_keep (mf_duration data) (duration mission))
                  (or_keep (mf_is_active data) (mission_is_active mission)) in
      (set_missions db
         (update_first (has_mission_id id) (fun _ => mission') (missions db)),
       Reply 200 [("message", JStr "Mission updated successfully");
                  ("mission_id", JInt (mission_id mission))])
  end.

(** ** payment/routes.py: initialize_payment *)

(** What [MpesaAPI.initiate_stk_push] hands back: its [success] flag with
    the checkout request id or the message. *)
Inductive stk_outcome : Type :=
| StkAccepted (checkout_request_id : json)
| StkDeclined (message : json).

Record payment_form := mkPaymentForm {
  pf_tier_id : option Z;
  pf_payment_method : option string;
  (** [data.get('phone_number', user.phone_number)] *)
  pf_phone_number : option string
}.

Definition valid_payment_methods : list string := ["mpesa"; "card"; "paypal"].

Section Payments.

(** The collaborators of the handler: the M-Pesa client, Flask's [url_for]
    for the two payment pages; each may raise. *)
Variable initiate_stk_push : string -> Z -> string -> string -> result stk_outcome.
Variable url_for : string -> Z -> result string.

(** [reference] is the [SLH-] token drawn from [uuid.uuid4()] and
    [payment_id] the primary key the database gives the new row ([Payment]
    rows carry no id in this model). *)
Definition initialize_payment (db : DB) (current_user_id : Z)
  (data : payment_form) (reference : string) (payment_id : Z) : DB * response :=
  match get_user db current_user_id with
  | None => (db, error_reply 404 "User not found")
  | Some user =>
  match pf_tier_id data with
  | None => (db, error_reply 400 "tier_id is required")
  | Some tid =>
  match pf_payment_method data with
  | None => (db, error_reply 400 "payment_method is required")
  | Some payment_method =>
  match find (fun t => tier_id t =? tid) (membership_tiers db) with
  | None => (db, error_reply 400 "Invalid membership tier")
  | Some tier =>
      if negb (tier_is_active tier)
      then (db, error_reply 400 "Invalid membership tier")
      else if negb (existsb (String.eqb payment_method) valid_payment_methods)
      then (db, error_reply 400
                  "Invalid payment method. Must be one of: ['mpesa', 'card', 'paypal']")
      else
        let payment :=
          mkPayment (user_id user) (price tier) payment_method "pending"
                    reference ("Membership: " ++ tier_name tier) None in
        let db1 := set_payments db (payments db ++ [payment]) in
        let pending (extra : list (string * json)) :=
          Reply 200 ([("payment_id", JInt payment_id);
                      ("reference", JStr reference);
                      ("amount", JInt (price tier));
                      ("status", JStr "pending")] ++ extra) in
        if (payment_method =? "mpesa")%string then
          match pf_phone_number data with
          | None => (db1, error_reply 400 "Phone number is required for M-Pesa payment")
          | Some phone_number =>
              if (phone_number =? "")%string
              then (db1, error_reply 400 "Phone number is required for M-Pesa payment")
              else
                match initiate_stk_push phone_number (price tier) reference
                        ("ShillEarn Hub " ++ tier_name tier ++ " Membership") with
                | Raise e => (db1, Unhandled e)
                | Ok (StkAccepted checkout_request_id) =>
                    (db1, pending
                            [("message", JStr "Please complete the payment on your phone");
                             ("checkout_request_id", checkout_request_id)])
                | Ok (StkDeclined message) =>
                    (set_payments db
                       (payments db ++ [set_payment_status payment "failed" None]),
                     Reply 400 [("error", JStr "Failed to initiate payment");
                                ("message", message)])
                end
          end
        else if (payment_method =? "card")%string then
          match url_for "payment.card_payment_page" payment_id with
          | Raise e => (db1, Unhandled e)
          | Ok payment_url => (db1, pending [("payment_url", JStr payment_url)])
          end
        else
          match url_for "payment.paypal_payment_page" payment_id with
          | Raise e => (db1, Unhandled e)
          | Ok payment_url => (db1, pending [("payment_url", JStr payment_url)])
          end
  end end end end.

End Payments.

Module PurchaseScenario.

(** D of [Scenario.purchase_db] before any payment was started. *)
Definition shop_db : DB :=
  set_payments Scenario.purchase_db [].

Definition no_push (phone : string) (amount : Z) (reference description : string)
  : result stk_outcome :=
  Raise (AttributeError "consumer_key").

Definition page (endpoint : string) (payment_id : Z) : result string :=
  Ok "https://example.com/pay".

(** The shop with a second tier whose name is the empty string. *)
Definition unnamed : MembershipTier := mkTier 2 "" 100 1 1 true.

Definition unnamed_db : DB :=
  mkDB (users shop_db) [Scenario.basic; unnamed] (memberships shop_db)
       (missions shop_db) (mission_completions shop_db) (referrals shop_db)
       (referral_commissions shop_db) (wallets shop_db)
       (wallet_transactions shop_db) (withdrawals shop_db) (payments shop_db).

End PurchaseScenario.

(** ** admin/routes.py: create_membership_tier, update_membership_tier *)

Definition set_membership_tiers (db : DB) (x : list MembershipTier) : DB :=
  mkDB (users db) x (memberships db) (missions db)
       (mission_completions db) (referrals db) (referral_commissions db)
       (wallets db) (wallet_transactions db) (withdrawals db) (payments db).

(** The keys of the request body; [None] is a key that is absent. *)
Record tier_form := mkTierForm {
  tf_name : option string;
  tf_price : option Z;
  tf_daily_missions : option Z;
  tf_referral_levels : option Z;
  tf_description : option string;
  tf_is_active : option bool
}.

Definition has_tier_id (id : Z) (t : MembershipTier) : bool := tier_id t =? id.

Definition has_tier_name (name : string) (t : MembershipTier) : bool :=
  (tier_name t =? name)%string.

Definition create_membership_tier (db : DB) (data : tier_form) : DB * response :=
  match tf_name data with
  | None => (db, error_reply 400 "name is required")
  | Some name =>
  match tf_price data with
  | None => (db, error_reply 400 "price is required")
  | Some tier_price =>
  match tf_daily_missions data with
  | None => (db, error_reply 400 "daily_missions is required")
  | Some missions_a_day =>
  match tf_referral_levels data with
  | None => (db, error_reply 400 "referral_levels is required")
  | Some levels =>
  match tf_description data with
  | None => (db, error_reply 400 "description is required")
  | Some _ =>
  match find (has_tier_name name) (membership_tiers db) with
  | Some _ =>
      (db, error_reply 400 "Membership tier with this name already exists")
  | None =>
      let tier :=
        mkTier (fresh_id (map tier_id (membership_tiers db))) name tier_price
               missions_a_day levels (or_keep (tf_is_active data) true) in
      (set_membership_tiers db (membership_tiers db ++ [tier]),
       Reply 201 [("message", JStr "Membership tier created successfully");
                  ("tier_id", JInt (tier_id tier))])
  end end end end end end.

Definition update_membership_tier (db : DB) (id : Z) (data : tier_form)
  : DB * response :=
  match find (has_tier_id id) (membership_tiers db) with
  | None => (db, error_reply 404 "Membership tier not found")
  | Some tier =>
      let clash :=
        match tf_name data with
        | None => false
        | Some name =>
            match find (has_tier_name name) (membership_tiers db) with
            | Some existing_tier => negb (tier_id existing_tier =? tier_id tier)
            | None => false
            end
        end in
      if clash
      then (db, error_reply 400
                  "Another membership tier with this name already exists")
      else
        let tier' :=
          mkTier (tier_id tier)
                 (or_keep (tf_name data) (tier_name tier))
                 (or_keep (tf_price data) (price tier))
                 (or_keep (tf_daily_missions data) (daily_missions tier))
                 (or_keep (tf_referral_levels data) (referral_levels tier))
                 (or_keep (tf_is_active data) (tier_is_active tier)) in
        (set_membership_tiers db
           (update_first (has_tier_id id) (fun _ => tier') (membership_tiers db)),
         Reply 200 [("message", JStr "Membership tier updated successfully");
                    ("tier_id", JInt (tier_id tier))])
  end.

(** Tier ids are distinct and so are tier names. *)
Definition tiers_distinct (db : DB) : Prop :=
  NoDup (map tier_id (membership_tiers db))
  /\ NoDup (map tier_name (membership_tiers db)).

(** ** Phone numbers: wallet/utils.py validate_mpesa_number and
    auth/utils.py validate_phone

    [str.isdigit] is Unicode-aware, so a Python string is taken here as
    the list of its code points, and the test of one character is a
    parameter of the section. *)

Module Phone.

Definition str := list Z.

(** [s.startswith(prefix)] *)
Fixpoint startswith (prefix s : str) : bool :=
  match prefix, s with
  | [], _ => true
  | _ :: _, [] => false
  | p :: prefix', c :: s' => (p =? c) && startswith prefix' s'
  end.

(** The class [0-9] of a pattern: the ten ASCII digits only. *)
Definition ascii_digit (c : Z) : bool := (48 <=? c) && (c <=? 57).

(** [$] without MULTILINE: the end of the string, or the place just
    before a newline that ends it. *)
Definition at_end (s : str) : bool :=
  match s with
  | [] => true
  | [c] => c =? 10
  | _ => false
  end.

(** [[17][0-9]{8}$] *)
Definition national (s : str) : bool :=
  match s with
  | [] => false
  | c :: rest =>
      ((c =? 49) || (c =? 55))
      && (List.length (firstn 8 rest) =? 8)%nat
      && forallb ascii_digit (firstn 8 rest)
      && at_end (skipn 8 rest)
  end.

(** [re.match(r'^(\+254|0)[17][0-9]{8}$', phone) is not None] *)
Definition validate_phone (phone : str) : bool :=
  if startswith [43; 50; 53; 52] phone then national (skipn 4 phone)
  else if startswith [48] phone then national (skipn 1 phone)
  else false.

(** What Python's [str.isdigit] answers on the characters below 256: the
    ASCII digits and the superscripts two, three and one. *)
Definition latin1_isdigit (c : Z) : bool :=
  ascii_digit c || (c =? 178) || (c =? 179) || (c =? 185).

Section Digits.

Variable isdigit : Z -> bool.

Definition validate_mpesa_number (phone_number : str) : option str :=
  let phone_number := filter isdigit phone_number in
  if (List.length phone_number =? 9)%nat && startswith [55] phone_number
  then Some ([50; 53; 52] ++ phone_number)
  else if (List.length phone_number =? 10)%nat
          && startswith [48; 55] phone_number
  then Some ([50; 53; 52] ++ skipn 1 phone_number)
  else if (List.length phone_number =? 12)%nat
          && startswith [50; 53; 52] phone_number
  then Some phone_number
  else None.

End Digits.

(** The nine national digits of a number that [validate_phone] accepts. *)
Definition subscriber (phone : str) : str :=
  firstn 9 (skipn (if startswith [43] phone then 4 else 1) phone).

End Phone.

(** ** user/utils.py: get_referral_stats *)

(** config.py *)
Definition REFERRAL_COMMISSION_RATES : list (Z * Z) :=
  [(1, 10); (2, 5); (3, 3); (4, 2); (5, 1)].

Definition config_rate (lvl : Z) : Z :=
  match find (fun kv => fst kv =? lvl) REFERRAL_COMMISSION_RATES with
  | Some kv => snd kv
  | None => 0
  end.

(** [range(a, b)] *)
Definition range (a b : Z) : list Z :=
  map (fun i => a + Z.of_nat i) (seq 0 (Z.to_nat (b - a))).

Record level_stats := mkLevelStats {
  ls_count : Z;
  ls_commissions : Z;
  ls_rate : Z
}.

Record referral_stats := mkReferralStats {
  total_referrals : Z;
  total_commissions : Z;
  stats_levels : list (Z * level_stats)
}.

(** [Referral.query.filter_by(referrer_id=..., level=...).count()], with the
    test on the level left open. *)
Definition count_referrals (db : DB) (referrer : Z) (in_level : Z -> bool) : Z :=
  Z.of_nat (List.length
              (filter (fun r => (referrer_id r =? referrer) && in_level (level r))
                      (referrals db))).

(** The amounts of the commission rows joined to the referral rows of one
    referrer, one per pair that the join yields. *)
Definition joined_amounts (db : DB) (referrer : Z) (in_level : Z -> bool)
  : list Z :=
  flat_map
    (fun c =>
       map (fun _ => rc_amount c)
           (filter (fun r => (referral_id r =? rc_referral_id c)
                             && (referrer_id r =? referrer)
                             && in_level (level r))
                   (referrals db)))
    (referral_commissions db).

(** One turn of the loop over the levels. *)
Definition level_step (db : DB) (referrer : Z) (stats : referral_stats)
  (lvl : Z) : referral_stats :=
  let referrals_count := count_referrals db referrer (Z.eqb lvl) in
  let commissions := sum (joined_amounts db referrer (Z.eqb lvl)) in
  mkReferralStats
    (total_referrals stats + referrals_count)
    (total_commissions stats + commissions)
    (stats_levels stats
     ++ [(lvl, mkLevelStats referrals_count commissions (config_rate lvl))]).

Definition get_referral_stats (db : DB) (id : Z)
  : result (option referral_stats) :=
  match get_user db id with
  | None => Ok None
  | Some user =>
      let max_levels :=
        match user_membership db user with
        | Some m =>
            if ms_is_active m
            then match membership_tier db m with
                 | Some tier => Ok (referral_levels tier)
                 | None => Raise (AttributeError "referral_levels")
                 end
            else Ok 0
        | None => Ok 0
        end in
      match max_levels with
      | Raise e => Raise e
      | Ok max_levels =>
          Ok (Some (fold_left (level_step db (user_id user))
                              (range 1 (max_levels + 1))
                              (mkReferralStats 0 0 [])))
      end
  end.

(** The levels [1 .. depth]. *)
Definition within (depth : Z) (lvl : Z) : bool := (1 <=? lvl) && (lvl <=? depth).

Module StatsScenario.

(** A tier two levels deep, held by user 1, who has referral rows at the
    levels 1, 2 and 3 and one commission on each of the first and third. *)
Definition silver : MembershipTier := mkTier 1 "silver" 2000 5 2 true.
Definition holder : User := mkUser 1 "holder".
Definition held : Membership := mkMembership 1 1 0 30 true "SLH-0001".

Definition stats_db : DB :=
  mkDB [holder] [silver] [held] [] []
       [mkReferral 1 1 (Some 2) 1; mkReferral 2 1 (Some 3) 2;
        mkReferral 3 1 (Some 4) 3]
       [mkCommission 1 200 "level 1"; mkCommission 3 20 "level 3"]
       [] [] [] [].

End StatsScenario.
(** * Proofs *)

(** ** Lists of rows *)

Lemma find_update_first {A : Type} (p : A -> bool) (f : A -> A) (l : list A) (x : A) :
  find p l = Some x -> p (f x) = true ->
  find p (update_first p f l) = Some (f x).
Proof.
  induction l as [| y r IH]; simpl; intros Hfind Hp; [discriminate |].
  destruct (p y) eqn:Hy.
  - injection Hfind as ->. simpl. rewrite Hp. reflexivity.
  - simpl. rewrite Hy. apply IH; assumption.
Qed.




Lemma update_first_found_map {A B : Type} (g : A -> B) (p : A -> bool)
  (x y : A) (l : list A) :
  find p l = Some x -> g y = g x ->
  map g (update_first p (fun _ => y) l) = map g l.
Proof.
  intros Hfind Hg. induction l as [| z r IH]; simpl in *; [reflexivity |].
  destruct (p z).
  - injection Hfind as ->. simpl. rewrite Hg. reflexivity.
  - simpl. rewrite (IH Hfind). reflexivity.
Qed.

Lemma find_snoc {A : Type} (p : A -> bool) (l : list A) (x : A) :
  find p (l ++ [x]) =
  match find p l with
  | Some y => Some y
  | None => if p x then Some x else None
  end.
Proof.
  induction l as [| y r IH]; simpl; [reflexivity |].
  destruct (p y); [reflexivity | exact IH].
Qed.

Lemma update_first_snoc {A : Type} (p : A -> bool) (f : A -> A) (l : list A) (x : A) :
  find p l = None -> p x = true ->
  update_first p f (l ++ [x]) = l ++ [f x].
Proof.
  induction l as [| y r IH]; simpl; intros Hfind Hp.
  - rewrite Hp. reflexivity.
  - destruct (p y); [discriminate |]. rewrite IH; [reflexivity | assumption | assumption].
Qed.

Lemma fresh_id_above (ids : list Z) (x : Z) : In x ids -> x < fresh_id ids.
Proof.
  unfold fresh_id. induction ids as [| y r IH]; simpl; intros Hin; [contradiction |].
  destruct Hin as [-> | Hin]; [lia | specialize (IH Hin); lia].
Qed.


(** ** Wallet ledger *)


Lemma deduct_funds_rejects (w : Wallet) (a : Z) (d : string) :
  balance w < a -> deduct_funds w a d = Raise (ValueError "Insufficient funds").
Proof.
  intros Hlt. unfold deduct_funds.
  destruct (Z.ltb_spec (balance w) a) as [_ | Hge]; [reflexivity | lia].
Qed.

Lemma deduct_funds_accepts (w : Wallet) (a : Z) (d : string) :
  a <= balance w ->
  deduct_funds w a d =
    Ok (mkWallet (wallet_id w) (wallet_user_id w) (balance w - a)
                 (total_earned w) (total_withdrawn w),
        mkTransaction (wallet_id w) a "debit" d).
Proof.
  intros Hle. unfold deduct_funds.
  destruct (Z.ltb_spec (balance w) a) as [Hlt | _]; [lia | reflexivity].
Qed.

Lemma apply_op_nonneg (st : Wallet * list WalletTransaction) (op : ledger_op) :
  0 <= balance (fst st) -> 0 < op_amount op ->
  0 <= balance (fst (apply_op st op)).
Proof.
  destruct st as [w log]; destruct op as [a d | a d]; simpl; intros Hb Ha.
  - lia.
  - unfold deduct_funds.
    destruct (Z.ltb_spec (balance w) a); simpl; lia.
Qed.

Lemma run_ops_nonneg (ops : list ledger_op) :
  forall st, 0 <= balance (fst st) ->
  Forall (fun op => 0 < op_amount op) ops ->
  0 <= balance (fst (run_ops ops st)).
Proof.
  induction ops as [| op ops IH]; intros st Hb Hall; simpl.
  - exact Hb.
  - inversion Hall as [| ? ? Hop Hrest]; subst.
    apply IH; [apply apply_op_nonneg; assumption | assumption].
Qed.

(** C3: from a non-negative balance, any finite sequence of credits and
    debits with positive amounts leaves the balance non-negative; a debit
    above the balance raises the insufficient-funds error and changes
    neither the wallet nor the transaction log; an allowed debit lowers the
    balance by exactly the amount and appends one debit transaction. *)
Theorem wallet_balance_never_negative
  (w : Wallet) (log : list WalletTransaction) (ops : list ledger_op) :
  0 <= balance w ->
  Forall (fun op => 0 < op_amount op) ops ->
  0 <= balance (fst (run_ops ops (w, log)))
  /\ (forall w' log' a d, balance w' < a ->
        deduct_funds w' a d = Raise (ValueError "Insufficient funds")
        /\ apply_op (w', log') (Debit a d) = (w', log'))
  /\ (forall w' log' a d, a <= balance w' ->
        exists w'' t,
          deduct_funds w' a d = Ok (w'', t)
          /\ apply_op (w', log') (Debit a d) = (w'', log' ++ [t])
          /\ balance w'' = balance w' - a
          /\ total_earned w'' = total_earned w'
          /\ total_withdrawn w'' = total_withdrawn w'
          /\ t = mkTransaction (wallet_id w') a "debit" d).
Proof.
  intros Hb Hall. split; [| split].
  - apply run_ops_nonneg; assumption.
  - intros w' log' a d Hlt.
    pose proof (deduct_funds_rejects w' a d Hlt) as Hr.
    split; [exact Hr | simpl; rewrite Hr; reflexivity].
  - intros w' log' a d Hle.
    pose proof (deduct_funds_accepts w' a d Hle) as Hr.
    eexists; eexists. split; [exact Hr |].
    split; [simpl; rewrite Hr; reflexivity |].
    repeat split.
Qed.

Lemma wallet_balance_never_negative_witness :
  0 <= balance (fst (run_ops [Credit 500 "a"; Debit 1200 "b"; Debit 1500 "c"]
                             (mkWallet 1 1 1000 1000 0, []))).
Proof.
  apply (wallet_balance_never_negative (mkWallet 1 1 1000 1000 0) []
           [Credit 500 "a"; Debit 1200 "b"; Debit 1500 "c"]).
  - simpl; lia.
  - repeat constructor.
Defined.

(** ** Withdrawals: request, then resolution *)

Lemma get_user_id (db : DB) (id : Z) (user : User) :
  get_user db id = Some user -> user_id user = id.
Proof.
  unfold get_user. intros Hfind. apply find_some in Hfind.
  destruct Hfind as [_ Hid]. apply Z.eqb_eq in Hid. exact Hid.
Qed.

Lemma user_wallet_owned (db : DB) (user : User) (w : Wallet) :
  user_wallet db user = Some w -> owns_wallet user w = true.
Proof.
  unfold user_wallet. intros Hfind. apply find_some in Hfind. tauto.
Qed.

(** The wallet a user sees after the row found for them was rewritten. *)
Lemma user_wallet_rewritten (db : DB) (user : User) (w w' : Wallet) :
  user_wallet db user = Some w ->
  wallet_user_id w' = wallet_user_id w ->
  find (owns_wallet user) (update_first (owns_wallet user) (fun _ => w') (wallets db))
  = Some w'.
Proof.
  intros Hw Hid.
  apply (find_update_first (owns_wallet user) (fun _ => w') (wallets db) w Hw).
  pose proof (user_wallet_owned db user w Hw) as Hown.
  unfold owns_wallet in *. rewrite Hid. exact Hown.
Qed.

Lemma credit_wallet_fits (db : DB) (user : User) (w : Wallet) (amount : Z)
  (description : string) :
  credit_fits w amount ->
  credit_wallet db user w amount description
  = Ok (credited db user w amount description).
Proof.
  intros [Hb He]. unfold credit_wallet, add_funds.
  cbn [balance total_earned]. rewrite Hb, He. reflexivity.
Qed.

Lemma credit_wallet_cases (db : DB) (user : User) (w : Wallet) (amount : Z)
  (description : string) :
  (credit_fits w amount
   /\ credit_wallet db user w amount description
      = Ok (credited db user w amount description))
  \/ credit_wallet db user w amount description = Raise OverflowError.
Proof.
  unfold credit_wallet, add_funds, credit_fits. cbn [balance total_earned].
  destruct (in_column (balance w + amount)); [| right; reflexivity].
  destruct (in_column (total_earned w + amount)); [| right; reflexivity].
  left. repeat split.
Qed.

(** A credit known to have gone through is the expected one. *)
Ltac credit_ok :=
  match goal with
  | H : credit_wallet ?d ?u ?w ?a ?t = Ok _ |- _ =>
      let Hfits := fresh "Hfits" in
      let Hok := fresh "Hok" in
      let Hno := fresh "Hno" in
      destruct (credit_wallet_cases d u w a t) as [[Hfits Hok] | Hno];
      [rewrite Hok in H; injection H as <- | rewrite Hno in H; discriminate]
  end.





(** Beyond the column range the refund does not go through: the
    resolution ends in the 500 handler, the balance stays debited and the
    withdrawal stays pending. *)
Example refund_beyond_column_is_rolled_back :
  let request :=
    request_withdrawal Scenario.capped_db 1
      (mkForm (Some (JInt 500)) (Some "mpesa") (Some "0712345678")) 100 in
  let resolution := process_withdrawal (fst request) 1 (Some "failed") 200 in
  resolution = (fst request, Unhandled OverflowError)
  /\ user_wallet (fst resolution) Scenario.alice
     = Some (mkWallet 1 1 500 9223372036854775707 0)
  /\ option_map wd_status (get_withdrawal (fst resolution) 1) = Some "pending".
Proof. repeat split. Qed.

Lemma pending_test_terminal (status : string) :
  status = "completed" \/ status = "failed" -> (status =? "pending")%string = false.
Proof. intros [-> | ->]; reflexivity. Qed.

(** C5, amended: a resolution attempt on a withdrawal that is already
    completed or failed mutates no wallet and appends no transaction (so it
    refunds nothing) and keeps processed_at; it is not rejected, though: a
    valid new status overwrites the status column and the reply is 200. *)
Theorem terminal_withdrawal_resolution (db : DB) (id : Z) (w : Withdrawal)
  (data_status : option string) (now : Z) :
  get_withdrawal db id = Some w ->
  wd_status w = "completed" \/ wd_status w = "failed" ->
  let db' := fst (process_withdrawal db id data_status now) in
  wallets db' = wallets db
  /\ wallet_transactions db' = wallet_transactions db
  /\ map processed_at (withdrawals db') = map processed_at (withdrawals db)
  /\ (forall new_status,
        data_status = Some new_status ->
        existsb (String.eqb new_status) valid_statuses = true ->
        option_map wd_status (get_withdrawal db' id) = Some new_status
        /\ snd (process_withdrawal db id data_status now)
           = Reply 200 [("message", JStr "Withdrawal updated successfully");
                        ("withdrawal_id", JInt (withdrawal_id w));
                        ("status", JStr new_status)]).
Proof.
  intros Hget Hterminal db'. subst db'. unfold process_withdrawal.
  rewrite Hget.
  destruct data_status as [new_status |]; [| cbn; repeat split; discriminate].
  rewrite (pending_test_terminal _ Hterminal), andb_false_r.
  destruct (existsb (String.eqb new_status) valid_statuses) eqn:Hvalid;
    cbn [negb fst snd andb].
  - cbn [wallets wallet_transactions withdrawals set_withdrawals].
    split; [reflexivity |]. split; [reflexivity |]. split.
    + clear Hvalid. unfold get_withdrawal in Hget.
      induction (withdrawals db) as [| x r IH]; [reflexivity |].
      cbn [find] in Hget. cbn [update_first].
      destruct (has_withdrawal_id id x) eqn:Hx.
      * injection Hget as ->. reflexivity.
      * cbn [map]. rewrite (IH Hget). reflexivity.
    + intros s Hs _. injection Hs as <-. split; [| reflexivity].
      unfold get_withdrawal in *. cbn [withdrawals set_withdrawals].
      rewrite (find_update_first _ _ _ w Hget).
      * reflexivity.
      * apply find_some in Hget. exact (proj2 Hget).
  - split; [reflexivity |]. split; [reflexivity |]. split; [reflexivity |].
    intros s Hs Hv. injection Hs as <-. congruence.
Qed.



Lemma terminal_withdrawal_resolution_witness :
  wallets (fst (process_withdrawal Scenario.settled_db 1 (Some "pending") 300))
  = wallets Scenario.settled_db
  /\ wallet_transactions (fst (process_withdrawal Scenario.settled_db 1 (Some "pending") 300))
     = wallet_transactions Scenario.settled_db
  /\ map processed_at
       (withdrawals (fst (process_withdrawal Scenario.settled_db 1 (Some "pending") 300)))
     = map processed_at (withdrawals Scenario.settled_db)
  /\ (forall new_status,
        Some "pending" = Some new_status ->
        existsb (String.eqb new_status) valid_statuses = true ->
        option_map wd_status
          (get_withdrawal
             (fst (process_withdrawal Scenario.settled_db 1 (Some "pending") 300)) 1)
        = Some new_status
        /\ snd (process_withdrawal Scenario.settled_db 1 (Some "pending") 300)
           = Reply 200 [("message", JStr "Withdrawal updated successfully");
                        ("withdrawal_id", JInt 1);
                        ("status", JStr new_status)]).
Proof.
  apply (terminal_withdrawal_resolution Scenario.settled_db 1
           (mkWithdrawal 1 1 500 "mpesa" "completed" "0712345678" 100 (Some 200))
           (Some "pending") 300).
  - reflexivity.
  - left; reflexivity.
Defined.

(** C5 as stated fails: a completed withdrawal resolved again as failed is
    not rejected, its status changes to failed. *)
Lemma terminal_withdrawal_status_changes :
  option_map wd_status (get_withdrawal Scenario.settled_db 1) = Some "completed"
  /\ snd (process_withdrawal Scenario.settled_db 1 (Some "failed") 300)
     = Reply 200 [("message", JStr "Withdrawal updated successfully");
                  ("withdrawal_id", JInt 1);
                  ("status", JStr "failed")]
  /\ option_map wd_status
       (get_withdrawal (fst (process_withdrawal Scenario.settled_db 1 (Some "failed") 300)) 1)
     = Some "failed"
  /\ fst (process_withdrawal Scenario.settled_db 1 (Some "failed") 300)
     <> Scenario.settled_db.
Proof.
  repeat split; try reflexivity. intros Heq. discriminate Heq.
Qed.

(** A terminal withdrawal can be put back to pending and failed once more:
    the second failure refunds a second time. *)
Example reset_to_pending_refunds_again :
  let failed1 := fst (process_withdrawal
                        (fst (request_withdrawal Scenario.alice_db 1
                                (mkForm (Some (JInt 500)) (Some "mpesa") (Some "0712345678")) 100))
                        1 (Some "failed") 200) in
  let reopened := fst (process_withdrawal failed1 1 (Some "pending") 300) in
  let failed2 := fst (process_withdrawal reopened 1 (Some "failed") 400) in
  map balance (wallets failed1) = [1000]
  /\ map balance (wallets reopened) = [1000]
  /\ map balance (wallets failed2) = [1500].
Proof. repeat split. Qed.

(** ** total_withdrawn *)

(** No resolution writes total_withdrawn, whatever the new status. *)
Lemma process_withdrawal_total_withdrawn (db : DB) (id : Z)
  (data_status : option string) (now : Z) :
  map total_withdrawn (wallets (fst (process_withdrawal db id data_status now)))
  = map total_withdrawn (wallets db).
Proof.
  unfold process_withdrawal.
  destruct (get_withdrawal db id) as [w |]; [| reflexivity].
  destruct data_status as [s |]; [| reflexivity].
  destruct (negb (existsb (String.eqb s) valid_statuses)); [reflexivity |].
  destruct (negb (s =? "pending")%string && (wd_status w =? "pending")%string
            && (s =? "failed")%string); [| reflexivity].
  destruct (get_user db (wd_user_id w)) as [user |]; [| reflexivity].
  destruct (user_wallet db user) as [wallet |] eqn:Hw; [| reflexivity].
  destruct (credit_wallet_cases db user wallet (wd_amount w)
              "Refund for failed withdrawal") as [[_ ->] | ->]; [| reflexivity].
  unfold credited.
  cbn [fst wallets set_withdrawals set_wallet_transactions set_wallets].
  apply (update_first_found_map total_withdrawn _ wallet); [exact Hw | reflexivity].
Qed.

Ltac split_handler :=
  repeat match goal with
         | |- context [match ?x with _ => _ end] => destruct x eqn:?
         end.

Lemma request_withdrawal_total_withdrawn (db : DB) (uid : Z)
  (data : withdrawal_form) (now : Z) :
  map total_withdrawn (wallets (fst (request_withdrawal db uid data now)))
  = map total_withdrawn (wallets db).
Proof.
  unfold request_withdrawal, deduct_funds. split_handler; try reflexivity.
  cbn [fst wallets set_withdrawals set_wallet_transactions set_wallets].
  match goal with
  | H : user_wallet _ _ = Some ?w |- _ =>
      apply (update_first_found_map total_withdrawn _ w); [exact H | reflexivity]
  end.
Qed.

Lemma complete_mission_total_withdrawn (json_loads : string -> option json)
  (db : DB) (uid id : Z) (proof : string) (now : Z) :
  map total_withdrawn
      (wallets (fst (complete_mission json_loads db uid id proof now)))
  = map total_withdrawn (wallets db).
Proof.
  unfold complete_mission. split_handler; try reflexivity.
  match goal with
  | H : credit_wallet ?d ?u ?w ?a ?t = Ok _, Hw : user_wallet _ _ = Some ?w |- _ =>
      destruct (credit_wallet_cases d u w a t) as [[_ Hok] | Hno];
      [rewrite Hok in H; injection H as <- | congruence];
      unfold credited;
      cbn [fst wallets set_mission_completions set_wallet_transactions set_wallets];
      apply (update_first_found_map total_withdrawn _ w); [exact Hw | reflexivity]
  end.
Qed.

(** C6 fails on the code: a pending withdrawal of 500 resolved as completed
    leaves total_withdrawn at 0 (the wallet keeps balance 500, earned
    1000, withdrawn 0). *)
Theorem completed_withdrawal_keeps_total_withdrawn :
  let request :=
    request_withdrawal Scenario.alice_db 1
      (mkForm (Some (JInt 500)) (Some "mpesa") (Some "0712345678")) 100 in
  let resolution := process_withdrawal (fst request) 1 (Some "completed") 200 in
  get_withdrawal (fst request) 1
  = Some (mkWithdrawal 1 1 500 "mpesa" "pending" "0712345678" 100 None)
  /\ get_withdrawal (fst resolution) 1
     = Some (mkWithdrawal 1 1 500 "mpesa" "completed" "0712345678" 100 (Some 200))
  /\ user_wallet (fst request) Scenario.alice = Some (mkWallet 1 1 500 1000 0)
  /\ user_wallet (fst resolution) Scenario.alice = Some (mkWallet 1 1 500 1000 0).
Proof. repeat split. Qed.

(** ** Payment callback *)

(** The callback writes payments and memberships only. *)
Lemma mpesa_callback_frame (db : DB) (reference : option string)
  (result_code : json) (now : Z) :
  let db' := fst (mpesa_callback db reference result_code now) in
  wallets db' = wallets db
  /\ wallet_transactions db' = wallet_transactions db
  /\ referral_commissions db' = referral_commissions db
  /\ referrals db' = referrals db.
Proof.
  unfold mpesa_callback.
  destruct reference as [reference |]; [| repeat split].
  destruct (reference =? "")%string; [repeat split |].
  destruct (find (has_reference reference) (payments db)) as [payment |];
    [| repeat split].
  destruct (eq_zero result_code); [| repeat split].
  destruct (tier_name_of (pay_description payment)) as [name |]; [| repeat split].
  destruct (name =? "")%string; [repeat split |].
  destruct (find _ (membership_tiers db)) as [tier |]; [| repeat split].
  destruct (get_user db (pay_user_id payment)) as [user |]; [| repeat split].
  destruct (user_membership db user); repeat split.
Qed.

Lemma payment_found_after_update (ps : list Payment) (reference : string)
  (f : Payment -> Payment) (p : Payment) :
  find (has_reference reference) ps = Some p ->
  pay_reference (f p) = pay_reference p ->
  find (has_reference reference) (update_first (has_reference reference) f ps)
  = Some (f p).
Proof.
  intros Hfind Href. apply (find_update_first _ _ _ p Hfind).
  apply find_some in Hfind. destruct Hfind as [_ Hp].
  unfold has_reference in *. rewrite Href. exact Hp.
Qed.

(** A second successful callback for the same reference leaves the
    memberships (and, by [mpesa_callback_frame], wallets, transactions and
    commission rows) as the first one left them: a membership created by
    the first sends the second into the renewal path. *)
Lemma second_callback_keeps_memberships (db : DB) (reference : option string)
  (result_code : json) (t1 t2 : Z) :
  eq_zero result_code = true ->
  let db1 := fst (mpesa_callback db reference result_code t1) in
  memberships (fst (mpesa_callback db1 reference result_code t2))
  = memberships db1.
Proof.
  intros Hzero db1. subst db1.
  destruct reference as [reference |]; [| reflexivity].
  destruct (reference =? "")%string eqn:Hempty.
  { unfold mpesa_callback. rewrite Hempty. reflexivity. }
  destruct (find (has_reference reference) (payments db)) as [payment |] eqn:Hpay.
  2:{ unfold mpesa_callback. rewrite Hempty, Hpay. cbn [fst].
      rewrite Hpay. reflexivity. }
  pose proof (payment_found_after_update (payments db) reference
                (fun p => set_payment_status p "completed" (Some t1)) payment
                Hpay eq_refl) as Hpay1.
  set (completed := set_payments db
         (update_first (has_reference reference)
            (fun p => set_payment_status p "completed" (Some t1)) (payments db))).
  assert (Hkeep : fst (mpesa_callback db (Some reference) result_code t1) = completed ->
                  memberships
                    (fst (mpesa_callback completed (Some reference) result_code t2))
                  = memberships completed ->
                  memberships
                    (fst (mpesa_callback
                            (fst (mpesa_callback db (Some reference) result_code t1))
                            (Some reference) result_code t2))
                  = memberships
                      (fst (mpesa_callback db (Some reference) result_code t1))).
  { intros -> H. exact H. }
  destruct (tier_name_of (pay_description payment)) as [name |] eqn:Hname.
  2:{ apply Hkeep.
      - unfold mpesa_callback. rewrite Hempty, Hpay, Hzero, Hname. reflexivity.
      - unfold mpesa_callback. rewrite Hempty. subst completed.
        cbn [payments set_payments]. rewrite Hpay1, Hzero.
        cbn [set_payment_status pay_description]. rewrite Hname. reflexivity. }
  destruct (name =? "")%string eqn:Hblank.
  { apply Hkeep.
    - unfold mpesa_callback. rewrite Hempty, Hpay, Hzero, Hname, Hblank. reflexivity.
    - unfold mpesa_callback. rewrite Hempty. subst completed.
      cbn [payments set_payments]. rewrite Hpay1, Hzero.
      cbn [set_payment_status pay_description]. rewrite Hname, Hblank. reflexivity. }
  destruct (find (fun t => (tier_name t =? name)%string) (membership_tiers db))
    as [tier |] eqn:Htier.
  2:{ apply Hkeep.
      - unfold mpesa_callback.
        rewrite Hempty, Hpay, Hzero, Hname, Hblank, Htier. reflexivity.
      - unfold mpesa_callback. rewrite Hempty. subst completed.
        cbn [payments membership_tiers set_payments]. rewrite Hpay1, Hzero.
        cbn [set_payment_status pay_description].
        rewrite Hname, Hblank, Htier. reflexivity. }
  destruct (get_user db (pay_user_id payment)) as [user |] eqn:Huser.
  2:{ assert (Hfirst : mpesa_callback db (Some reference) result_code t1
                       = (db, Unhandled (AttributeError "membership"))).
      { unfold mpesa_callback.
        rewrite Hempty, Hpay, Hzero, Hname, Hblank, Htier, Huser. reflexivity. }
      rewrite Hfirst. cbn [fst]. unfold mpesa_callback.
      rewrite Hempty, Hpay, Hzero, Hname, Hblank, Htier, Huser. reflexivity. }
  destruct (user_membership db user) as [existing |] eqn:Hmember.
  { assert (Hfirst : mpesa_callback db (Some reference) result_code t1
                     = (db, Unhandled (NameError "timedelta"))).
    { unfold mpesa_callback.
      rewrite Hempty, Hpay, Hzero, Hname, Hblank, Htier, Huser, Hmember. reflexivity. }
    rewrite Hfirst. cbn [fst]. unfold mpesa_callback.
    rewrite Hempty, Hpay, Hzero, Hname, Hblank, Htier, Huser, Hmember. reflexivity. }
  set (created := mkMembership (user_id user) (tier_id tier) t1 (t1 + 365 * 86400)
                               true (pay_reference payment)).
  assert (Hfirst : fst (mpesa_callback db (Some reference) result_code t1)
                   = set_memberships completed (memberships db ++ [created])).
  { unfold mpesa_callback.
    rewrite Hempty, Hpay, Hzero, Hname, Hblank, Htier, Huser, Hmember. reflexivity. }
  rewrite Hfirst. unfold mpesa_callback. rewrite Hempty. subst completed.
  cbn [payments membership_tiers set_payments set_memberships].
  rewrite Hpay1, Hzero. cbn [set_payment_status pay_description pay_user_id].
  rewrite Hname, Hblank, Htier.
  unfold get_user in *. cbn [users set_payments set_memberships]. rewrite Huser.
  unfold user_membership in *. cbn [memberships set_payments set_memberships].
  rewrite find_snoc, Hmember. subst created. cbn [ms_user_id].
  rewrite Z.eqb_refl. reflexivity.
Qed.

(** C1 fails on the code: D's completed purchase of basic (3500) activates
    D's membership and credits nobody; the wallets of C and B keep balance
    0, no transaction and no ReferralCommission row exists, although the
    unused helper computes 350 and 175 for levels 1 and 2. *)
Theorem purchase_pays_no_commission :
  let db' := fst (mpesa_callback Scenario.purchase_db (Some "SLH-000D") (JInt 0) 1000) in
  snd (mpesa_callback Scenario.purchase_db (Some "SLH-000D") (JInt 0) 1000)
  = Reply 200 [("success", JBool true)]
  /\ map pay_status (payments db') = ["completed"]
  /\ user_membership db' Scenario.user_d
     = Some (mkMembership 4 1 1000 31537000 true "SLH-000D")
  /\ user_wallet db' Scenario.user_c = Some (mkWallet 3 3 0 0 0)
  /\ user_wallet db' Scenario.user_b = Some (mkWallet 2 2 0 0 0)
  /\ wallet_transactions db' = []
  /\ referral_commissions db' = []
  /\ calculate_referral_commission 3500 1 = Ok 350
  /\ calculate_referral_commission 3500 2 = Ok 175.
Proof. repeat split; vm_compute; reflexivity. Qed.

(** C2 fails on the code: after two successful callbacks for the same
    reference the referrers have been credited zero times, not once.  The
    second callback changes nothing only because the renewal path raises
    NameError before the commit. *)
Theorem duplicate_callback_credits_nobody :
  let first := mpesa_callback Scenario.purchase_db (Some "SLH-000D") (JInt 0) 1000 in
  let second := mpesa_callback (fst first) (Some "SLH-000D") (JInt 0) 2000 in
  snd first = Reply 200 [("success", JBool true)]
  /\ snd second = Unhandled (NameError "timedelta")
  /\ fst second = fst first
  /\ user_wallet (fst second) Scenario.user_c = Some (mkWallet 3 3 0 0 0)
  /\ user_wallet (fst second) Scenario.user_b = Some (mkWallet 2 2 0 0 0)
  /\ wallet_transactions (fst second) = []
  /\ referral_commissions (fst second) = [].
Proof. repeat split. Qed.

(** ** Proof validation for ad missions *)

Lemma int_ge_sf_mono (t : spec_float) (v v' : Z) :
  v <= v' -> int_ge_sf v t = true -> int_ge_sf v' t = true.
Proof.
  unfold int_ge_sf. intros Hle.
  destruct t as [s | s | | s m e]; try (intros H; exact H).
  - rewrite !Z.leb_le. lia.
  - destruct (Z.leb_spec 0 e) as [He | He]; rewrite !Z.leb_le; intros H.
    + lia.
    + rewrite !Z.shiftl_mul_pow2 in * by lia.
      assert (0 <= 2 ^ (- e)) by (apply Z.pow_nonneg; lia). nia.
Qed.

Lemma ad_threshold_agrees_from_sound (n : nat) :
  forall first, ad_threshold_agrees_from n first = true ->
  forall required, first <= required < first + Z.of_nat n ->
  ad_threshold_agrees required = true.
Proof.
  induction n as [| k IH]; intros first Hrun required Hrange.
  - lia.
  - cbn [ad_threshold_agrees_from] in Hrun.
    destruct (ad_threshold_agrees first) eqn:Hfirst; [| discriminate].
    destruct (Z.eq_dec required first) as [-> | Hne]; [exact Hfirst |].
    apply (IH (first + 1) Hrun). lia.
Qed.

Lemma ad_threshold_agrees_checked :
  ad_threshold_agrees_from (Z.to_nat 100001) 0 = true.
Proof. vm_compute. reflexivity. Qed.

(** For an integer view duration the binary64 test is the exact test. *)
Lemma duration_reached_int (required v : Z) :
  0 <= required <= 100000 ->
  duration_reached (JInt v) required = Some (9 * required <=? 10 * v).
Proof.
  intros Hrange.
  assert (Hagree : ad_threshold_agrees required = true).
  { apply (ad_threshold_agrees_from_sound _ 0 ad_threshold_agrees_checked). lia. }
  unfold ad_threshold_agrees in Hagree. unfold duration_reached.
  destruct (float_of_int required) as [d |]; [| discriminate].
  apply andb_true_iff in Hagree. destruct Hagree as [Hat Hbelow].
  apply negb_true_iff in Hbelow. f_equal. unfold int_ge_float.
  pose proof (Z.div_mod (9 * required + 9) 10 ltac:(lia)) as Hdiv.
  pose proof (Z.mod_pos_bound (9 * required + 9) 10 ltac:(lia)) as Hmod.
  destruct (Z.leb_spec (9 * required) (10 * v)) as [Hge | Hlt].
  - apply (int_ge_sf_mono _ ((9 * required + 9) / 10)); [lia | exact Hat].
  - destruct (int_ge_sf v (Prim2SF (d * 0.9)%float)) eqn:Hv; [| reflexivity].
    rewrite (int_ge_sf_mono _ v ((9 * required + 9) / 10 - 1)) in Hbelow;
      [discriminate | lia | exact Hv].
Qed.

(** C9, amended: for an ad mission with required duration D between 0
    and 100000 seconds and a non-empty proof whose parsed duration is an
    integer v (True and False count as 1 and 0), the proof is accepted
    exactly when v >= 0.9 * D, that is 10 v >= 9 D; with D = 30 a duration
    of 25 is rejected and a duration of 28 is accepted.  The threshold is
    the binary64 product D * 0.9, so the equivalence is not claimed beyond
    that range. *)
Theorem ad_proof_needs_nine_tenths (json_loads : string -> option json)
  (mission : Mission) (proof : string) (proof_data view : json) (v : Z) :
  mission_type mission = "ad" ->
  0 <= duration mission <= 100000 ->
  proof <> "" ->
  json_loads proof = Some proof_data ->
  dict_get proof_data "duration" (JInt 0) = Some view ->
  as_int view = Some v ->
  validate_mission_completion json_loads mission proof
  = (9 * duration mission <=? 10 * v)
  /\ validate_mission_completion (AdScenario.watched 25) AdScenario.clip "proof"
     = false
  /\ validate_mission_completion (AdScenario.watched 28) AdScenario.clip "proof"
     = true.
Proof.
  intros Htype Hrange Hproof Hloads Hget Hint.
  split; [| split; vm_compute; reflexivity].
  unfold validate_mission_completion.
  destruct (String.eqb_spec proof "") as [Hempty | _]; [contradiction |].
  rewrite Htype. cbn [String.eqb Ascii.eqb Bool.eqb].
  rewrite Hloads, Hget.
  pose proof (duration_reached_int (duration mission) v Hrange) as Hreached.
  destruct view as [| b | z | f | | |]; try discriminate; cbn [as_int] in Hint.
  - assert (Hv : (if b then 1 else 0) = v) by congruence.
    unfold duration_reached in *.
    destruct (float_of_int (duration mission)); [| discriminate].
    rewrite Hv. injection Hreached as Hr. exact Hr.
  - assert (Hv : z = v) by congruence.
    rewrite Hv, Hreached. reflexivity.
Qed.

Lemma ad_proof_needs_nine_tenths_witness :
  validate_mission_completion (AdScenario.watched 27) AdScenario.clip "seen"
  = (9 * 30 <=? 10 * 27)
  /\ validate_mission_completion (AdScenario.watched 25) AdScenario.clip "proof"
     = false
  /\ validate_mission_completion (AdScenario.watched 28) AdScenario.clip "proof"
     = true.
Proof.
  apply (ad_proof_needs_nine_tenths (AdScenario.watched 27) AdScenario.clip
           "seen" (JObj [("duration", JInt 27)]) (JInt 27) 27).
  - reflexivity.
  - simpl; lia.
  - discriminate.
  - reflexivity.
  - reflexivity.
  - reflexivity.
Defined.

(** C9 as stated fails: the threshold is the binary64 product of the
    duration and 0.9, and for the duration 69057710105581731 a proof of
    62151939095023558 seconds is rejected although it is not below nine
    tenths of the duration. *)
Lemma ad_threshold_departs_for_long_duration :
  9 * duration AdScenario.long_clip <= 10 * 62151939095023558
  /\ in_column (duration AdScenario.long_clip) = true
  /\ validate_mission_completion (AdScenario.watched 62151939095023558)
       AdScenario.long_clip "proof" = false.
Proof. split; [vm_compute; discriminate | split; vm_compute; reflexivity]. Qed.

(** A parsed duration that is no number is rejected. *)
Example ad_proof_with_text_duration_rejected :
  validate_mission_completion
    (fun _ => Some (JObj [("duration", JStr "28")])) AdScenario.clip "proof"
  = false.
Proof. vm_compute. reflexivity. Qed.

(** ** Daily mission quota *)

Section DailyQuota.

Variable json_loads : string -> option json.
Variables (uid : Z) (user : User) (m : Membership) (tier : MembershipTier).
Variable today : Z.


Lemma already_completed_today (db : DB) (mission : Mission) :
  already_completed db user mission today
  = existsb (fun c => mc_mission_id c =? mission_id mission)
            (completed_today db user today).
Proof.
  unfold already_completed, completed_today.
  induction (mission_completions db) as [| c r IH]; [reflexivity |].
  cbn [existsb filter]. rewrite IH.
  destruct (mc_user_id c =? user_id user), (date (mc_completed_at c) =? today),
           (mc_mission_id c =? mission_id mission) eqn:Hid;
    cbn [andb orb existsb]; rewrite ?Hid; reflexivity.
Qed.






End DailyQuota.

Section DailyLimit.

Variable json_loads : string -> option json.
Variables (uid : Z) (user : User) (m : Membership) (tier : MembershipTier).
Variable today : Z.


End DailyLimit.




(** The third call of the day where a third mission exists. *)
Example third_call_refused :
  let run := complete_missions QuotaScenario.no_json QuotaScenario.quota_db 7
               QuotaScenario.two_calls in
  map balance (wallets (fst run)) = [50]
  /\ complete_mission QuotaScenario.no_json (fst run) 7 3 "done" (86400 * 10 + 180)
     = (fst run, error_reply 400 "Daily mission limit reached").
Proof. split; reflexivity. Qed.

(** ** Referral edges made at registration *)

Lemma find_app_none {A : Type} (p : A -> bool) (l l' : list A) :
  Forall (fun x => p x = false) l' -> find p (l ++ l') = find p l.
Proof.
  intros Hnone. induction l as [| x r IH]; simpl.
  - induction Hnone as [| y l' Hy _ IH']; simpl; [reflexivity |].
    rewrite Hy. exact IH'.
  - destruct (p x); [reflexivity | exact IH].
Qed.

Lemma tier_covers_by_id (db : DB) (a a' : User) (level : Z) :
  user_id a = user_id a' -> tier_covers db (a, level) = tier_covers db (a', level).
Proof.
  intros Hid. unfold tier_covers, user_membership. cbn [fst snd].
  rewrite Hid. reflexivity.
Qed.

Section Walk.

Variable db : DB.
Variable new_user_id : option Z.

(** Every membership row points at an existing tier. *)
Hypothesis tiers_exist :
  forall m, In m (memberships db) -> membership_tier db m <> None.

(** The value written as [referred_id] is not the id of a stored user. *)
Hypothesis new_id_unused :
  forall u, In u (users db) -> new_user_id <> Some (user_id u).

Lemma session_rows_invisible (current : User) (session : list Referral) :
  In current (users db) ->
  Forall (fun r => referred_id r = new_user_id) session ->
  find (refers_to current) (referrals db ++ session)
  = find (refers_to current) (referrals db).
Proof.
  intros Hin Hsession. apply find_app_none.
  apply Forall_forall. intros r Hr. rewrite Forall_forall in Hsession.
  unfold refers_to. rewrite (Hsession r Hr).
  destruct new_user_id as [x |] eqn:Hx; [| reflexivity].
  destruct (Z.eqb_spec x (user_id current)) as [-> | _]; [| reflexivity].
  exfalso. exact (new_id_unused current Hin eq_refl).
Qed.

Lemma membership_allows_covers (ancestor : User) (level : Z) :
  membership_allows db ancestor level = Ok (tier_covers db (ancestor, level)).
Proof.
  unfold membership_allows, tier_covers. cbn [fst snd].
  destruct (user_membership db ancestor) as [m |] eqn:Hm; [| reflexivity].
  destruct (membership_tier db m) as [tier |] eqn:Ht; [reflexivity |].
  exfalso. unfold user_membership in Hm. apply find_some in Hm.
  exact (tiers_exist m (proj1 Hm) Ht).
Qed.

Lemma indirect_referrals_walk (levels : list Z) :
  forall current session,
  In current (users db) ->
  Forall (fun r => referred_id r = new_user_id) session ->
  exists rows,
    indirect_referrals db new_user_id levels current session = Ok (session ++ rows)
    /\ map edge_of rows
       = map (fun al => (user_id (fst al), new_user_id, snd al))
             (filter (tier_covers db) (upward_walk db levels current)).
Proof.
  induction levels as [| level rest IH]; intros current session Hin Hsession.
  - exists []. rewrite app_nil_r. split; reflexivity.
  - cbn [indirect_referrals upward_walk]. unfold referrer_of.
    rewrite (session_rows_invisible current session Hin Hsession).
    destruct (find (refers_to current) (referrals db)) as [relation |];
      [| exists []; rewrite app_nil_r; split; reflexivity].
    destruct (get_user db (referrer_id relation)) as [ancestor |] eqn:Hget;
      [| exists []; rewrite app_nil_r; split; reflexivity].
    assert (Hancestor : In ancestor (users db)).
    { unfold get_user in Hget. apply find_some in Hget. tauto. }
    rewrite membership_allows_covers. cbn [filter].
    destruct (tier_covers db (ancestor, level)).
    + set (row := mkReferral _ (user_id ancestor) new_user_id level).
      destruct (IH ancestor (session ++ [row]) Hancestor) as (rows & Hrun & Hedges).
      { apply Forall_app. split; [exact Hsession |].
        constructor; [reflexivity | constructor]. }
      exists (row :: rows). rewrite Hrun, <- app_assoc. split; [reflexivity |].
      cbn [map fst snd]. rewrite Hedges. reflexivity.
    + exact (IH ancestor session Hancestor Hsession).
Qed.

End Walk.

(** C4, amended: with a referral code that resolves, the level-1 edge is
    made, and for each level 2..5 of the upward walk the edge from that
    level's ancestor is made exactly when the ancestor has a membership row
    whose tier's referral_levels is at least the level; whether that
    membership is active or expired is not looked at.  An ancestor without
    an edge is still walked past. *)
Theorem indirect_edges_follow_tier_depth (db : DB) (code : string)
  (new_user_id : option Z) (referrer : User) :
  (forall m, In m (memberships db) -> membership_tier db m <> None) ->
  (forall u, In u (users db) -> new_user_id <> Some (user_id u)) ->
  code <> "" ->
  find (fun u => (username u =? code)%string) (users db) = Some referrer ->
  exists rows,
    register_referrals db (Some code) new_user_id
    = Ok (set_referrals db (referrals db ++ rows))
    /\ map edge_of rows
       = (user_id referrer, new_user_id, 1)
         :: map (fun al => (user_id (fst al), new_user_id, snd al))
                (filter (tier_covers db) (upward_walk db [2; 3; 4; 5] referrer))
    /\ (forall ancestor level,
          In (ancestor, level) (upward_walk db [2; 3; 4; 5] referrer) ->
          (In (user_id ancestor, new_user_id, level) (map edge_of rows)
           <-> exists m tier,
                 user_membership db ancestor = Some m
                 /\ membership_tier db m = Some tier
                 /\ level <= referral_levels tier)).
Proof.
  intros Htiers Hfresh Hcode Hreferrer.
  assert (Hin : In referrer (users db)).
  { apply find_some in Hreferrer. tauto. }
  set (direct := mkReferral (fresh_id (map referral_id (referrals db)))
                            (user_id referrer) new_user_id 1).
  destruct (indirect_referrals_walk db new_user_id Htiers Hfresh [2; 3; 4; 5]
              referrer [direct] Hin) as (rows & Hrun & Hedges).
  { constructor; [reflexivity | constructor]. }
  exists (direct :: rows).
  split; [| split].
  - unfold register_referrals.
    destruct (String.eqb_spec code "") as [Hempty | _]; [contradiction |].
    rewrite Hreferrer. fold direct. rewrite Hrun. reflexivity.
  - cbn [map]. rewrite Hedges. reflexivity.
  - intros ancestor level Hwalk. cbn [map]. rewrite Hedges.
    assert (Hcovers : tier_covers db (ancestor, level) = true
                      <-> exists m tier,
                            user_membership db ancestor = Some m
                            /\ membership_tier db m = Some tier
                            /\ level <= referral_levels tier).
    { unfold tier_covers. cbn [fst snd].
      destruct (user_membership db ancestor) as [m |].
      - destruct (membership_tier db m) as [tier |] eqn:Htier.
        + rewrite Z.leb_le. split.
          * intros Hle. exists m, tier. repeat split; assumption.
          * intros (m' & tier' & Hm & Ht & Hle).
            injection Hm as <-. rewrite Htier in Ht. injection Ht as <-. exact Hle.
        + split; [discriminate |].
          intros (m' & tier' & Hm & Ht & _). injection Hm as <-.
          rewrite Htier in Ht. discriminate.
      - split; [discriminate |]. intros (m' & tier' & Hm & _). discriminate. }
    rewrite <- Hcovers. split.
    + intros [Hdirect | Hindirect].
      * exfalso. injection Hdirect as _ Hlevel.
        clear - Hwalk Hlevel. subst level.
        cbn [upward_walk] in Hwalk.
        repeat match type of Hwalk with
               | In _ (match ?x with _ => _ end) => destruct x
               | In _ (_ :: _) => destruct Hwalk as [Hwalk | Hwalk];
                                  [injection Hwalk as _ Hwalk; discriminate |]
               | In _ [] => destruct Hwalk
               end.
      * apply in_map_iff in Hindirect.
        destruct Hindirect as ([a' l'] & Heq & Hfilter).
        cbn [fst snd] in Heq. injection Heq as Hid <-.
        apply filter_In in Hfilter. destruct Hfilter as [_ Hcov].
        rewrite (tier_covers_by_id db ancestor a' l' (eq_sym Hid)). exact Hcov.
    + intros Hcov. right. apply in_map_iff. exists (ancestor, level).
      split; [reflexivity |]. apply filter_In. split; assumption.
Qed.

Lemma indirect_edges_follow_tier_depth_witness :
  exists rows,
    register_referrals ReferralScenario.lapsed_db (Some "B") None
    = Ok (set_referrals ReferralScenario.lapsed_db
            (referrals ReferralScenario.lapsed_db ++ rows))
    /\ map edge_of rows
       = (user_id ReferralScenario.referrer_b, None, 1)
         :: map (fun al => (user_id (fst al), None, snd al))
                (filter (tier_covers ReferralScenario.lapsed_db)
                   (upward_walk ReferralScenario.lapsed_db [2; 3; 4; 5]
                      ReferralScenario.referrer_b))
    /\ (forall ancestor level,
          In (ancestor, level)
             (upward_walk ReferralScenario.lapsed_db [2; 3; 4; 5]
                ReferralScenario.referrer_b) ->
          (In (user_id ancestor, None, level) (map edge_of rows)
           <-> exists m tier,
                 user_membership ReferralScenario.lapsed_db ancestor = Some m
                 /\ membership_tier ReferralScenario.lapsed_db m = Some tier
                 /\ level <= referral_levels tier)).
Proof.
  apply (indirect_edges_follow_tier_depth ReferralScenario.lapsed_db "B" None
           ReferralScenario.referrer_b).
  - intros m [<- | []]. discriminate.
  - intros u _. discriminate.
  - discriminate.
  - reflexivity.
Defined.

(** C4 as stated fails: A's only membership is inactive and expired, yet
    the registration of a user referred by B (whom A referred) makes the
    level-2 edge from A. *)
Lemma lapsed_ancestor_gets_edge :
  user_membership ReferralScenario.lapsed_db ReferralScenario.ancestor_a
  = Some ReferralScenario.lapsed
  /\ (forall now, is_usable ReferralScenario.lapsed now = false)
  /\ end_date ReferralScenario.lapsed = 100
  /\ exists db',
       register_referrals ReferralScenario.lapsed_db (Some "B") None = Ok db'
       /\ referrals db'
          = [mkReferral 1 1 (Some 2) 1;
             mkReferral 2 2 None 1;
             mkReferral 3 1 None 2].
Proof.
  split; [reflexivity |]. split; [intros now; reflexivity |].
  split; [reflexivity |]. eexists. split; reflexivity.
Qed.

(** * Further properties of the modelled code *)

(** ** The wallet object and its log *)

Lemma sum_app (l l' : list Z) : sum (l ++ l') = sum l + sum l'.
Proof.
  unfold sum. induction l as [| x r IH]; simpl; [reflexivity | rewrite IH; lia].
Qed.

(** X1: whatever credits and debits are applied to a wallet, the log only
    grows, every new row carries the wallet's id, and the new rows account
    exactly for the change: the balance moves by their signed sum,
    total_earned by the sum of the credits, total_withdrawn not at all. *)
Theorem run_ops_reconciles (ops : list ledger_op) :
  forall (w : Wallet) (log : list WalletTransaction),
  exists new,
    snd (run_ops ops (w, log)) = log ++ new
    /\ Forall (fun t => tx_wallet_id t = wallet_id w) new
    /\ balance (fst (run_ops ops (w, log)))
       = balance w + sum (map signed_amount new)
    /\ total_earned (fst (run_ops ops (w, log)))
       = total_earned w + sum (map credit_amount new)
    /\ total_withdrawn (fst (run_ops ops (w, log))) = total_withdrawn w
    /\ wallet_id (fst (run_ops ops (w, log))) = wallet_id w.
Proof.
  induction ops as [| op rest IH]; intros w log.
  - exists []. rewrite app_nil_r. cbn. repeat split; try lia. constructor.
  - cbn [run_ops fold_left].
    assert (Hstep : exists w1 new1,
               apply_op (w, log) op = (w1, log ++ new1)
               /\ Forall (fun t => tx_wallet_id t = wallet_id w) new1
               /\ balance w1 = balance w + sum (map signed_amount new1)
               /\ total_earned w1 = total_earned w + sum (map credit_amount new1)
               /\ total_withdrawn w1 = total_withdrawn w
               /\ wallet_id w1 = wallet_id w).
    { destruct op as [a d | a d]; cbn [apply_op fst snd].
      - eexists; exists [mkTransaction (wallet_id w) a "credit" d].
        repeat split; cbn; try lia. repeat constructor.
      - unfold deduct_funds. destruct (balance w <? a).
        + exists w, []. rewrite app_nil_r. cbn. repeat split; try lia. constructor.
        + eexists; exists [mkTransaction (wallet_id w) a "debit" d].
          repeat split; cbn; try lia. repeat constructor. }
    destruct Hstep as (w1 & new1 & Hop & Hids1 & Hbal1 & Hearn1 & Hwd1 & Hid1).
    rewrite Hop. fold (run_ops rest (w1, log ++ new1)).
    destruct (IH w1 (log ++ new1)) as (new2 & Hlog & Hids2 & Hbal2 & Hearn2 & Hwd2 & Hid2).
    exists (new1 ++ new2). rewrite Hlog, Hbal2, Hearn2, Hwd2, Hid2, <- app_assoc.
    rewrite !map_app, !sum_app.
    repeat split; try lia.
    apply Forall_app. split; [exact Hids1 |].
    apply Forall_forall. intros t Ht. rewrite Forall_forall in Hids2.
    rewrite (Hids2 t Ht). exact Hid1.
Qed.

(** ** What a request can do to wallets and the log *)

Ltac wallet_facts :=
  repeat (split; [solve [reflexivity | cbn; reflexivity | cbn; lia] |]).

Lemma request_withdrawal_wallet_step (db : DB) (uid : Z) (data : withdrawal_form)
  (now : Z) :
  wallet_step db (fst (request_withdrawal db uid data now)).
Proof.
  unfold request_withdrawal, deduct_funds.
  split_handler; try (left; split; reflexivity).
  right.
  match goal with
  | Hw : user_wallet _ ?u = Some ?w, Hb : (balance ?w <? ?z) = false |- _ =>
      exists u, w; eexists; eexists; split; [exact Hw |];
      apply Z.ltb_ge in Hb
  end.
  wallet_facts. left. cbn. lia.
Qed.

Lemma process_withdrawal_wallet_step (db : DB) (id : Z)
  (data_status : option string) (now : Z) :
  wallet_step db (fst (process_withdrawal db id data_status now)).
Proof.
  unfold process_withdrawal.
  destruct (get_withdrawal db id) as [wd |] eqn:Hget; [| left; split; reflexivity].
  destruct data_status as [s |]; [| left; split; reflexivity].
  destruct (negb (existsb (String.eqb s) valid_statuses));
    [left; split; reflexivity |].
  destruct (negb (s =? "pending")%string && (wd_status wd =? "pending")%string
            && (s =? "failed")%string); [| left; split; reflexivity].
  destruct (get_user db (wd_user_id wd)) as [user |]; [| left; split; reflexivity].
  destruct (user_wallet db user) as [w |] eqn:Hw; [| left; split; reflexivity].
  destruct (credit_wallet_cases db user w (wd_amount wd)
              "Refund for failed withdrawal") as [[_ ->] | ->];
    [| left; split; reflexivity].
  right. exists user, w. eexists; eexists. split; [exact Hw |].
  unfold credited, rewarded. wallet_facts.
  right. left. exists wd. split; [| reflexivity].
  unfold get_withdrawal in Hget. apply find_some in Hget. tauto.
Qed.

Lemma complete_mission_wallet_step (json_loads : string -> option json)
  (db : DB) (uid id : Z) (proof : string) (now : Z) :
  wallet_step db (fst (complete_mission json_loads db uid id proof now)).
Proof.
  unfold complete_mission.
  split_handler; try (left; split; reflexivity).
  right.
  match goal with
  | Hw : user_wallet _ ?u = Some ?w, Hm : get_mission _ _ = Some ?m |- _ =>
      credit_ok;
      exists u, w; eexists; eexists; split; [exact Hw |];
      unfold credited, rewarded; wallet_facts;
      right; right; exists m; split; [| reflexivity];
      unfold get_mission in Hm; apply find_some in Hm; tauto
  end.
Qed.

Lemma handle_wallet_step (json_loads : string -> option json) (db : DB)
  (now : Z) (req : request) :
  wallet_step db (fst (handle json_loads db now req)).
Proof.
  destruct req as [uid data | id data_status | uid id proof | reference code];
    cbn [handle].
  - apply request_withdrawal_wallet_step.
  - apply process_withdrawal_wallet_step.
  - apply complete_mission_wallet_step.
  - left. pose proof (mpesa_callback_frame db reference code now) as H.
    cbv zeta in H. tauto.
Qed.

Lemma map_update_first_unique {A : Type} (key F F' : A -> Z) (p : A -> bool)
  (w w' : A) (l : list A) :
  NoDup (map key l) ->
  find p l = Some w ->
  F' w' = F w ->
  (forall x, In x l -> key x <> key w -> F' x = F x) ->
  map F' (update_first p (fun _ => w') l) = map F l.
Proof.
  induction l as [| x r IH]; intros Hdup Hfind Hw Hother; [discriminate |].
  cbn [map] in Hdup. inversion Hdup as [| ? ? Hnotin Hdup']; subst.
  cbn [find] in Hfind. cbn [update_first]. destruct (p x) eqn:Hp.
  - injection Hfind as ->. cbn [map]. rewrite Hw. f_equal.
    apply map_ext_in. intros y Hy. apply Hother; [right; exact Hy |].
    intros Heq. apply Hnotin. rewrite <- Heq. apply in_map. exact Hy.
  - cbn [map]. f_equal.
    + apply Hother; [left; reflexivity |].
      intros Heq. apply Hnotin. rewrite Heq. apply in_map.
      apply find_some in Hfind. tauto.
    + apply IH; try assumption. intros y Hy. apply Hother. right. exact Hy.
Qed.

Lemma ledger_total_snoc (txs : list WalletTransaction) (t : WalletTransaction)
  (id : Z) :
  ledger_total (txs ++ [t]) id
  = ledger_total txs id + (if tx_wallet_id t =? id then signed_amount t else 0).
Proof.
  unfold ledger_total. rewrite filter_app, map_app, sum_app. cbn [filter].
  destruct (tx_wallet_id t =? id); cbn; lia.
Qed.

Lemma Forall_update_first {A : Type} (P : A -> Prop) (p : A -> bool)
  (f : A -> A) (l : list A) :
  (forall x, P x -> p x = true -> P (f x)) ->
  Forall P l -> Forall P (update_first p f l).
Proof.
  intros Hf Hall. induction Hall as [| x r Hx Hr IH]; cbn [update_first].
  - constructor.
  - destruct (p x) eqn:Hp; constructor; auto.
Qed.

Section WalletStep.

Variables db db' : DB.
Hypothesis step : wallet_step db db'.

Lemma wallet_step_rows :
  map wallet_id (wallets db') = map wallet_id (wallets db)
  /\ map wallet_user_id (wallets db') = map wallet_user_id (wallets db)
  /\ map total_withdrawn (wallets db') = map total_withdrawn (wallets db).
Proof.
  destruct step as [[-> _] | (user & w & w' & t & Hw & -> & _ & Hid & Huid & Hwd & _)].
  - repeat split.
  - repeat split;
      apply (update_first_found_map _ _ w); assumption.
Qed.

Lemma wallet_step_appends :
  exists new, wallet_transactions db' = wallet_transactions db ++ new.
Proof.
  destruct step as [[_ ->] | (user & w & w' & t & _ & _ & -> & _)].
  - exists []. rewrite app_nil_r. reflexivity.
  - exists [t]. reflexivity.
Qed.

Lemma wallet_step_unlogged :
  NoDup (map wallet_id (wallets db)) ->
  map (unlogged_balance (wallet_transactions db')) (wallets db')
  = map (unlogged_balance (wallet_transactions db)) (wallets db).
Proof.
  intros Hdup.
  destruct step as [[-> ->] | (user & w & w' & t & Hw & -> & -> & Hid & _ & _ & Ht & Hbal & _)].
  - reflexivity.
  - apply (map_update_first_unique wallet_id _ _ _ w); [exact Hdup | exact Hw | |].
    + unfold unlogged_balance. rewrite ledger_total_snoc, Hid, Ht, Z.eqb_refl. lia.
    + intros x _ Hne. unfold unlogged_balance. rewrite ledger_total_snoc, Ht.
      destruct (Z.eqb_spec (wallet_id w) (wallet_id x)) as [Heq | _]; [| lia].
      exfalso. apply Hne. symmetry. exact Heq.
Qed.

Lemma wallet_step_nonneg :
  payable db ->
  Forall (fun w => 0 <= balance w) (wallets db) ->
  Forall (fun w => 0 <= balance w) (wallets db').
Proof.
  intros [Hwds Hmissions] Hall.
  destruct step as [[-> _] | (user & w & w' & t & Hw & -> & _ & _ & _ & _ & _ & Hbal & _ & Hcause)].
  - exact Hall.
  - apply Forall_update_first; [| exact Hall]. intros x _ _.
    assert (Hold : 0 <= balance w).
    { rewrite Forall_forall in Hall. apply Hall.
      unfold user_wallet in Hw. apply find_some in Hw. tauto. }
    destruct Hcause as [Hpos | [(wd & Hin & Heq) | (m & Hin & Heq)]].
    + exact Hpos.
    + rewrite Forall_forall in Hwds. specialize (Hwds wd Hin). lia.
    + rewrite Forall_forall in Hmissions. specialize (Hmissions m Hin). lia.
Qed.

End WalletStep.

Lemma handle_payable (json_loads : string -> option json) (db : DB) (now : Z)
  (req : request) :
  payable db -> payable (fst (handle json_loads db now req)).
Proof.
  intros [Hwds Hmissions].
  destruct req as [uid data | id data_status | uid id proof | reference code];
    cbn [handle].
  - unfold request_withdrawal, deduct_funds.
    split_handler; try (split; assumption).
    split; [| exact Hmissions]. cbn. apply Forall_app. split; [exact Hwds |].
    constructor; [| constructor]. cbn.
    match goal with H : (_ <=? 0) = false |- _ => apply Z.leb_gt in H; lia end.
  - unfold process_withdrawal.
    destruct (get_withdrawal db id) as [wd |] eqn:Hget; [| split; assumption].
    destruct data_status as [s |]; [| split; assumption].
    destruct (negb (existsb (String.eqb s) valid_statuses)); [split; assumption |].
    match goal with
    | |- context [match ?r with Ok _ => _ | Raise _ => _ end] =>
        assert (Hrefund : r = Raise OverflowError
                          \/ exists db1, r = Ok db1
                                         /\ withdrawals db1 = withdrawals db
                                         /\ missions db1 = missions db)
    end.
    { destruct (negb (s =? "pending")%string && (wd_status wd =? "pending")%string
                && (s =? "failed")%string);
        [| right; eexists; repeat split].
      destruct (get_user db (wd_user_id wd)) as [user |];
        [| right; eexists; repeat split].
      destruct (user_wallet db user) as [w |]; [| right; eexists; repeat split].
      destruct (credit_wallet_cases db user w (wd_amount wd)
                  "Refund for failed withdrawal") as [[_ ->] | ->];
        [right; eexists; repeat split | left; reflexivity]. }
    destruct Hrefund as [-> | (db1 & -> & Hsame & Hmissions1)];
      [split; assumption |].
    split; cbn [fst withdrawals missions set_withdrawals];
      [| rewrite Hmissions1; exact Hmissions].
    rewrite Hsame. apply Forall_update_first; [| exact Hwds].
    intros x Hx _. cbn [wd_amount].
    rewrite Forall_forall in Hwds. apply Hwds.
    unfold get_withdrawal in Hget. apply find_some in Hget. tauto.
  - unfold complete_mission.
    split_handler; try (split; assumption).
    credit_ok. split; assumption.
  - unfold mpesa_callback.
    split_handler; split; assumption.
Qed.

(** ** Invariants of any sequence of requests *)

Lemma serve_wallet_ids (json_loads : string -> option json)
  (reqs : list (Z * request)) :
  forall db,
  map wallet_id (wallets (serve json_loads db reqs)) = map wallet_id (wallets db).
Proof.
  induction reqs as [| [now req] rest IH]; intros db; [reflexivity |].
  cbn [serve]. rewrite IH.
  exact (proj1 (wallet_step_rows db _ (handle_wallet_step json_loads db now req))).
Qed.

(** X2: no sequence of withdrawal requests, withdrawal resolutions, mission
    completions and payment callbacks adds or removes a wallet, moves one
    to another user, or changes any wallet's total_withdrawn. *)
Theorem serve_keeps_wallet_rows (json_loads : string -> option json)
  (reqs : list (Z * request)) :
  forall db,
  map wallet_id (wallets (serve json_loads db reqs)) = map wallet_id (wallets db)
  /\ map wallet_user_id (wallets (serve json_loads db reqs))
     = map wallet_user_id (wallets db)
  /\ map total_withdrawn (wallets (serve json_loads db reqs))
     = map total_withdrawn (wallets db).
Proof.
  induction reqs as [| [now req] rest IH]; intros db; [repeat split |].
  cbn [serve].
  destruct (IH (fst (handle json_loads db now req))) as (Hid & Huid & Hwd).
  destruct (wallet_step_rows db _ (handle_wallet_step json_loads db now req))
    as (Hid1 & Huid1 & Hwd1).
  rewrite Hid, Huid, Hwd. repeat split; assumption.
Qed.

(** X3: the transaction log is append-only: after any sequence of requests
    the rows that were there are still there, unchanged and in place, as a
    prefix of the log. *)
Theorem serve_log_append_only (json_loads : string -> option json)
  (reqs : list (Z * request)) :
  forall db,
  exists new,
    wallet_transactions (serve json_loads db reqs)
    = wallet_transactions db ++ new.
Proof.
  induction reqs as [| [now req] rest IH]; intros db.
  - exists []. rewrite app_nil_r. reflexivity.
  - cbn [serve].
    destruct (IH (fst (handle json_loads db now req))) as (new2 & Hrest).
    destruct (wallet_step_appends db _ (handle_wallet_step json_loads db now req))
      as (new1 & Hfirst).
    exists (new1 ++ new2). rewrite Hrest, Hfirst, app_assoc. reflexivity.
Qed.

(** X4: with distinct wallet ids, every balance change is logged: for each
    wallet, balance minus the signed sum of its logged rows is the same
    after any sequence of requests; so wallets that agree with the log
    keep agreeing with it. *)
Theorem serve_logs_every_balance_change (json_loads : string -> option json)
  (reqs : list (Z * request)) :
  forall db,
  NoDup (map wallet_id (wallets db)) ->
  map (unlogged_balance (wallet_transactions (serve json_loads db reqs)))
      (wallets (serve json_loads db reqs))
  = map (unlogged_balance (wallet_transactions db)) (wallets db)
  /\ (Forall (fun w => balance w = ledger_total (wallet_transactions db) (wallet_id w))
             (wallets db) ->
      Forall (fun w => balance w
                       = ledger_total (wallet_transactions (serve json_loads db reqs))
                                      (wallet_id w))
             (wallets (serve json_loads db reqs))).
Proof.
  assert (Hmap : forall db, NoDup (map wallet_id (wallets db)) ->
            map (unlogged_balance (wallet_transactions (serve json_loads db reqs)))
                (wallets (serve json_loads db reqs))
            = map (unlogged_balance (wallet_transactions db)) (wallets db)).
  { induction reqs as [| [now req] rest IH]; intros db Hdup; [reflexivity |].
    cbn [serve].
    pose proof (handle_wallet_step json_loads db now req) as Hstep.
    rewrite IH.
    - apply wallet_step_unlogged; assumption.
    - rewrite (proj1 (wallet_step_rows db _ Hstep)). exact Hdup. }
  intros db Hdup. split; [apply Hmap; exact Hdup |].
  intros Hagree.
  assert (Hzero : forall txs ws,
            Forall (fun w => balance w = ledger_total txs (wallet_id w)) ws
            <-> map (unlogged_balance txs) ws = map (fun _ => 0) ws).
  { intros txs ws. unfold unlogged_balance.
    induction ws as [| w r IH]; cbn [map].
    - split; [reflexivity | constructor].
    - split.
      + intros Hall. inversion Hall as [| ? ? Hw Hr]; subst.
        f_equal; [lia | apply IH; exact Hr].
      + intros Heq. injection Heq as Hw Hr.
        constructor; [lia | apply IH; exact Hr]. }
  assert (Hconst : forall l l' : list Wallet,
            map wallet_id l = map wallet_id l' ->
            map (fun _ => 0) l = map (fun _ => 0) l').
  { induction l as [| x r IH]; intros [| y r'] Hids; cbn in *;
      try discriminate; [reflexivity |].
    injection Hids as _ Hr. f_equal. apply IH. exact Hr. }
  apply Hzero. rewrite (Hmap db Hdup).
  apply Hzero in Hagree. rewrite Hagree.
  apply Hconst. symmetry.
  exact (serve_wallet_ids json_loads reqs db).
Qed.

Lemma serve_logs_every_balance_change_witness :
  map (unlogged_balance
         (wallet_transactions
            (serve QuotaScenario.no_json Scenario.alice_db ServingScenario.day)))
      (wallets (serve QuotaScenario.no_json Scenario.alice_db ServingScenario.day))
  = map (unlogged_balance (wallet_transactions Scenario.alice_db))
        (wallets Scenario.alice_db)
  /\ (Forall (fun w => balance w
                       = ledger_total (wallet_transactions Scenario.alice_db)
                                      (wallet_id w))
             (wallets Scenario.alice_db) ->
      Forall (fun w => balance w
                       = ledger_total
                           (wallet_transactions
                              (serve QuotaScenario.no_json Scenario.alice_db
                                     ServingScenario.day))
                           (wallet_id w))
             (wallets (serve QuotaScenario.no_json Scenario.alice_db
                             ServingScenario.day))).
Proof.
  apply (serve_logs_every_balance_change QuotaScenario.no_json ServingScenario.day
           Scenario.alice_db).
  cbn. repeat constructor. intros [].
Defined.

(** X5: if no stored withdrawal amount and no mission reward is negative,
    then from non-negative balances no sequence of requests drives any
    wallet's balance below zero. *)
Theorem serve_keeps_balances_nonnegative (json_loads : string -> option json)
  (reqs : list (Z * request)) :
  forall db,
  payable db ->
  Forall (fun w => 0 <= balance w) (wallets db) ->
  payable (serve json_loads db reqs)
  /\ Forall (fun w => 0 <= balance w) (wallets (serve json_loads db reqs)).
Proof.
  induction reqs as [| [now req] rest IH]; intros db Hpay Hall;
    [split; assumption |].
  cbn [serve]. apply IH.
  - apply handle_payable. exact Hpay.
  - apply (wallet_step_nonneg db _ (handle_wallet_step json_loads db now req));
      assumption.
Qed.

Lemma serve_keeps_balances_nonnegative_witness :
  payable (serve QuotaScenario.no_json Scenario.alice_db ServingScenario.day)
  /\ Forall (fun w => 0 <= balance w)
            (wallets (serve QuotaScenario.no_json Scenario.alice_db
                            ServingScenario.day)).
Proof.
  apply (serve_keeps_balances_nonnegative QuotaScenario.no_json
           ServingScenario.day Scenario.alice_db).
  - split; constructor.
  - repeat constructor. cbn. lia.
Defined.

(** X6: a request that is answered with an error status (or that crashes)
    has changed nothing: the database after it is the database before it.
    This holds for withdrawal requests, withdrawal resolutions, mission
    completions and payment callbacks alike. *)
Theorem refused_request_changes_nothing (json_loads : string -> option json)
  (db : DB) (now : Z) (req : request) :
  refused (snd (handle json_loads db now req)) = true ->
  fst (handle json_loads db now req) = db.
Proof.
  destruct req as [uid data | id data_status | uid id proof | reference code];
    cbn [handle].
  - unfold request_withdrawal, deduct_funds.
    split_handler; cbn; intros H; try reflexivity; discriminate H.
  - unfold process_withdrawal.
    split_handler; cbn; intros H; try reflexivity; discriminate H.
  - unfold complete_mission.
    split_handler; cbn; intros H; try reflexivity; discriminate H.
  - unfold mpesa_callback.
    split_handler; cbn; intros H; try reflexivity; discriminate H.
Qed.

Lemma refused_request_changes_nothing_witness :
  fst (handle QuotaScenario.no_json Scenario.alice_db 300
         (RequestWithdrawal 1
            (mkForm (Some (JInt 1500)) (Some "bank") (Some "KCB 0001"))))
  = Scenario.alice_db.
Proof.
  apply (refused_request_changes_nothing QuotaScenario.no_json Scenario.alice_db 300).
  reflexivity.
Defined.

(** X7: a withdrawal request for a positive integer amount above the
    balance is answered 400 "Insufficient balance" and changes nothing,
    whatever method and account it names (the method is only looked at
    afterwards). *)
Theorem overdrawn_request_rejected (db : DB) (uid : Z) (user : User) (w : Wallet)
  (amount : Z) (method info : string) (now : Z) :
  get_user db uid = Some user ->
  user_wallet db user = Some w ->
  0 < amount ->
  balance w < amount ->
  request_withdrawal db uid (mkForm (Some (JInt amount)) (Some method) (Some info)) now
  = (db, error_reply 400 "Insufficient balance").
Proof.
  intros Hu Hw Hpos Hover. unfold request_withdrawal.
  rewrite Hu, Hw. cbn [form_amount form_method form_account_info as_int].
  destruct (Z.leb_spec amount 0) as [Hle | _]; [lia |].
  destruct (Z.ltb_spec (balance w) amount) as [_ | Hge]; [reflexivity | lia].
Qed.

Lemma overdrawn_request_rejected_witness :
  request_withdrawal Scenario.alice_db 1
    (mkForm (Some (JInt 1500)) (Some "cheque") (Some "none")) 300
  = (Scenario.alice_db, error_reply 400 "Insufficient balance").
Proof.
  apply (overdrawn_request_rejected Scenario.alice_db 1 Scenario.alice
           (mkWallet 1 1 1000 1000 0) 1500 "cheque" "none" 300).
  - reflexivity.
  - reflexivity.
  - lia.
  - simpl; lia.
Defined.

(** ** Withdrawal resolution *)

Lemma withdrawal_found_after_update (ws : list Withdrawal) (id : Z)
  (wd wd' : Withdrawal) :
  find (has_withdrawal_id id) ws = Some wd ->
  withdrawal_id wd' = withdrawal_id wd ->
  find (has_withdrawal_id id) (update_first (has_withdrawal_id id) (fun _ => wd') ws)
  = Some wd'.
Proof.
  intros Hfind Hid. apply (find_update_first _ _ _ wd Hfind).
  apply find_some in Hfind. destruct Hfind as [_ Hp].
  unfold has_withdrawal_id in *. rewrite Hid. exact Hp.
Qed.

(** X8: resolving a pending withdrawal as completed touches no wallet and
    logs nothing (the funds were taken at request time); it sets the status
    to completed and stamps processed_at with the time of the resolution. *)
Theorem completed_resolution_moves_no_money (db : DB) (id : Z) (wd : Withdrawal)
  (now : Z) :
  get_withdrawal db id = Some wd ->
  wd_status wd = "pending" ->
  let db' := fst (process_withdrawal db id (Some "completed") now) in
  wallets db' = wallets db
  /\ wallet_transactions db' = wallet_transactions db
  /\ get_withdrawal db' id
     = Some (mkWithdrawal (withdrawal_id wd) (wd_user_id wd) (wd_amount wd)
                          (wd_method wd) "completed" (wd_account_info wd)
                          (wd_created_at wd) (Some now)).
Proof.
  intros Hget Hpending db'. subst db'. unfold process_withdrawal.
  rewrite Hget, Hpending.
  cbn [existsb valid_statuses String.eqb Ascii.eqb Bool.eqb negb andb orb fst
       wallets wallet_transactions set_withdrawals].
  split; [reflexivity |]. split; [reflexivity |].
  unfold get_withdrawal in *. cbn [withdrawals set_withdrawals].
  apply (withdrawal_found_after_update _ id wd); [exact Hget | reflexivity].
Qed.

Lemma completed_resolution_moves_no_money_witness :
  let db := fst (request_withdrawal Scenario.alice_db 1
                   (mkForm (Some (JInt 500)) (Some "mpesa") (Some "0712345678")) 100) in
  let db' := fst (process_withdrawal db 1 (Some "completed") 200) in
  wallets db' = wallets db
  /\ wallet_transactions db' = wallet_transactions db
  /\ get_withdrawal db' 1
     = Some (mkWithdrawal 1 1 500 "mpesa" "completed" "0712345678" 100 (Some 200)).
Proof.
  apply (completed_resolution_moves_no_money
           (fst (request_withdrawal Scenario.alice_db 1
                   (mkForm (Some (JInt 500)) (Some "mpesa") (Some "0712345678")) 100))
           1 (mkWithdrawal 1 1 500 "mpesa" "pending" "0712345678" 100 None) 200).
  - reflexivity.
  - reflexivity.
Defined.

(** X9: a withdrawal can be reopened whatever its status, completed and
    failed included: an update to pending touches no wallet, and the update
    to failed that follows credits the withdrawal amount to the owner's
    wallet (balance and total_earned both grow by it) and logs a refund
    row, even when the withdrawal had been settled before.  The refund
    has to fit the wallet's Integer columns. *)
Theorem reopened_withdrawal_is_refunded (db : DB) (id : Z) (wd : Withdrawal)
  (user : User) (w : Wallet) (t1 t2 : Z) :
  get_withdrawal db id = Some wd ->
  get_user db (wd_user_id wd) = Some user ->
  user_wallet db user = Some w ->
  in_column (balance w + wd_amount wd) = true ->
  in_column (total_earned w + wd_amount wd) = true ->
  let reopened := fst (process_withdrawal db id (Some "pending") t1) in
  let failed := fst (process_withdrawal reopened id (Some "failed") t2) in
  wallets reopened = wallets db
  /\ user_wallet failed user
     = Some (mkWallet (wallet_id w) (wallet_user_id w)
                      (balance w + wd_amount wd) (total_earned w + wd_amount wd)
                      (total_withdrawn w))
  /\ wallet_transactions failed
     = wallet_transactions db
       ++ [mkTransaction (wallet_id w) (wd_amount wd) "credit"
                         "Refund for failed withdrawal"]
  /\ option_map wd_status (get_withdrawal failed id) = Some "failed".
Proof.
  intros Hget Huser Hwallet Hbalance Hearned reopened failed.
  assert (Hfits : credit_fits w (wd_amount wd)) by (split; assumption).
  set (wd1 := mkWithdrawal (withdrawal_id wd) (wd_user_id wd) (wd_amount wd)
                           (wd_method wd) "pending" (wd_account_info wd)
                           (wd_created_at wd) (processed_at wd)).
  assert (Hreopened : reopened
            = set_withdrawals db
                (update_first (has_withdrawal_id id) (fun _ => wd1) (withdrawals db))).
  { subst reopened. unfold process_withdrawal. rewrite Hget.
    cbn [existsb valid_statuses String.eqb Ascii.eqb Bool.eqb negb andb orb fst].
    reflexivity. }
  assert (Hget1 : get_withdrawal reopened id = Some wd1).
  { rewrite Hreopened. unfold get_withdrawal in *. cbn [withdrawals set_withdrawals].
    apply (withdrawal_found_after_update _ id wd); [exact Hget | reflexivity]. }
  assert (Hfailed : failed
            = set_withdrawals
                (credited reopened user w (wd_amount wd)
                          "Refund for failed withdrawal")
                (update_first (has_withdrawal_id id)
                   (fun _ => mkWithdrawal (withdrawal_id wd) (wd_user_id wd)
                               (wd_amount wd) (wd_method wd) "failed"
                               (wd_account_info wd) (wd_created_at wd) (Some t2))
                   (withdrawals reopened))).
  { subst failed. unfold process_withdrawal. rewrite Hget1.
    cbn [existsb valid_statuses String.eqb Ascii.eqb Bool.eqb negb andb orb fst
         wd1 wd_status wd_user_id wd_amount withdrawal_id wd_method
         wd_account_info wd_created_at processed_at].
    replace (get_user reopened (wd_user_id wd)) with (Some user)
      by (rewrite Hreopened; symmetry; exact Huser).
    replace (user_wallet reopened user) with (Some w)
      by (rewrite Hreopened; symmetry; exact Hwallet).
    rewrite (credit_wallet_fits _ _ _ _ _ Hfits). reflexivity. }
  split; [rewrite Hreopened; reflexivity |].
  rewrite Hfailed. unfold credited, rewarded.
  split; [| split].
  - unfold user_wallet. cbn [wallets set_withdrawals set_wallet_transactions set_wallets].
    rewrite Hreopened. cbn [wallets set_withdrawals].
    apply (user_wallet_rewritten db user w _ Hwallet). reflexivity.
  - cbn [wallet_transactions set_withdrawals set_wallet_transactions set_wallets].
    rewrite Hreopened. reflexivity.
  - unfold get_withdrawal in *.
    cbn [withdrawals set_withdrawals set_wallet_transactions set_wallets].
    rewrite (withdrawal_found_after_update _ id wd1); [reflexivity | exact Hget1 | reflexivity].
Qed.

Lemma reopened_withdrawal_is_refunded_witness :
  let reopened := fst (process_withdrawal Scenario.settled_db 1 (Some "pending") 300) in
  let failed := fst (process_withdrawal reopened 1 (Some "failed") 400) in
  wallets reopened = wallets Scenario.settled_db
  /\ user_wallet failed Scenario.alice = Some (mkWallet 1 1 (500 + 500) (1000 + 500) 0)
  /\ wallet_transactions failed
     = wallet_transactions Scenario.settled_db
       ++ [mkTransaction 1 500 "credit" "Refund for failed withdrawal"]
  /\ option_map wd_status (get_withdrawal failed 1) = Some "failed".
Proof.
  apply (reopened_withdrawal_is_refunded Scenario.settled_db 1
           (mkWithdrawal 1 1 500 "mpesa" "completed" "0712345678" 100 (Some 200))
           Scenario.alice (mkWallet 1 1 500 1000 0) 300 400).
  - reflexivity.
  - reflexivity.
  - reflexivity.
  - reflexivity.
  - reflexivity.
Defined.

(** ** Mission completion *)

(** Every way [complete_mission] can end: refused with the database
    untouched, or accepted after every gate, with its three writes. *)
Lemma complete_mission_cases (json_loads : string -> option json) (db : DB)
  (uid id : Z) (proof : string) (now : Z) :
  (succeeded (snd (complete_mission json_loads db uid id proof now)) = false
   /\ fst (complete_mission json_loads db uid id proof now) = db)
  \/ exists user m tier mission w,
       get_user db uid = Some user
       /\ user_membership db user = Some m
       /\ ms_is_active m = true
       /\ now <= end_date m
       /\ membership_tier db m = Some tier
       /\ get_mission db id = Some mission
       /\ mission_is_active mission = true
       /\ already_completed db user mission (date now) = false
       /\ Z.of_nat (List.length (completed_today db user (date now)))
          < daily_missions tier
       /\ validate_mission_completion json_loads mission proof = true
       /\ user_wallet db user = Some w
       /\ credit_fits w (reward mission)
       /\ complete_mission json_loads db uid id proof now
          = (set_mission_completions
               (credited db user w (reward mission)
                  ("Reward for completing mission: " ++ title mission))
               (mission_completions db
                ++ [mkCompletion (user_id user) (mission_id mission)
                                 (reward mission) now proof]),
             Reply 200 [("message", JStr "Mission completed successfully");
                        ("reward", JInt (reward mission));
                        ("wallet_balance", JInt (balance w + reward mission))]).
Proof.
  unfold complete_mission.
  destruct (get_user db uid) as [user |] eqn:Hu; [| left; split; reflexivity].
  destruct (user_membership db user) as [m |] eqn:Hm; [| left; split; reflexivity].
  destruct (ms_is_active m) eqn:Hactive; cbn [negb orb]; [| left; split; reflexivity].
  destruct (Z.ltb_spec (end_date m) now) as [Hlt | Hge]; [left; split; reflexivity |].
  destruct (get_mission db id) as [mission |] eqn:Hget; [| left; split; reflexivity].
  destruct (mission_is_active mission) eqn:Hon; cbn [negb]; [| left; split; reflexivity].
  destruct (already_completed db user mission (date now)) eqn:Halready;
    [left; split; reflexivity |].
  destruct (membership_tier db m) as [tier |] eqn:Ht; [| left; split; reflexivity].
  destruct (Z.leb_spec (daily_missions tier)
              (Z.of_nat (List.length (completed_today db user (date now)))))
    as [Hle | Hlt]; [left; split; reflexivity |].
  destruct (validate_mission_completion json_loads mission proof) eqn:Hvalid;
    cbn [negb]; [| left; split; reflexivity].
  destruct (user_wallet db user) as [w |] eqn:Hw; [| left; split; reflexivity].
  destruct (credit_wallet_cases db user w (reward mission)
              ("Reward for completing mission: " ++ title mission))
    as [[Hfits ->] | ->]; [| left; split; reflexivity].
  right. exists user, m, tier, mission, w.
  repeat (split; [first [reflexivity | assumption] |]). reflexivity.
Qed.

(** X10: a mission completion answered 200 passed every gate (the caller
    has an active, unexpired membership; the mission exists and is active,
    was not completed by the caller that day, the day's count is below the
    tier's limit, the proof validates) and wrote exactly this: one
    completion row with the mission's reward, the reward added to the
    caller's balance and total_earned, one credit row in the log. *)
Theorem accepted_completion_passed_every_gate (json_loads : string -> option json)
  (db : DB) (uid id : Z) (proof : string) (now : Z) :
  succeeded (snd (complete_mission json_loads db uid id proof now)) = true ->
  exists user m tier mission w,
    get_user db uid = Some user
    /\ user_membership db user = Some m
    /\ is_usable m now = true
    /\ membership_tier db m = Some tier
    /\ get_mission db id = Some mission
    /\ mission_is_active mission = true
    /\ already_completed db user mission (date now) = false
    /\ Z.of_nat (List.length (completed_today db user (date now)))
       < daily_missions tier
    /\ validate_mission_completion json_loads mission proof = true
    /\ user_wallet db user = Some w
    /\ mission_completions (fst (complete_mission json_loads db uid id proof now))
       = mission_completions db
         ++ [mkCompletion (user_id user) id (reward mission) now proof]
    /\ wallets (fst (complete_mission json_loads db uid id proof now))
       = update_first (owns_wallet user)
           (fun _ => mkWallet (wallet_id w) (wallet_user_id w)
                              (balance w + reward mission)
                              (total_earned w + reward mission)
                              (total_withdrawn w))
           (wallets db)
    /\ wallet_transactions (fst (complete_mission json_loads db uid id proof now))
       = wallet_transactions db
         ++ [mkTransaction (wallet_id w) (reward mission) "credit"
               ("Reward for completing mission: " ++ title mission)].
Proof.
  intros Hok.
  destruct (complete_mission_cases json_loads db uid id proof now)
    as [[Hno _] | (user & m & tier & mission & w & Hu & Hm & Hactive & Hend & Ht
                   & Hget & Hon & Halready & Hcount & Hvalid & Hw & _ & Hrun)].
  - rewrite Hno in Hok. discriminate.
  - exists user, m, tier, mission, w.
    pose proof Hget as Hfound. unfold get_mission in Hfound.
    apply find_some in Hfound. destruct Hfound as [_ Hid]. apply Z.eqb_eq in Hid.
    rewrite Hid in Hrun. rewrite Hrun.
    unfold is_usable. rewrite Hactive.
    destruct (Z.leb_spec now (end_date m)) as [_ | Hlt]; [| lia].
    repeat (split; [first [reflexivity | assumption] |]). reflexivity.
Qed.

Lemma accepted_completion_passed_every_gate_witness :
  exists user m tier mission w,
    get_user QuotaScenario.quota_db 7 = Some user
    /\ user_membership QuotaScenario.quota_db user = Some m
    /\ is_usable m 864060 = true
    /\ membership_tier QuotaScenario.quota_db m = Some tier
    /\ get_mission QuotaScenario.quota_db 1 = Some mission
    /\ mission_is_active mission = true
    /\ already_completed QuotaScenario.quota_db user mission (date 864060) = false
    /\ Z.of_nat (List.length (completed_today QuotaScenario.quota_db user (date 864060)))
       < daily_missions tier
    /\ validate_mission_completion QuotaScenario.no_json mission "done" = true
    /\ user_wallet QuotaScenario.quota_db user = Some w
    /\ mission_completions
         (fst (complete_mission QuotaScenario.no_json QuotaScenario.quota_db
                 7 1 "done" 864060))
       = mission_completions QuotaScenario.quota_db
         ++ [mkCompletion (user_id user) 1 (reward mission) 864060 "done"]
    /\ wallets
         (fst (complete_mission QuotaScenario.no_json QuotaScenario.quota_db
                 7 1 "done" 864060))
       = update_first (owns_wallet user)
           (fun _ => mkWallet (wallet_id w) (wallet_user_id w)
                              (balance w + reward mission)
                              (total_earned w + reward mission)
                              (total_withdrawn w))
           (wallets QuotaScenario.quota_db)
    /\ wallet_transactions
         (fst (complete_mission QuotaScenario.no_json QuotaScenario.quota_db
                 7 1 "done" 864060))
       = wallet_transactions QuotaScenario.quota_db
         ++ [mkTransaction (wallet_id w) (reward mission) "credit"
               ("Reward for completing mission: " ++ title mission)].
Proof.
  apply (accepted_completion_passed_every_gate QuotaScenario.no_json
           QuotaScenario.quota_db 7 1 "done" 864060).
  reflexivity.
Defined.

Lemma completed_today_snoc (user : User) (day : Z)
  (c : MissionCompletion) (rows : list MissionCompletion) :
  filter (fun c => (mc_user_id c =? user_id user) && (date (mc_completed_at c) =? day))
         (rows ++ [c])
  = filter (fun c => (mc_user_id c =? user_id user) && (date (mc_completed_at c) =? day))
           rows
    ++ (if (mc_user_id c =? user_id user) && (date (mc_completed_at c) =? day)
        then [c] else []).
Proof.
  rewrite filter_app. cbn [filter].
  destruct ((mc_user_id c =? user_id user) && (date (mc_completed_at c) =? day));
    reflexivity.
Qed.

(** X11: however a member calls the completion endpoint (any missions, any
    proofs, any times, repeats included), on no day does the number of
    their completions pass the larger of what it was and the tier's daily
    limit, and no mission comes to be completed twice by them on one day. *)
Theorem daily_limit_holds_for_any_calls (json_loads : string -> option json)
  (uid : Z) (user : User) (m : Membership) (tier : MembershipTier) (day : Z)
  (calls : list (Z * string * Z)) :
  forall db,
  get_user db uid = Some user ->
  user_membership db user = Some m ->
  membership_tier db m = Some tier ->
  let db' := fst (complete_missions json_loads db uid calls) in
  Z.of_nat (List.length (completed_today db' user day))
  <= Z.max (Z.of_nat (List.length (completed_today db user day)))
           (daily_missions tier)
  /\ (NoDup (map mc_mission_id (completed_today db user day)) ->
      NoDup (map mc_mission_id (completed_today db' user day))).
Proof.
  induction calls as [| [[id proof] now] rest IH]; intros db Hu Hm Ht.
  - cbn. split; [lia | trivial].
  - cbn [complete_missions].
    destruct (complete_mission json_loads db uid id proof now) as [db1 r] eqn:Hstep.
    destruct (complete_missions json_loads db1 uid rest) as [db2 rs] eqn:Hrest.
    cbn [fst].
    assert (Hdb2 : db2 = fst (complete_missions json_loads db1 uid rest))
      by (rewrite Hrest; reflexivity).
    destruct (complete_mission_cases json_loads db uid id proof now)
      as [[_ Hsame] | (user' & m' & tier' & mission & w & Hu' & Hm' & _ & _ & Ht'
                       & Hget & _ & Halready & Hcount & _ & _ & _ & Hrun)].
    + rewrite Hstep in Hsame. cbn [fst] in Hsame. subst db1.
      rewrite Hdb2. exact (IH db Hu Hm Ht).
    + rewrite Hu in Hu'. injection Hu' as <-.
      rewrite Hm in Hm'. injection Hm' as <-.
      rewrite Ht in Ht'. injection Ht' as <-.
      rewrite Hstep in Hrun. injection Hrun as Hdb1 _.
      assert (Hrows : completed_today db1 user day
                = completed_today db user day
                  ++ (if date now =? day
                      then [mkCompletion (user_id user) (mission_id mission)
                                         (reward mission) now proof]
                      else [])).
      { rewrite Hdb1. unfold completed_today, credited.
        cbn [mission_completions set_mission_completions set_wallet_transactions
             set_wallets].
        rewrite completed_today_snoc. cbn [mc_user_id mc_completed_at].
        rewrite Z.eqb_refl. cbn [andb]. reflexivity. }
      assert (Hu1 : get_user db1 uid = Some user) by (rewrite Hdb1; exact Hu).
      assert (Hm1 : user_membership db1 user = Some m) by (rewrite Hdb1; exact Hm).
      assert (Ht1 : membership_tier db1 m = Some tier) by (rewrite Hdb1; exact Ht).
      destruct (IH db1 Hu1 Hm1 Ht1) as [Hbound Hdup].
      rewrite <- Hdb2 in Hbound, Hdup. rewrite Hrows in Hbound, Hdup.
      destruct (Z.eqb_spec (date now) day) as [Hday | Hother].
      * subst day. split.
        -- rewrite length_app in Hbound. cbn [List.length] in Hbound. lia.
        -- intros Hnodup. apply Hdup. rewrite map_app. cbn [map mc_mission_id].
           apply NoDup_app; [exact Hnodup | repeat constructor; intros [] |].
           intros x Hx [<- | []].
           rewrite (already_completed_today user (date now) db mission) in Halready.
           apply in_map_iff in Hx. destruct Hx as (c & Hid & Hc).
           assert (Hex : existsb (fun c => mc_mission_id c =? mission_id mission)
                                 (completed_today db user (date now)) = true).
           { apply existsb_exists. exists c. split; [exact Hc |].
             apply Z.eqb_eq. exact Hid. }
           rewrite Hex in Halready. discriminate.
      * rewrite app_nil_r in Hbound, Hdup. split; assumption.
Qed.

Lemma daily_limit_holds_for_any_calls_witness :
  let db' := fst (complete_missions QuotaScenario.no_json QuotaScenario.quota_db 7
                    BusyScenario.calls) in
  Z.of_nat (List.length (completed_today db' QuotaScenario.member 10))
  <= Z.max (Z.of_nat (List.length
                        (completed_today QuotaScenario.quota_db
                                         QuotaScenario.member 10)))
           (daily_missions QuotaScenario.two_a_day)
  /\ (NoDup (map mc_mission_id
               (completed_today QuotaScenario.quota_db QuotaScenario.member 10)) ->
      NoDup (map mc_mission_id (completed_today db' QuotaScenario.member 10))).
Proof.
  apply (daily_limit_holds_for_any_calls QuotaScenario.no_json 7
           QuotaScenario.member QuotaScenario.membership QuotaScenario.two_a_day
           10 BusyScenario.calls QuotaScenario.quota_db).
  - reflexivity.
  - reflexivity.
  - reflexivity.
Defined.

(** The busy day of [BusyScenario]: two completions on day 10, two on day
    11, and a wallet holding the four rewards. *)
Example busy_member_is_capped :
  let db' := fst (complete_missions QuotaScenario.no_json QuotaScenario.quota_db 7
                    BusyScenario.calls) in
  map mc_mission_id (completed_today db' QuotaScenario.member 10) = [1; 2]
  /\ map mc_mission_id (completed_today db' QuotaScenario.member 11) = [3; 1]
  /\ map balance (wallets db') = [110].
Proof. repeat split. Qed.

(** ** Listing missions, then completing one *)

Lemma in_firstn {A : Type} (n : nat) (l : list A) (x : A) :
  In x (firstn n l) -> In x l.
Proof.
  revert l. induction n as [| k IH]; intros [| y r] Hin; cbn in *; try contradiction.
  destruct Hin as [-> | Hin]; [left; reflexivity | right; apply IH; exact Hin].
Qed.

Lemma find_by_unique_key {A : Type} (key : A -> Z) (l : list A) (x : A) :
  NoDup (map key l) -> In x l -> find (fun y => key y =? key x) l = Some x.
Proof.
  induction l as [| y r IH]; intros Hdup Hin; [contradiction |].
  cbn [map] in Hdup. inversion Hdup as [| ? ? Hnotin Hdup']; subst.
  cbn [find]. destruct Hin as [-> | Hin].
  - rewrite Z.eqb_refl. reflexivity.
  - destruct (Z.eqb_spec (key y) (key x)) as [Heq | _].
    + exfalso. apply Hnotin. rewrite Heq. apply in_map. exact Hin.
    + apply IH; assumption.
Qed.

(** X12: with distinct mission ids, every mission that
    [User.get_available_missions] lists for a member can be completed by
    that member at that moment with any proof the validator accepts,
    provided the membership has not ended, the member has a wallet and
    the reward of each listed mission fits the wallet's Integer columns;
    and the list is never longer than what is left of the day's limit. *)
Theorem listed_mission_can_be_completed (json_loads : string -> option json)
  (db : DB) (uid : Z) (user : User) (m : Membership) (tier : MembershipTier)
  (now : Z) (listed : list Mission) (w : Wallet) :
  NoDup (map mission_id (missions db)) ->
  get_user db uid = Some user ->
  user_membership db user = Some m ->
  membership_tier db m = Some tier ->
  now <= end_date m ->
  user_wallet db user = Some w ->
  get_available_missions db user now = Ok listed ->
  (forall mission, In mission listed -> credit_fits w (reward mission)) ->
  Z.of_nat (List.length listed)
  + Z.of_nat (List.length (completed_today db user (date now)))
  <= Z.max (Z.of_nat (List.length (completed_today db user (date now))))
           (daily_missions tier)
  /\ forall mission proof,
       In mission listed ->
       validate_mission_completion json_loads mission proof = true ->
       succeeded (snd (complete_mission json_loads db uid (mission_id mission)
                         proof now)) = true.
Proof.
  intros Hdup Hu Hm Ht Hend Hw Hlist Hfits.
  unfold get_available_missions in Hlist. rewrite Hm, Ht in Hlist.
  destruct (ms_is_active m) eqn:Hactive; cbn [negb] in Hlist.
  2:{ injection Hlist as <-. split; [cbn; lia | intros ? ? []]. }
  destruct (Z.leb_spec (daily_missions tier)
              (Z.of_nat (List.length (completed_today db user (date now)))))
    as [Hfull | Hroom].
  { injection Hlist as <-. split; [cbn; lia | intros ? ? []]. }
  injection Hlist as Hlisted. rewrite <- Hlisted in *. clear Hlisted. split.
  - pose proof (firstn_le_length
                  (Z.to_nat (daily_missions tier
                             - Z.of_nat (List.length (completed_today db user (date now)))))
                  (filter (fun mission =>
                             mission_is_active mission
                             && not_done_today db user (date now) mission)
                          (missions db))) as Hlen.
    lia.
  - intros mission proof Hin Hvalid.
    pose proof (Hfits mission Hin) as Hfit.
    apply in_firstn in Hin. apply filter_In in Hin.
    destruct Hin as [Hin Hpass]. apply andb_true_iff in Hpass.
    destruct Hpass as [Hon Hfresh].
    unfold complete_mission. rewrite Hu, Hm, Hactive. cbn [negb orb].
    destruct (Z.ltb_spec (end_date m) now) as [Hlt | _]; [lia |].
    unfold get_mission.
    rewrite (find_by_unique_key mission_id (missions db) mission Hdup Hin).
    rewrite Hon. cbn [negb].
    rewrite (already_completed_today user (date now) db mission).
    unfold not_done_today in Hfresh. apply negb_true_iff in Hfresh. rewrite Hfresh.
    rewrite Ht.
    destruct (Z.leb_spec (daily_missions tier)
                (Z.of_nat (List.length (completed_today db user (date now)))))
      as [Hfull | _]; [lia |].
    rewrite Hvalid. cbn [negb].
    rewrite Hw, (credit_wallet_fits _ _ _ _ _ Hfit). reflexivity.
Qed.

Lemma listed_mission_can_be_completed_witness :
  Z.of_nat (List.length (firstn 2 (missions QuotaScenario.quota_db)))
  + Z.of_nat (List.length (completed_today QuotaScenario.quota_db
                                           QuotaScenario.member (date 864060)))
  <= Z.max (Z.of_nat (List.length (completed_today QuotaScenario.quota_db
                                                   QuotaScenario.member (date 864060))))
           (daily_missions QuotaScenario.two_a_day)
  /\ forall mission proof,
       In mission (firstn 2 (missions QuotaScenario.quota_db)) ->
       validate_mission_completion QuotaScenario.no_json mission proof = true ->
       succeeded (snd (complete_mission QuotaScenario.no_json QuotaScenario.quota_db
                         7 (mission_id mission) proof 864060)) = true.
Proof.
  apply (listed_mission_can_be_completed QuotaScenario.no_json QuotaScenario.quota_db
           7 QuotaScenario.member QuotaScenario.membership QuotaScenario.two_a_day
           864060 (firstn 2 (missions QuotaScenario.quota_db))
           (mkWallet 7 7 0 0 0)).
  - cbn. repeat constructor; cbn; intuition discriminate.
  - reflexivity.
  - reflexivity.
  - reflexivity.
  - cbn; lia.
  - reflexivity.
  - reflexivity.
  - intros mission [<- | [<- | []]]; split; reflexivity.
Defined.

(** X13: once an admin update has switched a mission off, nobody can
    complete it: every completion call for it is refused and changes
    nothing, until an update switches it on again. *)
Theorem deactivated_mission_cannot_be_completed (json_loads : string -> option json)
  (db : DB) (id : Z) (mission : Mission) (data : mission_form)
  (uid : Z) (proof : string) (now : Z) :
  get_mission db id = Some mission ->
  mf_is_active data = Some false ->
  let db' := fst (update_mission db id data) in
  option_map mission_is_active (get_mission db' id) = Some false
  /\ fst (complete_mission json_loads db' uid id proof now) = db'
  /\ succeeded (snd (complete_mission json_loads db' uid id proof now)) = false.
Proof.
  intros Hget Hoff db'.
  assert (Hget' : exists mission', get_mission db' id = Some mission'
                                   /\ mission_is_active mission' = false).
  { subst db'. unfold update_mission. rewrite Hget, Hoff. cbn [fst or_keep].
    eexists. split.
    - unfold get_mission in *. cbn [missions set_missions].
      apply (find_update_first _ _ _ mission Hget).
      cbn [mission_id]. apply find_some in Hget. tauto.
    - reflexivity. }
  destruct Hget' as (mission' & Hfound & Hflag).
  split; [rewrite Hfound; cbn; rewrite Hflag; reflexivity |].
  destruct (complete_mission_cases json_loads db' uid id proof now)
    as [[Hno Hsame] | (user & m & tier & mission'' & w & _ & _ & _ & _ & _
                       & Hget'' & Hon & _)].
  - split; assumption.
  - rewrite Hfound in Hget''. injection Hget'' as <-. congruence.
Qed.

Lemma deactivated_mission_cannot_be_completed_witness :
  let db' := fst (update_mission QuotaScenario.quota_db 1
                    (mkMissionForm None None None None (Some false))) in
  option_map mission_is_active (get_mission db' 1) = Some false
  /\ fst (complete_mission QuotaScenario.no_json db' 7 1 "done" 864060) = db'
  /\ succeeded (snd (complete_mission QuotaScenario.no_json db' 7 1 "done" 864060))
     = false.
Proof.
  apply (deactivated_mission_cannot_be_completed QuotaScenario.no_json
           QuotaScenario.quota_db 1 (mkMission 1 "Follow" 20 "task" 0 true)
           (mkMissionForm None None None None (Some false)) 7 "done" 864060).
  - reflexivity.
  - reflexivity.
Defined.

(** ** More on proof validation *)

(** X14: for an ad mission, whatever its required duration, a proof with a
    longer integer view duration than an accepted one is accepted too. *)
Theorem longer_view_is_accepted_too (json_loads : string -> option json)
  (mission : Mission) (proof proof' : string) (data data' : json) (v v' : Z) :
  mission_type mission = "ad" ->
  proof' <> "" ->
  json_loads proof = Some data ->
  dict_get data "duration" (JInt 0) = Some (JInt v) ->
  json_loads proof' = Some data' ->
  dict_get data' "duration" (JInt 0) = Some (JInt v') ->
  v <= v' ->
  validate_mission_completion json_loads mission proof = true ->
  validate_mission_completion json_loads mission proof' = true.
Proof.
  intros Htype Hproof' Hloads Hget Hloads' Hget' Hle.
  unfold validate_mission_completion.
  destruct (String.eqb_spec proof' "") as [Hempty | _]; [contradiction |].
  destruct (proof =? "")%string; [discriminate |].
  rewrite Htype. cbn [String.eqb Ascii.eqb Bool.eqb].
  rewrite Hloads, Hget, Hloads', Hget'. unfold duration_reached.
  destruct (float_of_int (duration mission)) as [d |]; [| discriminate].
  unfold int_ge_float. apply int_ge_sf_mono. exact Hle.
Qed.

Lemma longer_view_is_accepted_too_witness :
  validate_mission_completion
    (fun s => if (s =? "short")%string
              then Some (JObj [("duration", JInt 27)])
              else Some (JObj [("duration", JInt 40)]))
    (mkMission 1 "Watch the clip" 10 "ad" 30 true) "long" = true.
Proof.
  apply (longer_view_is_accepted_too
           (fun s => if (s =? "short")%string
                     then Some (JObj [("duration", JInt 27)])
                     else Some (JObj [("duration", JInt 40)]))
           (mkMission 1 "Watch the clip" 10 "ad" 30 true) "short" "long"
           (JObj [("duration", JInt 27)]) (JObj [("duration", JInt 40)]) 27 40).
  - reflexivity.
  - discriminate.
  - reflexivity.
  - reflexivity.
  - reflexivity.
  - reflexivity.
  - lia.
  - vm_compute. reflexivity.
Defined.

(** X15: an ad mission with a positive required duration (up to 100000
    seconds) rejects a proof whose JSON object has no duration key: the
    view duration then counts as 0. *)
Theorem ad_proof_without_duration_rejected (json_loads : string -> option json)
  (mission : Mission) (proof : string) (items : list (string * json)) :
  mission_type mission = "ad" ->
  0 < duration mission <= 100000 ->
  json_loads proof = Some (JObj items) ->
  find (fun kv => (fst kv =? "duration")%string) items = None ->
  validate_mission_completion json_loads mission proof = false.
Proof.
  intros Htype Hrange Hloads Hmissing.
  unfold validate_mission_completion.
  destruct (proof =? "")%string; [reflexivity |].
  rewrite Htype. cbn [String.eqb Ascii.eqb Bool.eqb].
  rewrite Hloads. unfold dict_get. rewrite Hmissing.
  rewrite (duration_reached_int (duration mission) 0) by lia.
  destruct (Z.leb_spec (9 * duration mission) (10 * 0)); [lia | reflexivity].
Qed.

Lemma ad_proof_without_duration_rejected_witness :
  validate_mission_completion
    (fun _ => Some (JObj [("watched", JBool true)]))
    (mkMission 1 "Watch the clip" 10 "ad" 30 true) "proof" = false.
Proof.
  apply (ad_proof_without_duration_rejected
           (fun _ => Some (JObj [("watched", JBool true)]))
           (mkMission 1 "Watch the clip" 10 "ad" 30 true) "proof"
           [("watched", JBool true)]).
  - reflexivity.
  - simpl; lia.
  - reflexivity.
  - reflexivity.
Defined.

(** ** Starting a payment, then the callback *)

Lemma append_empty_r (s : string) : (s ++ "")%string = s.
Proof. induction s as [| c r IH]; cbn; [reflexivity | rewrite IH; reflexivity]. Qed.

Lemma append_char_assoc (s : string) (c : ascii) (r : string) :
  ((s ++ String c "") ++ r)%string = (s ++ String c r)%string.
Proof. induction s as [| d t IH]; cbn; [reflexivity | rewrite IH; reflexivity]. Qed.

(** Without the separator in it a string splits into itself. *)
Lemma split_aux_no_separator (sep s : string) :
  contains sep s = false ->
  forall cur, split_aux sep 0 cur s = [(cur ++ s)%string].
Proof.
  induction s as [| c r IH]; intros Hnone cur.
  - cbn. rewrite append_empty_r. reflexivity.
  - cbn [contains] in Hnone. apply orb_false_iff in Hnone.
    destruct Hnone as [Hprefix Hrest].
    cbn [split_aux]. rewrite Hprefix, (IH Hrest), append_char_assoc. reflexivity.
Qed.

Lemma description_names_the_tier_aux (name : string) :
  contains ": " name = false ->
  tier_name_of ("Membership: " ++ name) = Some name.
Proof.
  intros Hnone.
  assert (Hempty : String.prefix "" name = true) by (destruct name; reflexivity).
  unfold tier_name_of, split. cbn. rewrite Hempty. cbn.
  rewrite (split_aux_no_separator ": " name Hnone). reflexivity.
Qed.

(** X16: the description [initialize_payment] writes and the parser of
    [mpesa_callback] agree: from "Membership: " followed by a tier name
    that contains no ": " the callback reads back exactly that name, and
    splitting any string that lacks the separator gives that string alone. *)
Theorem description_names_the_tier (name : string) :
  contains ": " name = false ->
  tier_name_of ("Membership: " ++ name) = Some name
  /\ split ": " name = [name].
Proof.
  intros Hnone. split.
  - apply description_names_the_tier_aux. exact Hnone.
  - unfold split. rewrite (split_aux_no_separator ": " name Hnone). reflexivity.
Qed.

Lemma description_names_the_tier_witness :
  tier_name_of ("Membership: " ++ "basic") = Some "basic"
  /\ split ": " "basic" = ["basic"].
Proof.
  apply (description_names_the_tier "basic"). reflexivity.
Defined.

(** A tier name with ": " in it is read back cut short. *)
Example description_of_odd_tier_name :
  tier_name_of ("Membership: " ++ "pro: yearly") = Some "pro".
Proof. reflexivity. Qed.

Lemma callback_creates_membership (db : DB) (reference : string)
  (result_code : json) (now : Z) (p : Payment) (name : string)
  (tier : MembershipTier) (user : User) :
  reference <> "" ->
  find (has_reference reference) (payments db) = Some p ->
  eq_zero result_code = true ->
  tier_name_of (pay_description p) = Some name ->
  name <> "" ->
  find (fun t => (tier_name t =? name)%string) (membership_tiers db) = Some tier ->
  get_user db (pay_user_id p) = Some user ->
  user_membership db user = None ->
  mpesa_callback db (Some reference) result_code now
  = (set_memberships
       (set_payments db
          (update_first (has_reference reference)
             (fun p => set_payment_status p "completed" (Some now)) (payments db)))
       (memberships db
        ++ [mkMembership (user_id user) (tier_id tier) now (now + 365 * 86400)
                         true (pay_reference p)]),
     Reply 200 [("success", JBool true)]).
Proof.
  intros Href Hpay Hzero Hname Hblank Htier Huser Hnone. unfold mpesa_callback.
  destruct (String.eqb_spec reference "") as [Hempty | _]; [contradiction |].
  rewrite Hpay, Hzero, Hname.
  destruct (String.eqb_spec name "") as [Hempty | _]; [contradiction |].
  rewrite Htier, Huser, Hnone. reflexivity.
Qed.

Section StartedPayments.

Variable initiate_stk_push : string -> Z -> string -> string -> result stk_outcome.
Variable url_for : string -> Z -> result string.

(** An accepted payment form leaves one new payment row, pending or (when
    the push was declined) failed, whatever the collaborators do. *)
Lemma initialize_payment_row (db : DB) (uid : Z) (user : User) (tid : Z)
  (tier : MembershipTier) (method : string) (phone : option string)
  (reference : string) (payment_id : Z) :
  get_user db uid = Some user ->
  find (fun t => tier_id t =? tid) (membership_tiers db) = Some tier ->
  tier_is_active tier = true ->
  existsb (String.eqb method) valid_payment_methods = true ->
  exists status,
    (status = "pending" \/ status = "failed")
    /\ fst (initialize_payment initiate_stk_push url_for db uid
              (mkPaymentForm (Some tid) (Some method) phone) reference payment_id)
       = set_payments db
           (payments db
            ++ [mkPayment (user_id user) (price tier) method status reference
                          ("Membership: " ++ tier_name tier) None]).
Proof.
  intros Hu Htier Hactive Hmethod. unfold initialize_payment.
  rewrite Hu. cbn [pf_tier_id pf_payment_method pf_phone_number].
  rewrite Htier, Hactive, Hmethod. cbn [negb].
  split_handler; cbn [fst];
    first [exists "pending"; split; [left; reflexivity | reflexivity]
          | exists "failed"; split; [right; reflexivity | reflexivity]].
Qed.

(** X17: a payment started for an active tier and then confirmed by the
    gateway gives the buyer that tier: if the buyer has no membership yet,
    the tier's name is not empty, contains no ": " and is the first of that
    name, the payment method is one of the accepted ones and the reference
    is not empty and new, then after the success callback the buyer has an
    active membership of that tier running 365 days from the callback and
    the payment reads completed -- whatever the M-Pesa client and the page
    links did when the payment was started. *)
Theorem started_purchase_completes (db : DB) (uid : Z) (user : User) (tid : Z)
  (tier : MembershipTier) (method : string) (phone : option string)
  (reference : string) (payment_id : Z) (result_code : json) (now : Z) :
  get_user db uid = Some user ->
  find (fun t => tier_id t =? tid) (membership_tiers db) = Some tier ->
  tier_is_active tier = true ->
  find (fun t => (tier_name t =? tier_name tier)%string) (membership_tiers db)
  = Some tier ->
  contains ": " (tier_name tier) = false ->
  tier_name tier <> "" ->
  existsb (String.eqb method) valid_payment_methods = true ->
  reference <> "" ->
  find (has_reference reference) (payments db) = None ->
  user_membership db user = None ->
  eq_zero result_code = true ->
  let started :=
    fst (initialize_payment initiate_stk_push url_for db uid
           (mkPaymentForm (Some tid) (Some method) phone) reference payment_id) in
  let paid := fst (mpesa_callback started (Some reference) result_code now) in
  user_membership paid user
  = Some (mkMembership (user_id user) (tier_id tier) now (now + 365 * 86400)
                       true reference)
  /\ find (has_reference reference) (payments paid)
     = Some (mkPayment (user_id user) (price tier) method "completed" reference
                       ("Membership: " ++ tier_name tier) (Some now)).
Proof.
  intros Hu Htier Hactive Hfirst Hsep Hname Hmethod Href Hnew Hnone Hzero
         started paid.
  destruct (initialize_payment_row db uid user tid tier method phone reference
              payment_id Hu Htier Hactive Hmethod) as (status & _ & Hstarted).
  fold started in Hstarted.
  set (p := mkPayment (user_id user) (price tier) method status reference
                      ("Membership: " ++ tier_name tier) None) in Hstarted.
  assert (Hp : has_reference reference p = true)
    by (unfold has_reference; cbn; apply String.eqb_refl).
  assert (Hpay : find (has_reference reference) (payments started) = Some p).
  { rewrite Hstarted. cbn [payments set_payments].
    rewrite find_snoc, Hnew, Hp. reflexivity. }
  assert (Hrun : mpesa_callback started (Some reference) result_code now
                 = (set_memberships
                      (set_payments started
                         (update_first (has_reference reference)
                            (fun p => set_payment_status p "completed" (Some now))
                            (payments started)))
                      (memberships started
                       ++ [mkMembership (user_id user) (tier_id tier) now
                                        (now + 365 * 86400) true (pay_reference p)]),
                    Reply 200 [("success", JBool true)])).
  { apply (callback_creates_membership started reference result_code now p
             (tier_name tier) tier user Href Hpay Hzero).
    - apply description_names_the_tier_aux. exact Hsep.
    - exact Hname.
    - rewrite Hstarted. exact Hfirst.
    - rewrite Hstarted. cbn [pay_user_id p].
      unfold get_user in *. cbn [users set_payments].
      rewrite (get_user_id db uid user Hu). exact Hu.
    - rewrite Hstarted. exact Hnone. }
  subst paid. rewrite Hrun. cbn [fst]. split.
  - unfold user_membership in *. cbn [memberships set_memberships set_payments].
    rewrite Hstarted. cbn [memberships set_payments].
    rewrite find_snoc, Hnone. cbn [ms_user_id]. rewrite Z.eqb_refl. reflexivity.
  - cbn [payments set_memberships set_payments]. rewrite Hstarted.
    cbn [payments set_payments].
    rewrite (update_first_snoc _ _ _ p Hnew Hp).
    rewrite find_snoc, Hnew. subst p.
    unfold has_reference, set_payment_status.
    cbn [pay_reference pay_user_id pay_amount pay_method pay_description].
    rewrite String.eqb_refl. reflexivity.
Qed.

End StartedPayments.

Lemma started_purchase_completes_witness :
  let started :=
    fst (initialize_payment PurchaseScenario.no_push PurchaseScenario.page
           PurchaseScenario.shop_db 4
           (mkPaymentForm (Some 1) (Some "mpesa") (Some "0712345678"))
           "SLH-1A2B3C4D" 1) in
  let paid := fst (mpesa_callback started (Some "SLH-1A2B3C4D") (JInt 0) 5000) in
  user_membership paid Scenario.user_d
  = Some (mkMembership 4 1 5000 (5000 + 365 * 86400) true "SLH-1A2B3C4D")
  /\ find (has_reference "SLH-1A2B3C4D") (payments paid)
     = Some (mkPayment 4 3500 "mpesa" "completed" "SLH-1A2B3C4D"
                       ("Membership: " ++ "basic") (Some 5000)).
Proof.
  apply (started_purchase_completes PurchaseScenario.no_push PurchaseScenario.page
           PurchaseScenario.shop_db 4 Scenario.user_d 1 Scenario.basic "mpesa"
           (Some "0712345678") "SLH-1A2B3C4D" 1 (JInt 0) 5000);
    try reflexivity; discriminate.
Defined.

(** A tier with the empty name can be bought but gives no membership: the
    description reads "Membership: ", the callback reads back an empty
    name and stops there, with the payment marked completed. *)
Example purchase_of_unnamed_tier_gives_no_membership :
  let started :=
    fst (initialize_payment PurchaseScenario.no_push PurchaseScenario.page
           PurchaseScenario.unnamed_db 4
           (mkPaymentForm (Some 2) (Some "mpesa") (Some "0712345678"))
           "SLH-5E6F7A8B" 1) in
  let paid := mpesa_callback started (Some "SLH-5E6F7A8B") (JInt 0) 5000 in
  user_membership (fst paid) Scenario.user_d = None
  /\ option_map pay_status (find (has_reference "SLH-5E6F7A8B") (payments (fst paid)))
     = Some "completed"
  /\ snd paid = Reply 200 [("success", JBool true)].
Proof. repeat split. Qed.

(** ** Memberships under any sequence of requests *)

Lemma handle_membership_step (json_loads : string -> option json) (db : DB)
  (now : Z) (req : request) :
  memberships (fst (handle json_loads db now req)) = memberships db
  \/ exists user mm,
       user_membership db user = None
       /\ ms_user_id mm = user_id user
       /\ memberships (fst (handle json_loads db now req)) = memberships db ++ [mm].
Proof.
  destruct req as [uid data | id data_status | uid id proof | reference code];
    cbn [handle].
  - left. unfold request_withdrawal, deduct_funds. split_handler; reflexivity.
  - left. unfold process_withdrawal.
    destruct (get_withdrawal db id) as [wd |]; [| reflexivity].
    destruct data_status as [s |]; [| reflexivity].
    destruct (negb (existsb (String.eqb s) valid_statuses)); [reflexivity |].
    destruct (negb (s =? "pending")%string && (wd_status wd =? "pending")%string
              && (s =? "failed")%string); [| reflexivity].
    destruct (get_user db (wd_user_id wd)) as [user |]; [| reflexivity].
    destruct (user_wallet db user) as [w |]; [| reflexivity].
    destruct (credit_wallet_cases db user w (wd_amount wd)
                "Refund for failed withdrawal") as [[_ ->] | ->]; reflexivity.
  - left. unfold complete_mission. split_handler; try reflexivity.
    credit_ok. reflexivity.
  - unfold mpesa_callback. split_handler; try (left; reflexivity).
    right.
    match goal with
    | H : user_membership _ ?u = None |- _ => exists u
    end.
    eexists. split; [assumption |]. split; [| reflexivity]. reflexivity.
Qed.

(** X18: no sequence of requests renews, upgrades, switches off or deletes
    a membership: the membership rows that exist stay exactly as they are
    (new ones are only appended), and if no user had two membership rows
    before, no user has two afterwards. *)
Theorem memberships_are_never_rewritten (json_loads : string -> option json)
  (reqs : list (Z * request)) :
  forall db,
  exists new,
    memberships (serve json_loads db reqs) = memberships db ++ new
    /\ (NoDup (map ms_user_id (memberships db)) ->
        NoDup (map ms_user_id (memberships (serve json_loads db reqs)))).
Proof.
  induction reqs as [| [now req] rest IH]; intros db.
  - exists []. rewrite app_nil_r. split; [reflexivity | trivial].
  - cbn [serve].
    destruct (IH (fst (handle json_loads db now req))) as (new2 & Hrest & Hdup2).
    destruct (handle_membership_step json_loads db now req)
      as [Hsame | (user & mm & Hnone & Hid & Hadd)].
    + exists new2. split; [rewrite Hrest, Hsame; reflexivity |].
      intros Hdup. apply Hdup2. rewrite Hsame. exact Hdup.
    + exists (mm :: new2).
      split; [rewrite Hrest, Hadd, <- app_assoc; reflexivity |].
      intros Hdup. apply Hdup2. rewrite Hadd, map_app. cbn [map].
      apply NoDup_app; [exact Hdup | repeat constructor; intros [] |].
      intros x Hx [<- | []]. rewrite Hid in Hx.
      apply in_map_iff in Hx. destruct Hx as (other & Hsame_user & Hin).
      unfold user_membership in Hnone.
      pose proof (find_none _ _ Hnone other Hin) as Hno. cbn in Hno.
      rewrite Hsame_user, Z.eqb_refl in Hno. discriminate.
Qed.

(** X19: a failure callback only marks the payment: the payment found for
    the reference reads failed afterwards (a completion time it already had
    stays), and memberships, wallets and the log are as before -- so a
    failure reported after a success leaves the membership in place. *)
Theorem failure_callback_only_marks_payment (db : DB) (reference : string)
  (result_code : json) (now : Z) (p : Payment) :
  reference <> "" ->
  find (has_reference reference) (payments db) = Some p ->
  eq_zero result_code = false ->
  let db' := fst (mpesa_callback db (Some reference) result_code now) in
  find (has_reference reference) (payments db')
  = Some (set_payment_status p "failed" (pay_completed_at p))
  /\ memberships db' = memberships db
  /\ wallets db' = wallets db
  /\ wallet_transactions db' = wallet_transactions db
  /\ snd (mpesa_callback db (Some reference) result_code now)
     = Reply 200 [("success", JBool false)].
Proof.
  intros Href Hpay Hfail db'. subst db'. unfold mpesa_callback.
  destruct (String.eqb_spec reference "") as [Hempty | _]; [contradiction |].
  rewrite Hpay, Hfail. cbn [fst snd payments memberships wallets
                            wallet_transactions set_payments].
  split; [| repeat split].
  apply (payment_found_after_update (payments db) reference
           (fun p => set_payment_status p "failed" (pay_completed_at p)) p Hpay).
  reflexivity.
Qed.

Lemma failure_callback_only_marks_payment_witness :
  let paid := fst (mpesa_callback Scenario.purchase_db (Some "SLH-000D") (JInt 0) 1000) in
  let db' := fst (mpesa_callback paid (Some "SLH-000D") (JInt 1032) 2000) in
  find (has_reference "SLH-000D") (payments db')
  = Some (set_payment_status
            (mkPayment 4 3500 "mpesa" "completed" "SLH-000D" "Membership: basic"
                       (Some 1000))
            "failed" (Some 1000))
  /\ memberships db' = memberships paid
  /\ wallets db' = wallets paid
  /\ wallet_transactions db' = wallet_transactions paid
  /\ snd (mpesa_callback paid (Some "SLH-000D") (JInt 1032) 2000)
     = Reply 200 [("success", JBool false)].
Proof.
  apply (failure_callback_only_marks_payment
           (fst (mpesa_callback Scenario.purchase_db (Some "SLH-000D") (JInt 0) 1000))
           "SLH-000D" (JInt 1032) 2000
           (mkPayment 4 3500 "mpesa" "completed" "SLH-000D" "Membership: basic"
                      (Some 1000))).
  - discriminate.
  - reflexivity.
  - reflexivity.
Defined.

(** ** How many referral rows a registration makes *)

Lemma indirect_referrals_rows (db : DB) (new_user_id : option Z) (levels : list Z) :
  NoDup levels ->
  forall current session out,
  indirect_referrals db new_user_id levels current session = Ok out ->
  exists rows,
    out = session ++ rows
    /\ (List.length rows <= List.length levels)%nat
    /\ NoDup (map level rows)
    /\ Forall (fun r => referred_id r = new_user_id /\ In (level r) levels) rows.
Proof.
  induction levels as [| lvl rest IH]; intros Hdup current session out Hrun.
  - cbn in Hrun. injection Hrun as <-. exists [].
    rewrite app_nil_r. repeat split; try constructor.
  - inversion Hdup as [| ? ? Hnotin Hdup']; subst.
    cbn [indirect_referrals] in Hrun.
    assert (Hstop : Ok session = Ok out ->
              exists rows,
                out = session ++ rows
                /\ (List.length rows <= List.length (lvl :: rest))%nat
                /\ NoDup (map level rows)
                /\ Forall (fun r => referred_id r = new_user_id
                                    /\ In (level r) (lvl :: rest)) rows).
    { intros Heq. injection Heq as <-. exists [].
      rewrite app_nil_r. cbn. repeat split; try constructor. lia. }
    destruct (find (refers_to current) (referrals db ++ session)) as [relation |];
      [| exact (Hstop Hrun)].
    destruct (get_user db (referrer_id relation)) as [ancestor |];
      [| exact (Hstop Hrun)].
    destruct (membership_allows db ancestor lvl) as [[|] | e]; [| | discriminate].
    + destruct (IH Hdup' _ _ _ Hrun) as (rows & Hout & Hlen & Hlevels & Hall).
      eexists (_ :: rows). rewrite Hout, <- app_assoc. split; [reflexivity |].
      split; [cbn; lia |]. split.
      * cbn [map level]. constructor; [| exact Hlevels].
        intros Hin. apply in_map_iff in Hin. destruct Hin as (r & Hr & Hrin).
        rewrite Forall_forall in Hall. destruct (Hall r Hrin) as [_ Hmem].
        apply Hnotin. rewrite <- Hr. exact Hmem.
      * constructor; [cbn; split; [reflexivity | left; reflexivity] |].
        apply Forall_forall. intros r Hr. rewrite Forall_forall in Hall.
        destruct (Hall r Hr) as [Hid Hmem]. split; [exact Hid | right; exact Hmem].
    + destruct (IH Hdup' _ _ _ Hrun) as (rows & Hout & Hlen & Hlevels & Hall).
      exists rows. split; [exact Hout |]. split; [cbn; lia |].
      split; [exact Hlevels |].
      apply Forall_forall. intros r Hr. rewrite Forall_forall in Hall.
      destruct (Hall r Hr) as [Hid Hmem]. split; [exact Hid | right; exact Hmem].
Qed.

(** X20: a registration that goes through only appends referral rows: the
    stored rows stay as they are, at most five are added, no two of them
    for the same level, every level is between 1 and 5, and all carry the
    same referred id. *)
Theorem registration_adds_at_most_five_edges (db : DB)
  (referral_code : option string) (new_user_id : option Z) (db' : DB) :
  register_referrals db referral_code new_user_id = Ok db' ->
  exists rows,
    db' = set_referrals db (referrals db ++ rows)
    /\ (List.length rows <= 5)%nat
    /\ NoDup (map level rows)
    /\ Forall (fun r => referred_id r = new_user_id /\ 1 <= level r <= 5) rows.
Proof.
  intros Hrun.
  assert (Hnone : Ok db = Ok db' ->
            exists rows,
              db' = set_referrals db (referrals db ++ rows)
              /\ (List.length rows <= 5)%nat
              /\ NoDup (map level rows)
              /\ Forall (fun r => referred_id r = new_user_id /\ 1 <= level r <= 5)
                        rows).
  { intros Heq. injection Heq as <-. exists []. rewrite app_nil_r.
    split; [destruct db; reflexivity |]. cbn. repeat split; try constructor. lia. }
  unfold register_referrals in Hrun.
  destruct referral_code as [code |]; [| exact (Hnone Hrun)].
  destruct (code =? "")%string; [exact (Hnone Hrun) |].
  destruct (find _ (users db)) as [referrer |]; [| exact (Hnone Hrun)].
  destruct (indirect_referrals db new_user_id [2; 3; 4; 5] referrer _)
    as [session | e] eqn:Hwalk; [| discriminate].
  injection Hrun as <-.
  destruct (indirect_referrals_rows db new_user_id [2; 3; 4; 5]
              ltac:(repeat constructor; cbn; intuition discriminate)
              _ _ _ Hwalk) as (rows & -> & Hlen & Hlevels & Hall).
  eexists (_ :: rows). split; [reflexivity |].
  split; [cbn in *; lia |]. split.
  - cbn [map level]. constructor; [| exact Hlevels].
    intros Hin. apply in_map_iff in Hin. destruct Hin as (r & Hr & Hrin).
    rewrite Forall_forall in Hall. destruct (Hall r Hrin) as [_ Hmem].
    rewrite Hr in Hmem. cbn in Hmem. intuition discriminate.
  - constructor; [cbn; split; [reflexivity | lia] |].
    apply Forall_forall. intros r Hr. rewrite Forall_forall in Hall.
    destruct (Hall r Hr) as [Hid Hmem]. split; [exact Hid |].
    cbn in Hmem. intuition lia.
Qed.

Lemma registration_adds_at_most_five_edges_witness :
  exists rows,
    set_referrals ReferralScenario.lapsed_db
      [mkReferral 1 1 (Some 2) 1; mkReferral 2 2 None 1; mkReferral 3 1 None 2]
    = set_referrals ReferralScenario.lapsed_db
        (referrals ReferralScenario.lapsed_db ++ rows)
    /\ (List.length rows <= 5)%nat
    /\ NoDup (map level rows)
    /\ Forall (fun r => referred_id r = None /\ 1 <= level r <= 5) rows.
Proof.
  apply (registration_adds_at_most_five_edges ReferralScenario.lapsed_db
           (Some "B") None).
  reflexivity.
Defined.

(** ** Tier administration *)

Lemma same_key_same_row {A : Type} (key : A -> Z) (l : list A) (a b : A) :
  NoDup (map key l) -> In a l -> In b l -> key a = key b -> a = b.
Proof.
  induction l as [| x r IH]; intros Hdup Ha Hb Hkey; [contradiction |].
  cbn [map] in Hdup. inversion Hdup as [| ? ? Hnotin Hdup']; subst.
  destruct Ha as [-> | Ha], Hb as [-> | Hb].
  - reflexivity.
  - exfalso. apply Hnotin. rewrite Hkey. apply in_map. exact Hb.
  - exfalso. apply Hnotin. rewrite <- Hkey. apply in_map. exact Ha.
  - apply IH; assumption.
Qed.

Lemma NoDup_map_update_first {A B : Type} (g : A -> B) (p : A -> bool) (y : A)
  (l : list A) :
  NoDup (map g l) -> ~ In (g y) (map g l) ->
  NoDup (map g (update_first p (fun _ => y) l)).
Proof.
  induction l as [| x r IH]; intros Hdup Hfresh; [constructor |].
  cbn [map] in *. inversion Hdup as [| ? ? Hnotin Hdup']; subst.
  cbn [update_first]. destruct (p x); cbn [map].
  - constructor; [| exact Hdup']. intros Hin. apply Hfresh. right. exact Hin.
  - constructor.
    + intros Hin. apply in_map_iff in Hin. destruct Hin as (z & Hz & Hzin).
      assert (Hcases : forall l', In z (update_first p (fun _ => y) l') ->
                                  z = y \/ In z l').
      { induction l' as [| u t IHt]; cbn [update_first]; [intros [] |].
        destruct (p u); intros [<- | Hin']; auto.
        - right. right. exact Hin'.
        - right. left. reflexivity.
        - destruct (IHt Hin'); [left | right; right]; assumption. }
      destruct (Hcases r Hzin) as [-> | Hzr].
      * apply Hfresh. left. symmetry. exact Hz.
      * apply Hnotin. rewrite <- Hz. apply in_map. exact Hzr.
    + apply IH; [exact Hdup' |]. intros Hin. apply Hfresh. right. exact Hin.
Qed.

(** X21: tier administration keeps tiers apart: if tier ids are distinct
    and tier names are distinct, they still are after any
    create_membership_tier and after any update_membership_tier, accepted
    or not. *)
Theorem tier_names_stay_unique (db : DB) :
  tiers_distinct db ->
  (forall data, tiers_distinct (fst (create_membership_tier db data)))
  /\ (forall id data, tiers_distinct (fst (update_membership_tier db id data))).
Proof.
  intros [Hids Hnames]. split.
  - intros data. unfold create_membership_tier.
    split_handler; try (split; assumption).
    unfold tiers_distinct. cbn [fst membership_tiers set_membership_tiers].
    rewrite !map_app. cbn [map tier_id tier_name].
    split; (apply NoDup_app; [assumption | repeat constructor; intros [] |]).
    + intros x Hx [<- | []].
      pose proof (fresh_id_above _ _ Hx). lia.
    + intros x Hx [<- | []].
      apply in_map_iff in Hx. destruct Hx as (t & Ht & Hin).
      match goal with
      | H : find (has_tier_name _) _ = None |- _ =>
          pose proof (find_none _ _ H t Hin) as Hno
      end.
      unfold has_tier_name in Hno. rewrite Ht, String.eqb_refl in Hno. discriminate.
  - intros id data. unfold update_membership_tier.
    destruct (find (has_tier_id id) (membership_tiers db)) as [tier |] eqn:Hfind;
      [| split; assumption].
    match goal with |- context [if ?c then _ else _] => destruct c eqn:Hclash end;
      [split; assumption |].
    unfold tiers_distinct. cbn [fst membership_tiers set_membership_tiers]. split.
    + rewrite (update_first_found_map tier_id _ tier); [exact Hids | exact Hfind |].
      reflexivity.
    + destruct (tf_name data) as [name |] eqn:Hname; cbn [or_keep].
      2:{ rewrite (update_first_found_map tier_name _ tier);
            [exact Hnames | exact Hfind | reflexivity]. }
      destruct (find (has_tier_name name) (membership_tiers db))
        as [existing |] eqn:Hexisting.
      * apply negb_false_iff, Z.eqb_eq in Hclash.
        pose proof Hfind as Hin. apply find_some in Hin.
        pose proof Hexisting as Hin'. apply find_some in Hin'.
        assert (Hsame : existing = tier)
          by (apply (same_key_same_row tier_id (membership_tiers db)); tauto).
        subst existing. destruct Hin' as [_ Hn].
        unfold has_tier_name in Hn. apply String.eqb_eq in Hn.
        rewrite (update_first_found_map tier_name _ tier);
          [exact Hnames | exact Hfind | cbn; symmetry; exact Hn].
      * apply NoDup_map_update_first; [exact Hnames |].
        cbn [tier_name]. intros Hin. apply in_map_iff in Hin.
        destruct Hin as (t & Ht & Htin).
        pose proof (find_none _ _ Hexisting t Htin) as Hno.
        unfold has_tier_name in Hno. rewrite Ht, String.eqb_refl in Hno.
        discriminate.
Qed.

Lemma tier_names_stay_unique_witness :
  (forall data,
     tiers_distinct (fst (create_membership_tier Scenario.purchase_db data)))
  /\ (forall id data,
        tiers_distinct (fst (update_membership_tier Scenario.purchase_db id data))).
Proof.
  apply (tier_names_stay_unique Scenario.purchase_db).
  split; repeat constructor; intros [].
Defined.

(** ** Phone numbers *)

Lemma startswith_split (prefix s : Phone.str) :
  Phone.startswith prefix s = true ->
  s = prefix ++ skipn (List.length prefix) s.
Proof.
  revert s. induction prefix as [| p prefix IH]; intros s H; [reflexivity |].
  destruct s as [| c s]; [discriminate |].
  cbn in H. apply andb_true_iff in H. destruct H as [Hpc Hrest].
  apply Z.eqb_eq in Hpc. subst c. cbn. f_equal. apply IH. exact Hrest.
Qed.

Lemma filter_all {A : Type} (p : A -> bool) (l : list A) :
  forallb p l = true -> filter p l = l.
Proof.
  induction l as [| x l IH]; cbn; [reflexivity |].
  intros H. apply andb_true_iff in H. destruct H as [Hx Hl].
  rewrite Hx. f_equal. apply IH. exact Hl.
Qed.

Lemma forallb_filter {A : Type} (p : A -> bool) (l : list A) :
  forallb p (filter p l) = true.
Proof.
  induction l as [| x l IH]; cbn; [reflexivity |].
  destruct (p x) eqn:Hx; cbn; [rewrite Hx |]; exact IH.
Qed.

Lemma firstn_exact {A : Type} (a b : list A) :
  firstn (List.length a) (a ++ b) = a.
Proof.
  induction a as [| x a IH]; cbn; [reflexivity | f_equal; exact IH].
Qed.

Lemma national_digits (c : Z) (digits rest : Phone.str) :
  List.length digits = 8%nat -> firstn 9 (c :: digits ++ rest) = c :: digits.
Proof.
  intros Hlen. change (c :: digits ++ rest) with ((c :: digits) ++ rest).
  replace 9%nat with (List.length (c :: digits)) by (cbn [List.length]; lia).
  apply firstn_exact.
Qed.

Section PhoneFacts.

Variable isdigit : Z -> bool.
Hypothesis isdigit_ascii :
  forall c, 0 <= c < 128 -> isdigit c = Phone.ascii_digit c.

Lemma ascii_digits_kept (l : Phone.str) :
  forallb Phone.ascii_digit l = true -> forallb isdigit l = true.
Proof.
  induction l as [| c l IH]; cbn; [reflexivity |].
  intros H. apply andb_true_iff in H. destruct H as [Hc Hl].
  rewrite (IH Hl), isdigit_ascii, Hc; [reflexivity |].
  unfold Phone.ascii_digit in Hc. lia.
Qed.

Lemma national_shape (s : Phone.str) :
  Phone.national s = true ->
  exists c digits rest,
    s = c :: digits ++ rest
    /\ (c = 49 \/ c = 55)
    /\ List.length digits = 8%nat
    /\ forallb Phone.ascii_digit digits = true
    /\ (rest = [] \/ rest = [10]).
Proof.
  destruct s as [| c s]; [discriminate |]. cbn [Phone.national].
  intros H. repeat (apply andb_true_iff in H; destruct H as [H ?]).
  exists c, (firstn 8 s), (skipn 8 s).
  rewrite firstn_skipn. split; [reflexivity |].
  split; [lia |]. split; [apply Nat.eqb_eq; assumption |].
  split; [assumption |].
  unfold Phone.at_end in *.
  destruct (skipn 8 s) as [| e [| ? ?]]; [left; reflexivity | | discriminate].
  right. f_equal. lia.
Qed.

Lemma filter_national (c : Z) (digits rest : Phone.str) :
  (c = 49 \/ c = 55) ->
  forallb Phone.ascii_digit digits = true ->
  (rest = [] \/ rest = [10]) ->
  filter isdigit (c :: digits ++ rest) = c :: digits.
Proof.
  intros Hc Hdigits Hrest.
  assert (Hkeep : isdigit c = true)
    by (rewrite isdigit_ascii; unfold Phone.ascii_digit; lia).
  cbn [filter]. rewrite Hkeep. f_equal.
  rewrite filter_app, (filter_all _ _ (ascii_digits_kept _ Hdigits)).
  destruct Hrest as [-> | ->]; cbn [filter].
  - apply app_nil_r.
  - rewrite isdigit_ascii by lia. cbn. apply app_nil_r.
Qed.

End PhoneFacts.

(** X22: a number that validate_mpesa_number returns has exactly twelve
    characters, all of them digits for str.isdigit, begins with 254, and
    is returned unchanged when it is validated again. *)
Theorem mpesa_number_is_normal_form (isdigit : Z -> bool)
  (phone_number n : Phone.str) :
  (forall c, 0 <= c < 128 -> isdigit c = Phone.ascii_digit c) ->
  Phone.validate_mpesa_number isdigit phone_number = Some n ->
  List.length n = 12%nat
  /\ Phone.startswith [50; 53; 52] n = true
  /\ forallb isdigit n = true
  /\ Phone.validate_mpesa_number isdigit n = Some n.
Proof.
  intros Hascii Hrun.
  assert (H50 : isdigit 50 = true) by (rewrite Hascii by lia; reflexivity).
  assert (H53 : isdigit 53 = true) by (rewrite Hascii by lia; reflexivity).
  assert (H52 : isdigit 52 = true) by (rewrite Hascii by lia; reflexivity).
  assert (Hshape : List.length n = 12%nat
                   /\ Phone.startswith [50; 53; 52] n = true
                   /\ forallb isdigit n = true).
  { unfold Phone.validate_mpesa_number in Hrun.
    pose proof (forallb_filter isdigit phone_number) as Hall.
    set (d := filter isdigit phone_number) in *.
    destruct ((List.length d =? 9)%nat && Phone.startswith [55] d) eqn:H9.
    { apply andb_true_iff in H9. destruct H9 as [Hlen _].
      apply Nat.eqb_eq in Hlen. injection Hrun as <-.
      cbn [List.length Phone.startswith forallb].
      rewrite Hlen, H50, H53, H52, Hall. auto. }
    destruct ((List.length d =? 10)%nat && Phone.startswith [48; 55] d) eqn:H10.
    { apply andb_true_iff in H10. destruct H10 as [Hlen _].
      apply Nat.eqb_eq in Hlen. destruct d as [| c d]; [discriminate |].
      cbn [skipn] in Hrun. injection Hrun as <-.
      cbn [List.length Phone.startswith forallb] in *.
      apply andb_true_iff in Hall. destruct Hall as [_ Hall].
      rewrite H50, H53, H52, Hall. repeat split. lia. }
    destruct ((List.length d =? 12)%nat && Phone.startswith [50; 53; 52] d) eqn:H12;
      [| discriminate].
    apply andb_true_iff in H12. destruct H12 as [Hlen Hstart].
    apply Nat.eqb_eq in Hlen. injection Hrun as <-. auto. }
  destruct Hshape as (Hlen & Hstart & Hall). repeat split; try assumption.
  unfold Phone.validate_mpesa_number.
  rewrite (filter_all _ _ Hall), Hlen, Hstart. reflexivity.
Qed.

Lemma mpesa_number_is_normal_form_witness :
  List.length [50; 53; 52; 55; 49; 50; 51; 52; 53; 54; 55; 56] = 12%nat
  /\ Phone.startswith [50; 53; 52]
       [50; 53; 52; 55; 49; 50; 51; 52; 53; 54; 55; 56] = true
  /\ forallb Phone.latin1_isdigit
       [50; 53; 52; 55; 49; 50; 51; 52; 53; 54; 55; 56] = true
  /\ Phone.validate_mpesa_number Phone.latin1_isdigit
       [50; 53; 52; 55; 49; 50; 51; 52; 53; 54; 55; 56]
     = Some [50; 53; 52; 55; 49; 50; 51; 52; 53; 54; 55; 56].
Proof.
  apply (mpesa_number_is_normal_form Phone.latin1_isdigit
           [48; 55; 49; 50; 32; 51; 52; 53; 45; 54; 55; 56]).
  - intros c Hc. unfold Phone.latin1_isdigit.
    replace (c =? 178) with false by lia.
    replace (c =? 179) with false by lia.
    replace (c =? 185) with false by lia.
    rewrite !orb_false_r. reflexivity.
  - reflexivity.
Defined.

(** X23: of the phone numbers that registration accepts with
    validate_phone, validate_mpesa_number refuses exactly those written
    01XXXXXXXX; every other one, the +2541XXXXXXXX form included, becomes
    254 followed by its nine national digits. *)
Theorem registered_phone_as_mpesa_number (isdigit : Z -> bool)
  (phone : Phone.str) :
  (forall c, 0 <= c < 128 -> isdigit c = Phone.ascii_digit c) ->
  Phone.validate_phone phone = true ->
  Phone.validate_mpesa_number isdigit phone
  = if Phone.startswith [48; 49] phone then None
    else Some ([50; 53; 52] ++ Phone.subscriber phone).
Proof.
  intros Hascii Hvalid. unfold Phone.validate_phone in Hvalid.
  destruct (Phone.startswith [43; 50; 53; 52] phone) eqn:Hplus.
  - apply startswith_split in Hplus.
    destruct (national_shape _ Hvalid)
      as (c & digits & rest & Hs & Hc & Hlen & Hdigits & Hrest).
    cbn [List.length] in Hplus. rewrite Hs in Hplus. rewrite Hplus.
    unfold Phone.validate_mpesa_number, Phone.subscriber.
    change ([43; 50; 53; 52] ++ c :: digits ++ rest)
      with (43 :: [50; 53; 52] ++ c :: digits ++ rest).
    cbn [filter]. rewrite (Hascii 43) by lia.
    change (Phone.ascii_digit 43) with false. cbv iota.
    rewrite filter_app, (filter_national isdigit Hascii c digits rest Hc Hdigits Hrest).
    assert (H254 : filter isdigit [50; 53; 52] = [50; 53; 52]).
    { cbn. rewrite !Hascii by lia. reflexivity. }
    rewrite H254. cbn [app List.length Phone.startswith skipn].
    rewrite Hlen. cbn [Nat.eqb andb Z.eqb Pos.eqb].
    change (43 =? 48) with false. change (43 =? 43) with true. cbn [andb skipn].
    rewrite (national_digits c digits rest Hlen). reflexivity.
  - destruct (Phone.startswith [48] phone) eqn:Hzero; [| discriminate].
    apply startswith_split in Hzero.
    destruct (national_shape _ Hvalid)
      as (c & digits & rest & Hs & Hc & Hlen & Hdigits & Hrest).
    cbn [List.length] in Hzero. rewrite Hs in Hzero. rewrite Hzero.
    unfold Phone.validate_mpesa_number, Phone.subscriber.
    assert (H0 : filter isdigit [48] = [48]).
    { cbn. rewrite Hascii by lia. reflexivity. }
    rewrite filter_app, H0,
      (filter_national isdigit Hascii c digits rest Hc Hdigits Hrest).
    cbn [app].
    cbn [List.length Phone.startswith skipn]. rewrite Hlen.
    cbn [Nat.eqb]. change (55 =? 48) with false. change (48 =? 48) with true.
    change (43 =? 48) with false. change (50 =? 48) with false.
    cbn [andb skipn].
    rewrite (national_digits c digits rest Hlen).
    destruct Hc as [-> | ->]; reflexivity.
Qed.

Lemma registered_phone_as_mpesa_number_witness :
  Phone.validate_mpesa_number Phone.latin1_isdigit
    [48; 49; 49; 50; 51; 52; 53; 54; 55; 56]
  = if Phone.startswith [48; 49] [48; 49; 49; 50; 51; 52; 53; 54; 55; 56]
    then None
    else Some ([50; 53; 52]
               ++ Phone.subscriber [48; 49; 49; 50; 51; 52; 53; 54; 55; 56]).
Proof.
  apply (registered_phone_as_mpesa_number Phone.latin1_isdigit).
  - intros c Hc. unfold Phone.latin1_isdigit.
    replace (c =? 178) with false by lia.
    replace (c =? 179) with false by lia.
    replace (c =? 185) with false by lia.
    rewrite !orb_false_r. reflexivity.
  - reflexivity.
Defined.

(** ** Referral statistics *)

Lemma filter_length_disjoint {A : Type} (q q1 q2 : A -> bool) (l : list A) :
  (forall x, q x = q1 x || q2 x) ->
  (forall x, q1 x && q2 x = false) ->
  List.length (filter q l)
  = (List.length (filter q1 l) + List.length (filter q2 l))%nat.
Proof.
  intros Hq Hdisjoint. induction l as [| x l IH]; [reflexivity |].
  cbn [filter]. rewrite Hq. specialize (Hdisjoint x).
  destruct (q1 x), (q2 x); cbn [orb List.length]; try discriminate; lia.
Qed.

Lemma sum_constant_map {A : Type} (a : Z) (l : list A) :
  sum (map (fun _ => a) l) = a * Z.of_nat (List.length l).
Proof.
  unfold sum. induction l as [| x l IH]; cbn [map fold_right List.length]; lia.
Qed.

Lemma range_snoc (n : nat) :
  range 1 (Z.of_nat (S n) + 1) = range 1 (Z.of_nat n + 1) ++ [Z.of_nat (S n)].
Proof.
  unfold range.
  replace (Z.to_nat (Z.of_nat (S n) + 1 - 1)) with (S n) by lia.
  replace (Z.to_nat (Z.of_nat n + 1 - 1)) with n by lia.
  rewrite seq_S, map_app. cbn [map Nat.add]. do 2 f_equal. lia.
Qed.

Lemma within_step (n : nat) (lvl : Z) :
  within (Z.of_nat (S n)) lvl
  = within (Z.of_nat n) lvl || (Z.of_nat (S n) =? lvl).
Proof.
  unfold within. rewrite Nat2Z.inj_succ.
  destruct (Z.leb_spec 1 lvl), (Z.leb_spec lvl (Z.succ (Z.of_nat n))),
    (Z.leb_spec lvl (Z.of_nat n)), (Z.eqb_spec (Z.succ (Z.of_nat n)) lvl);
    cbn [andb orb]; try reflexivity; lia.
Qed.

Lemma within_disjoint (n : nat) (lvl : Z) :
  within (Z.of_nat n) lvl && (Z.of_nat (S n) =? lvl) = false.
Proof.
  unfold within. rewrite Nat2Z.inj_succ.
  destruct (Z.leb_spec 1 lvl), (Z.leb_spec lvl (Z.of_nat n)),
    (Z.eqb_spec (Z.succ (Z.of_nat n)) lvl); cbn [andb]; try reflexivity; lia.
Qed.

Lemma count_referrals_step (db : DB) (referrer : Z) (n : nat) :
  count_referrals db referrer (within (Z.of_nat (S n)))
  = count_referrals db referrer (within (Z.of_nat n))
    + count_referrals db referrer (Z.eqb (Z.of_nat (S n))).
Proof.
  unfold count_referrals. rewrite <- Nat2Z.inj_add. f_equal.
  apply filter_length_disjoint.
  - intros r. rewrite within_step. destruct (referrer_id r =? referrer); reflexivity.
  - intros r. destruct (referrer_id r =? referrer); cbn [andb]; [| reflexivity].
    apply within_disjoint.
Qed.

Lemma joined_amounts_step (db : DB) (referrer : Z) (n : nat) :
  sum (joined_amounts db referrer (within (Z.of_nat (S n))))
  = sum (joined_amounts db referrer (within (Z.of_nat n)))
    + sum (joined_amounts db referrer (Z.eqb (Z.of_nat (S n)))).
Proof.
  unfold joined_amounts.
  induction (referral_commissions db) as [| c cs IH]; [reflexivity |].
  cbn [flat_map]. rewrite !sum_app, IH, !sum_constant_map.
  rewrite (filter_length_disjoint
             _
             (fun r => (referral_id r =? rc_referral_id c)
                       && (referrer_id r =? referrer)
                       && within (Z.of_nat n) (level r))
             (fun r => (referral_id r =? rc_referral_id c)
                       && (referrer_id r =? referrer)
                       && (Z.of_nat (S n) =? level r))).
  - lia.
  - intros r. rewrite within_step.
    destruct ((referral_id r =? rc_referral_id c) && (referrer_id r =? referrer));
      reflexivity.
  - intros r.
    destruct ((referral_id r =? rc_referral_id c) && (referrer_id r =? referrer));
      cbn [andb]; [| reflexivity].
    apply within_disjoint.
Qed.

Lemma stats_loop (db : DB) (referrer : Z) (n : nat) :
  let stats := fold_left (level_step db referrer) (range 1 (Z.of_nat n + 1))
                         (mkReferralStats 0 0 []) in
  total_referrals stats = count_referrals db referrer (within (Z.of_nat n))
  /\ total_commissions stats
     = sum (joined_amounts db referrer (within (Z.of_nat n)))
  /\ map fst (stats_levels stats) = range 1 (Z.of_nat n + 1)
  /\ total_referrals stats = sum (map (fun kv => ls_count (snd kv)) (stats_levels stats))
  /\ total_commissions stats
     = sum (map (fun kv => ls_commissions (snd kv)) (stats_levels stats)).
Proof.
  induction n as [| n IH].
  - cbn. unfold count_referrals, joined_amounts, within.
    assert (Hnone : forall l : list Referral,
               filter (fun r => (referrer_id r =? referrer)
                                && ((1 <=? level r) && (level r <=? 0))) l = []).
    { induction l as [| r l IHl]; [reflexivity |]. cbn [filter].
      replace ((1 <=? level r) && (level r <=? 0)) with false by lia.
      rewrite andb_false_r. exact IHl. }
    rewrite Hnone. repeat split; try reflexivity.
    induction (referral_commissions db) as [| c cs IHc]; [reflexivity |].
    cbn [flat_map]. rewrite sum_app, <- IHc, sum_constant_map.
    assert (Hnone' : forall l : list Referral,
               filter (fun r => (referral_id r =? rc_referral_id c)
                                && (referrer_id r =? referrer)
                                && ((1 <=? level r) && (level r <=? 0))) l = []).
    { induction l as [| r l IHl]; [reflexivity |]. cbn [filter].
      replace ((1 <=? level r) && (level r <=? 0)) with false by lia.
      rewrite andb_false_r. exact IHl. }
    rewrite Hnone'. cbn. lia.
  - cbv zeta in *. rewrite range_snoc, fold_left_app.
    set (stats := fold_left _ (range 1 (Z.of_nat n + 1)) _) in *.
    destruct IH as (Hcount & Hsum & Hkeys & Hlevels & Hlevels').
    cbn [fold_left level_step total_referrals total_commissions stats_levels].
    rewrite !map_app, !sum_app, count_referrals_step, joined_amounts_step.
    cbn [map fst snd ls_count ls_commissions sum fold_right].
    rewrite <- Hlevels, <- Hlevels', Hcount, Hsum, Hkeys.
    repeat split; try reflexivity; unfold sum; cbn [fold_right]; lia.
Qed.

(** X24: for a user whose membership is active, get_referral_stats
    answers, and its total_referrals is the number of the user's referral
    rows at the levels 1 to the tier's referral_levels, its
    total_commissions the sum of the commission amounts joined to those
    rows, and both are the sums of the per-level figures it reports. *)
Theorem referral_stats_cover_tier_depth (db : DB) (user : User)
  (m : Membership) (tier : MembershipTier) :
  get_user db (user_id user) = Some user ->
  user_membership db user = Some m ->
  ms_is_active m = true ->
  membership_tier db m = Some tier ->
  exists stats,
    get_referral_stats db (user_id user) = Ok (Some stats)
    /\ total_referrals stats
       = count_referrals db (user_id user) (within (referral_levels tier))
    /\ total_commissions stats
       = sum (joined_amounts db (user_id user) (within (referral_levels tier)))
    /\ total_referrals stats
       = sum (map (fun kv => ls_count (snd kv)) (stats_levels stats))
    /\ total_commissions stats
       = sum (map (fun kv => ls_commissions (snd kv)) (stats_levels stats)).
Proof.
  intros Huser Hm Hactive Htier. unfold get_referral_stats.
  rewrite Huser, Hm, Hactive, Htier. eexists. split; [reflexivity |].
  set (depth := referral_levels tier).
  assert (Hrange : range 1 (depth + 1) = range 1 (Z.of_nat (Z.to_nat depth) + 1)).
  { unfold range. do 2 f_equal. lia. }
  assert (Hwithin : forall lvl, within depth lvl = within (Z.of_nat (Z.to_nat depth)) lvl).
  { intros lvl. unfold within.
    destruct (Z.leb_spec 1 lvl), (Z.leb_spec lvl depth),
      (Z.leb_spec lvl (Z.of_nat (Z.to_nat depth)));
      cbn [andb]; try reflexivity; lia. }
  assert (Hcount : count_referrals db (user_id user) (within depth)
                   = count_referrals db (user_id user)
                       (within (Z.of_nat (Z.to_nat depth)))).
  { unfold count_referrals. do 2 f_equal. apply filter_ext.
    intros r. rewrite Hwithin. reflexivity. }
  assert (Hjoined : joined_amounts db (user_id user) (within depth)
                    = joined_amounts db (user_id user)
                        (within (Z.of_nat (Z.to_nat depth)))).
  { unfold joined_amounts. apply flat_map_ext. intros c. f_equal.
    apply filter_ext. intros r. rewrite Hwithin. reflexivity. }
  rewrite Hrange, Hcount, Hjoined.
  destruct (stats_loop db (user_id user) (Z.to_nat depth))
    as (H1 & H2 & _ & H3 & H4).
  auto.
Qed.

Lemma referral_stats_cover_tier_depth_witness :
  exists stats,
    get_referral_stats StatsScenario.stats_db
      (user_id StatsScenario.holder) = Ok (Some stats)
    /\ total_referrals stats
       = count_referrals StatsScenario.stats_db (user_id StatsScenario.holder)
           (within (referral_levels StatsScenario.silver))
    /\ total_commissions stats
       = sum (joined_amounts StatsScenario.stats_db
                (user_id StatsScenario.holder)
                (within (referral_levels StatsScenario.silver)))
    /\ total_referrals stats
       = sum (map (fun kv => ls_count (snd kv)) (stats_levels stats))
    /\ total_commissions stats
       = sum (map (fun kv => ls_commissions (snd kv)) (stats_levels stats)).
Proof.
  apply (referral_stats_cover_tier_depth StatsScenario.stats_db
           StatsScenario.holder StatsScenario.held StatsScenario.silver);
    reflexivity.
Defined.
